(** * byteforce-space-plaid: the Express/SQLite/Plaid backend of
    [server/index.js], embedded as state-passing functions.

    - JSON data (request bodies, what Plaid returns, what the handlers send)
      is the type [value]; the JavaScript operators the code applies to it
      ([||], [??], [?.]) are written out on that type.
    - The two SQLite tables, the files under [web/], the console and the
      outside world (Plaid, the clock) form the [State] every handler
      threads; an upstream call either answers or throws.
    - The two [while]/[do-while] loops take a fuel argument; running out of
      fuel is the outcome [OutOfFuel], which no [catch] intercepts. *)

From Stdlib Require Import QArith.
From stdpp Require Import gmap strings list fin_maps.

Local Open Scope string_scope.
Local Open Scope nat_scope.

Set Warnings "-register-all".

(** ** JSON values and the JavaScript operators used on them *)

Inductive value : Type :=
| VUndefined
| VNull
| VBool (b : bool)
| VNum (q : Q)
| VStr (s : string)
| VArr (xs : list value)
| VObj (fields : list (string * value))
| VBuiltin (name : string).
  (* not JSON data: a built-in function or object of the JavaScript
     runtime, reached through a prototype chain *)

Definition num_of_nat (n : nat) : value := VNum (inject_Z (Z.of_nat n)).

(** ToBoolean. *)
Definition truthy (v : value) : bool :=
  match v with
  | VUndefined | VNull => false
  | VBool b => b
  | VNum q => negb (Qeq_bool q 0)
  | VStr s => negb (String.eqb s "")
  | VArr _ | VObj _ | VBuiltin _ => true
  end.

(** [a || b] *)
Definition js_or (a b : value) : value := if truthy a then a else b.

Definition nullish (v : value) : bool :=
  match v with VUndefined | VNull => true | _ => false end.

(** [a ?? b] *)
Definition js_coalesce (a b : value) : value := if nullish a then b else a.

Notation "a '.||' b" := (js_or a b) (at level 50, left associativity).
Notation "a '.??' b" := (js_coalesce a b) (at level 50, left associativity).

(** Own property of an object literal; [None] when the key is absent. *)
Fixpoint obj_lookup (k : string) (fields : list (string * value)) : option value :=
  match fields with
  | [] => None
  | (k', v) :: rest => if String.eqb k k' then Some v else obj_lookup k rest
  end.

(** [o.k] on an object: an absent property reads as [undefined]. *)
Definition prop (k : string) (o : value) : value :=
  match o with
  | VObj fields => default VUndefined (obj_lookup k fields)
  | _ => VUndefined
  end.

(** The own property [k] of [o], when [o] is an object that has it. *)
Definition own (k : string) (o : value) : option value :=
  match o with
  | VObj fields => obj_lookup k fields
  | _ => None
  end.

(** [v?.k]: [undefined] on [undefined]/[null]; on the other JSON values the
    property read (no key used in this program is defined on a primitive
    or on an array). *)
Definition opt_prop (v : value) (k : string) : value := prop k v.

(** [o[k] = v] on an object literal: overwrite in place or append. *)
Fixpoint obj_set (k : string) (v : value) (fields : list (string * value))
  : list (string * value) :=
  match fields with
  | [] => [(k, v)]
  | (k', v') :: rest =>
      if String.eqb k k' then (k, v) :: rest else (k', v') :: obj_set k v rest
  end.

(** [{...a, ...b}] for two object literals. *)
Definition obj_spread (a b : list (string * value)) : list (string * value) :=
  fold_left (fun acc kv => obj_set (fst kv) (snd kv) acc) b a.

(** [xs.flatMap(f)]: an array returned by [f] is spliced, anything else is
    kept as one element. *)
Definition flat1 (v : value) : list value :=
  match v with VArr xs => xs | _ => [v] end.

Definition flatMap (f : value -> value) (xs : list value) : list value :=
  concat (map (fun x => flat1 (f x)) xs).

(** [o ? s : ''] for nullable text: [s || ''] and [s || null]. *)
Definition str_truthy (o : option string) : bool :=
  match o with Some s => negb (String.eqb s "") | None => false end.

Definition str_or_empty (o : option string) : string :=
  match o with Some s => s | None => "" end.

Definition str_or_null (o : option string) : option string :=
  if str_truthy o then o else None.

Definition opt_str (o : option string) : value :=
  match o with Some s => VStr s | None => VNull end.

(** ** Plain objects used as dictionaries

    [const o = {}], [o[k] = {...}] and [o[k]].  A plain object inherits
    from [Object.prototype]: a key that was never set still reads as the
    built-in of that name when there is one, and assigning an object to the
    key [__proto__] replaces the prototype instead of creating a
    property. *)

(** [Object.getOwnPropertyNames(Object.prototype)], [__proto__] apart. *)
Definition Object_prototype_names : list string :=
  ["constructor"; "__defineGetter__"; "__defineSetter__"; "hasOwnProperty";
   "__lookupGetter__"; "__lookupSetter__"; "isPrototypeOf"; "propertyIsEnumerable";
   "toString"; "valueOf"; "toLocaleString"].

(** What [Object.prototype] gives for the key [k]. *)
Definition inherited (k : string) : value :=
  if existsb (String.eqb k) Object_prototype_names
  then VBuiltin ("Object.prototype." ++ k)
  else VUndefined.

Record PlainObject := {
  properties : gmap string value;               (* own properties *)
  prototype : option (list (string * value)) }. (* the object literal put in place
                                                   of [Object.prototype], if any *)

(** [{}] *)
#[global] Instance PlainObject_empty : Empty PlainObject :=
  {| properties := ∅; prototype := None |}.

(** [o[k] = { fields }] *)
Definition object_set (k : string) (fields : list (string * value)) (o : PlainObject)
  : PlainObject :=
  if String.eqb k "__proto__"
  then {| properties := properties o; prototype := Some fields |}
  else {| properties := <[k := VObj fields]> (properties o);
          prototype := prototype o |}.

(** [o[k]]: the own property, else what the prototype chain gives. *)
Definition object_get (k : string) (o : PlainObject) : value :=
  match properties o !! k with
  | Some v => v
  | None =>
      match prototype o with
      | Some fields =>
          if String.eqb k "__proto__" then VObj fields
          else match obj_lookup k fields with
               | Some v => v
               | None => inherited k
               end
      | None =>
          if String.eqb k "__proto__" then VBuiltin "Object.prototype"
          else inherited k
      end
  end.

(** ** Errors *)

(** What a [catch (e)] clause reads from [e]: [e.response?.data] (set by the
    Plaid client on an HTTP error) and [e.message]. *)
Record Err := { response_data : value; message : string }.

(** [e.response?.data || e.message] *)
Definition err_detail (e : Err) : value := response_data e .|| VStr (message e).

Definition ReferenceError (name : string) : Err :=
  {| response_data := VUndefined; message := name ++ " is not defined" |}.

Definition TypeError (msg : string) : Err :=
  {| response_data := VUndefined; message := msg |}.

(** ** What Plaid returns

    Identifiers and the fields the code uses as array, count or flag are
    typed as Plaid's schema gives them; every field the code guards with
    [||], [??] or [?.] is an arbitrary JSON [value] ([VUndefined] when the
    property is absent). *)

Module Account.
Record t := {
  account_id : string;
  name : value;
  official_name : value;
  mask : value;
  type : value;
  subtype : value;
  balances : value }.

(** [{ ...a, balances: v }] *)
Definition with_balances (a : t) (v : value) : t :=
  {| account_id := account_id a; name := name a;
     official_name := official_name a; mask := mask a; type := type a;
     subtype := subtype a; balances := v |}.

Definition json (a : t) : value :=
  VObj [("account_id", VStr (account_id a)); ("name", name a);
        ("official_name", official_name a); ("mask", mask a);
        ("type", type a); ("subtype", subtype a);
        ("balances", balances a)].
End Account.

Module Transaction.
Record t := {
  account_id : string;
  date : value;
  name : value;
  merchant_name : value;
  payee : value;
  amount : value;
  category : value }.
End Transaction.

(** Liability entries; Plaid's schema allows [account_id: null] here, and a
    [null] used as a property key reads as the string "null". *)
Module Credit.
Record t := {
  account_id : option string;
  apr : value;
  minimum_payment_amount : value;
  next_payment_due_date : value }.
Definition json (c : t) : value :=
  VObj [("account_id", opt_str (account_id c)); ("apr", apr c);
        ("minimum_payment_amount", minimum_payment_amount c);
        ("next_payment_due_date", next_payment_due_date c)].
End Credit.

Module Student.
Record t := {
  account_id : option string;
  interest_rate_percentage : value;
  minimum_payment_amount : value;
  next_payment_due_date : value }.
Definition json (s : t) : value :=
  VObj [("account_id", opt_str (account_id s));
        ("interest_rate_percentage", interest_rate_percentage s);
        ("minimum_payment_amount", minimum_payment_amount s);
        ("next_payment_due_date", next_payment_due_date s)].
End Student.

Module Mortgage.
Record t := {
  account_id : option string;
  interest_rate : value;
  next_monthly_payment : value;
  next_payment_due_date : value }.
Definition json (m : t) : value :=
  VObj [("account_id", opt_str (account_id m));
        ("interest_rate", interest_rate m);
        ("next_monthly_payment", next_monthly_payment m);
        ("next_payment_due_date", next_payment_due_date m)].
End Mortgage.

Definition property_key (o : option string) : string := default "null" o.

Module Liabilities.
(** [None] is an absent (or [null]) array. *)
Record t := {
  credit : option (list Credit.t);
  student : option (list Student.t);
  mortgage : option (list Mortgage.t) }.

Definition arr {A} (f : A -> value) (o : option (list A)) : value :=
  match o with Some l => VArr (map f l) | None => VUndefined end.

Definition json (l : t) : value :=
  VObj [("credit", arr Credit.json (credit l));
        ("student", arr Student.json (student l));
        ("mortgage", arr Mortgage.json (mortgage l))].
End Liabilities.

(** Response bodies ([resp.data]) of the typed endpoints. *)
Module AccountsGet.
Record t := { accounts : option (list Account.t) }.
End AccountsGet.

Module LiabilitiesGet.
Record t := {
  liabilities : option Liabilities.t;
  accounts : value }.
End LiabilitiesGet.

Module TransactionsGet.
Record request := {
  access_token : string;
  start_date : string;
  end_date : string;
  count : nat;
  offset : nat }.
Record t := {
  total_transactions : nat;
  transactions : list Transaction.t }.
End TransactionsGet.

Module TransactionsSync.
Record request := {
  access_token : string;
  cursor : option string;   (* [cursor || undefined] *)
  count : nat }.
Record t := {
  added : list value;
  modified : list value;
  removed : list value;
  next_cursor : string;
  has_more : bool }.
End TransactionsSync.

Module Exchange.
Record t := { access_token : string; item_id : string }.
End Exchange.

Inductive reply (A : Type) : Type :=
| Answer (data : A)
| Rejected (e : Err).
Arguments Answer {A} data.
Arguments Rejected {A} e.

Definition is_rejected {A} (r : reply A) : bool :=
  match r with Rejected _ => true | Answer _ => false end.

(** The Plaid client: every method reads and advances the outside world. *)
Record PlaidApi (World : Type) := {
  linkTokenCreate : value -> World -> reply value * World;
  itemPublicTokenExchange : value -> World -> reply Exchange.t * World;
  accountsBalanceGet : string -> string -> World -> reply AccountsGet.t * World;
  accountsGet : string -> World -> reply AccountsGet.t * World;
  liabilitiesGet : string -> World -> reply LiabilitiesGet.t * World;
  transactionsGet : TransactionsGet.request -> World -> reply TransactionsGet.t * World;
  transactionsSync : TransactionsSync.request -> World -> reply TransactionsSync.t * World;
  transactionsRefresh : string -> World -> reply value * World;
  transactionsRecurringGet : string -> World -> reply value * World;
  assetReportCreate : value -> World -> reply value * World;
  assetReportGet : value -> World -> reply value * World;
  assetReportPdfGet : value -> World -> reply value * World;
  assetReportRemove : value -> World -> reply value * World;
  transactionsEnrich : value -> World -> reply value * World }.
Arguments linkTokenCreate {World}.
Arguments itemPublicTokenExchange {World}.
Arguments accountsBalanceGet {World}.
Arguments accountsGet {World}.
Arguments liabilitiesGet {World}.
Arguments transactionsGet {World}.
Arguments transactionsSync {World}.
Arguments transactionsRefresh {World}.
Arguments transactionsRecurringGet {World}.
Arguments assetReportCreate {World}.
Arguments assetReportGet {World}.
Arguments assetReportPdfGet {World}.
Arguments assetReportRemove {World}.
Arguments transactionsEnrich {World}.

(** The rest of the runtime: clock, built-in conversions, Express helpers,
    SQLite's row id and timestamp defaults, and [process.env]. *)
Record Runtime (World : Type) := {
  plaid : PlaidApi World;
  Date_now : World -> Z * World;          (* [Date.now()], [new Date()] *)
  toISOString : Z -> string;
  JSON_stringify : value -> string;
  Number_ : value -> value;               (* [Number(x)] *)
  String_ : value -> value;               (* [String(x)] *)
  template_report_id : Z -> value;        (* [`byteforce-${n}`] *)
  Buffer_from : value -> value;
  express_static : gmap string string -> string -> option string;
  fs_writeFile : string -> string -> World -> option Err * World;
                                          (* [fs.writeFile]: [Some e] when it rejects *)
  sqlite_rowid : World -> nat;
  CURRENT_TIMESTAMP : World -> string;
  PLAID_REDIRECT_URI : option string;
  DASHBOARD_REFRESH_TOKEN : option string }.
Arguments plaid {World}.
Arguments Date_now {World}.
Arguments toISOString {World}.
Arguments JSON_stringify {World}.
Arguments Number_ {World}.
Arguments String_ {World}.
Arguments template_report_id {World}.
Arguments Buffer_from {World}.
Arguments express_static {World}.
Arguments fs_writeFile {World}.
Arguments sqlite_rowid {World}.
Arguments CURRENT_TIMESTAMP {World}.
Arguments PLAID_REDIRECT_URI {World}.
Arguments DASHBOARD_REFRESH_TOKEN {World}.

(** ** The SQLite tables *)

Module Row.
Record t := {
  id : nat;
  item_id : string;
  access_token : string;
  institution_name : option string;
  created_at : string }.
End Row.

Record DB := {
  items : list Row.t;                       (* in rowid order *)
  cursors : gmap string (option string) }.  (* item_id -> cursor (nullable) *)

Definition has_item (item_id : string) (rows : list Row.t) : bool :=
  existsb (fun r => String.eqb (Row.item_id r) item_id) rows.

(** [INSERT OR IGNORE INTO items (item_id, access_token, institution_name)]:
    the row is dropped when [item_id] violates the UNIQUE constraint. *)
Definition insertItem (rowid : nat) (now : string)
    (item_id access_token : string) (institution_name : option string)
    (d : DB) : DB :=
  if has_item item_id (items d) then d
  else {| items := items d ++
                   [{| Row.id := rowid; Row.item_id := item_id;
                       Row.access_token := access_token;
                       Row.institution_name := institution_name;
                       Row.created_at := now |}];
          cursors := cursors d |}.

(** [INSERT INTO cursors ... ON CONFLICT(item_id) DO UPDATE SET cursor=@cursor] *)
Definition upsertCursor (item_id : string) (cursor : option string) (d : DB) : DB :=
  {| items := items d; cursors := <[item_id := cursor]> (cursors d) |}.

(** [SELECT cursor FROM cursors WHERE item_id = ?]: the row, if any. *)
Definition getCursor (item_id : string) (d : DB) : option (option string) :=
  cursors d !! item_id.

(** [SELECT item_id, access_token, institution_name FROM items] *)
Definition getAccessTokens (d : DB) : list Row.t := items d.

(** [SELECT * FROM items WHERE item_id = ?], first row. *)
Definition getOneItem (item_id : string) (d : DB) : option Row.t :=
  find (fun r => String.eqb (Row.item_id r) item_id) (items d).

Definition empty_db : DB := {| items := []; cursors := ∅ |}.


(** ** State and the monad of handlers *)

Record State (World : Type) := {
  db : DB;
  files : gmap string string;      (* path -> contents *)
  console : list (list value);     (* arguments of each [console.error] *)
  world : World }.
Arguments Build_State {World}.
Arguments db {World}.
Arguments files {World}.
Arguments console {World}.
Arguments world {World}.

Inductive outcome (A : Type) : Type :=
| Ret (a : A)
| Throw (e : Err)
| OutOfFuel.
Arguments Ret {A} a.
Arguments Throw {A} e.
Arguments OutOfFuel {A}.

Definition M (World A : Type) : Type := State World -> outcome A * State World.

Definition ret {W A} (a : A) : M W A := fun st => (Ret a, st).

Definition throw {W A} (e : Err) : M W A := fun st => (Throw e, st).

Definition out_of_fuel {W A} : M W A := fun st => (OutOfFuel, st).

Definition bind {W A B} (m : M W A) (k : A -> M W B) : M W B :=
  fun st =>
    match m st with
    | (Ret a, st') => k a st'
    | (Throw e, st') => (Throw e, st')
    | (OutOfFuel, st') => (OutOfFuel, st')
    end.

Declare Scope js_scope.
Delimit Scope js_scope with js.
Notation "x <- m ;; k" := (bind m (fun x => k))
  (at level 100, m at next level, right associativity) : js_scope.
Notation "m ;; k" := (bind m (fun _ => k))
  (at level 100, right associativity) : js_scope.
Local Open Scope js_scope.

(** [try { m } catch (e) { ... }], with the caught error handed back. *)
Definition attempt {W A} (m : M W A) : M W (A + Err) :=
  fun st =>
    match m st with
    | (Ret a, st') => (Ret (inl a), st')
    | (Throw e, st') => (Ret (inr e), st')
    | (OutOfFuel, st') => (OutOfFuel, st')
    end.

Definition try_catch {W A} (m : M W A) (h : Err -> M W A) : M W A :=
  r <- attempt m ;;
  match r with inl a => ret a | inr e => h e end.

(** [await plaid.method(...)]: a rejected promise is a thrown error. *)
Definition upstream {W A} (call : W -> reply A * W) : M W A :=
  fun st =>
    let '(r, w) := call (world st) in
    let st' := Build_State (db st) (files st) (console st) w in
    match r with
    | Answer data => (Ret data, st')
    | Rejected e => (Throw e, st')
    end.

Definition ask {W A} (read : W -> A) : M W A := fun st => (Ret (read (world st)), st).

Definition clock {W} (now : W -> Z * W) : M W Z :=
  fun st =>
    let '(t, w) := now (world st) in
    (Ret t, Build_State (db st) (files st) (console st) w).

Definition console_error {W} (args : list value) : M W unit :=
  fun st => (Ret tt, Build_State (db st) (files st) (console st ++ [args])%list (world st)).

Definition query {W A} (q : DB -> A) : M W A := fun st => (Ret (q (db st)), st).

Definition run {W} (stmt : DB -> DB) : M W unit :=
  fun st => (Ret tt, Build_State (stmt (db st)) (files st) (console st) (world st)).

Definition readFile {W} (path : string) : M W string :=
  fun st =>
    match files st !! path with
    | Some data => (Ret data, st)
    | None => (Throw {| response_data := VUndefined;
                        message := "ENOENT: no such file or directory, open '" ++ path ++ "'" |}, st)
    end.

(** ** HTTP responses *)

Inductive Body :=
| Json (v : value)      (* [res.json(v)] *)
| Send (data : value).  (* [res.send(data)], [res.sendFile(path)] *)

Record Response := {
  status : nat;
  headers : list (string * string);
  body : Body }.

Definition json (code : nat) (v : value) : Response :=
  {| status := code; headers := []; body := Json v |}.

Definition error_json (code : nat) (marker : string) : Response :=
  json code (VObj [("error", VStr marker)]).

Definition WEB_DIR : string := "../web".
Definition DASH_JSON : string := WEB_DIR ++ "/dashboard_data.json".

(** [date.toISOString().slice(0,10)] *)
Definition ymd (iso : string) : string := String.substring 0 10 iso.

Definition day_ms : Z := 24 * 60 * 60 * 1000.

(** ** Offset pagination of [transactionsGet]

    Step 3 of the snapshot builder: the [do { ... } while (offset < total)]
    loop together with the [try] around it.  [tx] is filled in place, so
    when a call throws, the [catch] goes on with the pages pushed before. *)

Section Pagination.
Context {World : Type}.
Variable transactionsGet :
  TransactionsGet.request -> World -> reply TransactionsGet.t * World.

Definition page_request (row : Row.t) (start end_ : string) (offset : nat)
  : TransactionsGet.request :=
  {| TransactionsGet.access_token := Row.access_token row;
     TransactionsGet.start_date := start;
     TransactionsGet.end_date := end_;
     TransactionsGet.count := 500;
     TransactionsGet.offset := offset |}.

Fixpoint transactionsLoop (fuel : nat) (row : Row.t) (start end_ : string)
    (offset : nat) (tx : list Transaction.t) : M World (list Transaction.t) :=
  match fuel with
  | O => out_of_fuel
  | S fuel' =>
      r <- attempt (upstream (transactionsGet (page_request row start end_ offset))) ;;
      match r with
      | inl resp =>
          let total := TransactionsGet.total_transactions resp in
          let tx := (tx ++ TransactionsGet.transactions resp)%list in
          let offset := offset + length (TransactionsGet.transactions resp) in
          if offset <? total
          then transactionsLoop fuel' row start end_ offset tx
          else ret tx
      | inr e =>
          console_error [VStr "transactionsGet failed (continuing)";
                         VStr (Row.item_id row); err_detail e] ;;
          ret tx
      end
  end.

End Pagination.

(** ** The snapshot builder, [fetchItemSnapshot] *)

Section Server.
Context {World : Type} (rt : Runtime World).

Local Abbreviation JS := (M World).

(** [await fs.writeFile(path, data)]: the file is replaced, or the promise is
    rejected and no file changes. *)
Definition writeFile (path data : string) : JS unit :=
  fun st =>
    let '(r, w) := fs_writeFile rt path data (world st) in
    match r with
    | None => (Ret tt, Build_State (db st) (<[path := data]> (files st)) (console st) w)
    | Some e => (Throw e, Build_State (db st) (files st) (console st) w)
    end.

(** The object literal stored for an account. *)
Definition liability_fields
    (apr_percentage minimum_payment_amount next_payment_due_date : value)
  : list (string * value) :=
  [("apr_percentage", apr_percentage);
   ("minimum_payment_amount", minimum_payment_amount);
   ("next_payment_due_date", next_payment_due_date)].

(** The three [forEach] bodies: [liabByAccount[x.account_id] = {...}]. *)
Definition add_credit (liabByAccount : PlainObject) (c : Credit.t) : PlainObject :=
  object_set (property_key (Credit.account_id c))
    (liability_fields (opt_prop (Credit.apr c) "apr_percentage" .?? VNull)
                      (Credit.minimum_payment_amount c .?? VNull)
                      (Credit.next_payment_due_date c .?? VNull))
    liabByAccount.

Definition add_student (liabByAccount : PlainObject) (s : Student.t) : PlainObject :=
  object_set (property_key (Student.account_id s))
    (liability_fields (Student.interest_rate_percentage s .?? VNull)
                      (Student.minimum_payment_amount s .?? VNull)
                      (Student.next_payment_due_date s .?? VNull))
    liabByAccount.

Definition add_mortgage (liabByAccount : PlainObject) (m : Mortgage.t) : PlainObject :=
  object_set (property_key (Mortgage.account_id m))
    (liability_fields
       (Number_ rt (opt_prop (Mortgage.interest_rate m) "percentage" .?? VNum 0))
       (Mortgage.next_monthly_payment m .?? VNull)
       (Mortgage.next_payment_due_date m .?? VNull))
    liabByAccount.

(** [L.data.liabilities?.kind || []] *)
Definition liabilities_of {A} (kind : Liabilities.t -> option (list A))
    (L : LiabilitiesGet.t) : list A :=
  match LiabilitiesGet.liabilities L with
  | Some l => default [] (kind l)
  | None => []
  end.

(** [const liabByAccount = {}], filled by the three [forEach]: a plain
    object used as a dictionary keyed by account identifier. *)
Definition fill_liabilities (L : LiabilitiesGet.t) : PlainObject :=
  let liabByAccount := fold_left add_credit (liabilities_of Liabilities.credit L) ∅ in
  let liabByAccount := fold_left add_student (liabilities_of Liabilities.student L) liabByAccount in
  fold_left add_mortgage (liabilities_of Liabilities.mortgage L) liabByAccount.

(** [new Map(accounts.map(a => [a.account_id, a]))]: a later entry with the
    same key replaces the earlier one. *)
Definition acctMap_of (accounts : list Account.t) : gmap string Account.t :=
  fold_left (fun m a => <[Account.account_id a := a]> m) accounts ∅.

Definition shape_account (instName : string) (liabByAccount : PlainObject)
    (a : Account.t) : value :=
  VObj [("institution", VStr instName);
        ("name", Account.name a .|| Account.official_name a .|| Account.mask a
                 .|| VStr (Account.account_id a));
        ("nickname", Account.official_name a .|| VStr "");
        ("mask", Account.mask a .|| VStr "");
        ("type", Account.type a .|| VStr "");
        ("subtype", Account.subtype a .|| VStr "");
        ("balances", Account.balances a .|| VObj []);
        ("liability", object_get (Account.account_id a) liabByAccount .|| VNull)].

(** [a?.f] for the result of [acctMap.get]. *)
Definition opt_field (f : Account.t -> value) (a : option Account.t) : value :=
  match a with Some a => f a | None => VUndefined end.

Definition shape_transaction (instName : string) (acctMap : gmap string Account.t)
    (t : Transaction.t) : value :=
  let a := acctMap !! Transaction.account_id t in
  VObj [("date", Transaction.date t);
        ("name", Transaction.name t .|| Transaction.merchant_name t
                 .|| Transaction.payee t .|| VStr "");
        ("amount", Transaction.amount t);
        ("category", Transaction.category t .|| VArr []);
        ("institution", VStr instName);
        ("nickname", opt_field Account.name a .|| opt_field Account.official_name a
                     .|| VStr "")].

(** Step 1.  [None] is the early return when both calls failed; otherwise
    [Some accounts], where [accounts] is what the variable holds: the array
    of the fallback, or [accRes.data.accounts] as the first call gave it,
    [None] when that property is absent. *)
Definition fetch_accounts (row : Row.t) : JS (option (option (list Account.t))) :=
  let access_token := Row.access_token row in
  r1 <- attempt (
          now <- clock (Date_now rt) ;;
          upstream (accountsBalanceGet (plaid rt) access_token
                      (toISOString rt (now - 30 * day_ms)))) ;;
  match r1 with
  | inl accRes => ret (Some (AccountsGet.accounts accRes))
  | inr e1 =>
      console_error [VStr "accountsBalanceGet failed"; VStr (Row.item_id row);
                     err_detail e1] ;;
      r2 <- attempt (upstream (accountsGet (plaid rt) access_token)) ;;
      match r2 with
      | inl accRes2 =>
          ret (Some (Some
                 (map (fun a => Account.with_balances a (Account.balances a .|| VObj []))
                      (default [] (AccountsGet.accounts accRes2)))))
      | inr e2 =>
          console_error [VStr "accountsGet failed"; VStr (Row.item_id row);
                         err_detail e2] ;;
          ret None
      end
  end.

(** Step 2: best effort. *)
Definition fetch_liabilities (row : Row.t) : JS PlainObject :=
  r <- attempt (upstream (liabilitiesGet (plaid rt) (Row.access_token row))) ;;
  match r with
  | inl L => ret (fill_liabilities L)
  | inr e =>
      console_error [VStr "liabilitiesGet failed (continuing)"; VStr (Row.item_id row);
                     err_detail e] ;;
      ret ∅
  end.

(** Step 4: shape accounts, shape transactions. *)
Definition reshape (row : Row.t) (accounts : list Account.t)
    (liabByAccount : PlainObject) (tx : list Transaction.t) : value :=
  let acctMap := acctMap_of accounts in
  let instName := str_or_empty (Row.institution_name row) in
  let accountsOut := map (shape_account instName liabByAccount) accounts in
  let txOut := map (shape_transaction instName acctMap) tx in
  VObj [("accounts", VArr accountsOut); ("transactions", VArr txOut)].

Definition accounts_failed : value :=
  VObj [("accounts", VArr []); ("transactions", VArr []);
        ("error", VStr "accounts_failed")].

Definition fetchItemSnapshot (fuel : nat) (row : Row.t) (rangeDays : Z) : JS value :=
  end_date <- clock (Date_now rt) ;;
  now <- clock (Date_now rt) ;;
  let start_date := (now - rangeDays * day_ms)%Z in
  accounts <- fetch_accounts row ;;
  match accounts with
  | None => ret accounts_failed
  | Some accounts =>
      liabByAccount <- fetch_liabilities row ;;
      match accounts with
      | None =>
          (* [accounts.map] on [undefined], outside every [try] *)
          throw (TypeError "Cannot read properties of undefined (reading 'map')")
      | Some accounts =>
          tx <- transactionsLoop (transactionsGet (plaid rt)) fuel row
                  (ymd (toISOString rt start_date)) (ymd (toISOString rt end_date)) 0 [] ;;
          ret (reshape row accounts liabByAccount tx)
      end
  end.

(** ** Routes *)

(** [try { m } catch (e) { console.error(e.response?.data || e.message);
    res.status(500).json({ error: marker }) }] *)
Definition guarded (m : JS Response) (marker : string) : JS Response :=
  try_catch m (fun e => console_error [err_detail e] ;; ret (error_json 500 marker)).

(** [for (const r of rows) { ... out.push(entry) }] *)
Fixpoint for_of {A B} (rows : list A) (body : A -> JS B) : JS (list B) :=
  match rows with
  | [] => ret []
  | r :: rest =>
      x <- body r ;;
      xs <- for_of rest body ;;
      ret (x :: xs)
  end.

Definition link_token_request (client_name : string) (products : value)
    (access_token : option string) : value :=
  let redirectUri := str_or_null (PLAID_REDIRECT_URI rt) in
  VObj ((match access_token with
         | Some t => [("access_token", VStr t)]
         | None => []
         end ++
         [("user", VObj [("client_user_id", VStr "local-user-1")]);
          ("client_name", VStr client_name);
          ("products", products);
          ("country_codes", VArr [VStr "US"]);
          ("language", VStr "en")] ++
         match redirectUri with
         | Some uri => [("redirect_uri", VStr uri)]
         | None => []
         end)%list).

Definition default_products : value :=
  VArr [VStr "transactions"; VStr "liabilities"; VStr "assets"].

(** POST /api/create_link_token *)
Definition create_link_token : JS Response :=
  guarded (
    createResp <- upstream (linkTokenCreate (plaid rt)
                    (link_token_request "Byteforce Budget" default_products None)) ;;
    ret (json 200 (VObj [("link_token", prop "link_token" createResp)])))
  "create_link_token_failed".

(** [stmt.get(item_id)]: better-sqlite3 binds [undefined] as NULL, and
    [item_id = NULL] selects no row. *)
Definition getOneItem_get (item_id : option string) : JS (option Row.t) :=
  match item_id with
  | Some i => query (getOneItem i)
  | None => ret None
  end.

(** POST /api/link_token/update *)
Definition link_token_update (item_id : option string) (products : value) : JS Response :=
  guarded (
    row <- getOneItem_get item_id ;;
    match row with
    | None => ret (error_json 404 "unknown_item")
    | Some row =>
        upd <- upstream (linkTokenCreate (plaid rt)
                 (link_token_request "Byteforce Budget (Update)"
                    (products .|| default_products) (Some (Row.access_token row)))) ;;
        ret (json 200 (VObj [("link_token", prop "link_token" upd)]))
    end)
  "link_update_failed".

(** POST /api/exchange_public_token *)
Definition exchange_public_token (public_token : value)
    (institution_name : option string) : JS Response :=
  guarded (
    if negb (truthy public_token) then ret (error_json 400 "missing_public_token")
    else
      exch <- upstream (itemPublicTokenExchange (plaid rt) public_token) ;;
      let access_token := Exchange.access_token exch in
      let item_id := Exchange.item_id exch in
      rowid <- ask (sqlite_rowid rt) ;;
      now <- ask (CURRENT_TIMESTAMP rt) ;;
      run (insertItem rowid now item_id access_token (str_or_null institution_name)) ;;
      ret (json 200 (VObj [("item_id", VStr item_id)])))
  "exchange_failed".

(** GET /api/items *)
Definition list_items : JS Response :=
  rows <- query getAccessTokens ;;
  ret (json 200 (VArr (map (fun r => VObj [("item_id", VStr (Row.item_id r))]) rows))).

(** [getCursor.get(item_id)?.cursor || null] *)
Definition stored_cursor (item_id : string) (d : DB) : option string :=
  match getCursor item_id d with
  | Some c => str_or_null c
  | None => None
  end.

Record SyncAcc := {
  sync_cursor : option string;
  sync_added : list value;
  sync_modified : list value;
  sync_removed : list value }.

(** [while (hasMore) { ... }] of both sync routes; the routes differ only in
    keeping the batches or their lengths. *)
Fixpoint syncLoop (fuel : nat) (access_token : string) (hasMore : bool)
    (acc : SyncAcc) : JS SyncAcc :=
  if hasMore then
    match fuel with
    | O => out_of_fuel
    | S fuel' =>
        d <- upstream (transactionsSync (plaid rt)
               {| TransactionsSync.access_token := access_token;
                  TransactionsSync.cursor := str_or_null (sync_cursor acc);
                  TransactionsSync.count := 500 |}) ;;
        syncLoop fuel' access_token (TransactionsSync.has_more d)
          {| sync_cursor := Some (TransactionsSync.next_cursor d);
             sync_added := (sync_added acc ++ TransactionsSync.added d)%list;
             sync_modified := (sync_modified acc ++ TransactionsSync.modified d)%list;
             sync_removed := (sync_removed acc ++ TransactionsSync.removed d)%list |}
    end
  else ret acc.

Definition sync_start (cursor : option string) : SyncAcc :=
  {| sync_cursor := cursor; sync_added := []; sync_modified := []; sync_removed := [] |}.

(** POST /api/transactions/sync *)
Definition transactions_sync (fuel : nat) (item_id : option string) : JS Response :=
  guarded (
    if negb (str_truthy item_id) then ret (error_json 400 "missing_item_id")
    else
      let item_id := str_or_empty item_id in
      row <- query (getOneItem item_id) ;;
      match row with
      | None => ret (error_json 404 "unknown_item")
      | Some row =>
          cursor <- query (stored_cursor item_id) ;;
          acc <- syncLoop fuel (Row.access_token row) true (sync_start cursor) ;;
          run (upsertCursor item_id (sync_cursor acc)) ;;
          ret (json 200 (VObj [("item_id", VStr item_id);
                               ("added_count", num_of_nat (length (sync_added acc)));
                               ("modified_count", num_of_nat (length (sync_modified acc)));
                               ("removed_count", num_of_nat (length (sync_removed acc)));
                               ("sample_added", VArr (take 5 (sync_added acc)))]))
      end)
  "sync_failed".

Record Summary := {
  sum_item_id : string;
  sum_added : nat;
  sum_modified : nat;
  sum_removed : nat }.

Definition summary_json (s : Summary) : value :=
  VObj [("item_id", VStr (sum_item_id s)); ("added", num_of_nat (sum_added s));
        ("modified", num_of_nat (sum_modified s)); ("removed", num_of_nat (sum_removed s))].

(** The body of the [for] loop of sync-all. *)
Definition sync_all_item (fuel : nat) (r : Row.t) : JS Summary :=
  cursor <- query (stored_cursor (Row.item_id r)) ;;
  acc <- syncLoop fuel (Row.access_token r) true (sync_start cursor) ;;
  run (upsertCursor (Row.item_id r) (sync_cursor acc)) ;;
  ret {| sum_item_id := Row.item_id r;
         sum_added := length (sync_added acc);
         sum_modified := length (sync_modified acc);
         sum_removed := length (sync_removed acc) |}.

(** POST /api/transactions/sync-all *)
Definition transactions_sync_all (fuel : nat) : JS Response :=
  guarded (
    rows <- query getAccessTokens ;;
    summary <- for_of rows (sync_all_item fuel) ;;
    ret (json 200 (VObj [("items", VArr (map summary_json summary));
                         ("total_added",
                          num_of_nat (fold_left (fun a b => a + sum_added b) summary 0))])))
  "sync_all_failed".

(** [{ item_id: r.item_id, error: err.response?.data || err.message }] *)
Definition item_error (r : Row.t) (err : Err) : value :=
  VObj [("item_id", VStr (Row.item_id r)); ("error", err_detail err)].

(** POST /api/transactions/refresh-all *)
Definition transactions_refresh_all : JS Response :=
  guarded (
    rows <- query getAccessTokens ;;
    out <- for_of rows (fun r =>
             try_catch (
               resp <- upstream (transactionsRefresh (plaid rt) (Row.access_token r)) ;;
               ret (VObj [("item_id", VStr (Row.item_id r));
                          ("request_id", prop "request_id" resp)]))
             (fun err => ret (item_error r err))) ;;
    ret (json 200 (VObj [("refreshed", VArr out)])))
  "refresh_all_failed".

(** GET /api/transactions/recurring *)
Definition transactions_recurring : JS Response :=
  guarded (
    rows <- query getAccessTokens ;;
    items <- for_of rows (fun r =>
               try_catch (
                 rec <- upstream (transactionsRecurringGet (plaid rt) (Row.access_token r)) ;;
                 ret (VObj [("item_id", VStr (Row.item_id r));
                            ("inflow_streams", prop "inflow_streams" rec);
                            ("outflow_streams", prop "outflow_streams" rec)]))
               (fun err => ret (item_error r err))) ;;
    ret (json 200 (VObj [("items", VArr items)])))
  "recurring_failed".

Definition accounts_json (accounts : option (list Account.t)) : value :=
  match accounts with
  | Some l => VArr (map Account.json l)
  | None => VUndefined
  end.

(** GET /api/accounts *)
Definition accounts_route : JS Response :=
  guarded (
    rows <- query getAccessTokens ;;
    items <- for_of rows (fun r =>
               try_catch (
                 a <- upstream (accountsGet (plaid rt) (Row.access_token r)) ;;
                 ret (VObj [("item_id", VStr (Row.item_id r));
                            ("accounts", accounts_json (AccountsGet.accounts a))]))
               (fun err => ret (item_error r err))) ;;
    ret (json 200 (VObj [("items", VArr items)])))
  "accounts_failed".

(** The fallback of the balances route: accounts without balances, each
    with [balances: x.balances || {}]. *)
Definition balances_fallback (r : Row.t) : JS value :=
  try_catch (
    a <- upstream (accountsGet (plaid rt) (Row.access_token r)) ;;
    ret (VObj [("item_id", VStr (Row.item_id r));
               ("accounts",
                VArr (map (fun x => Account.json
                                      (Account.with_balances x (Account.balances x .|| VObj [])))
                          (default [] (AccountsGet.accounts a))))]))
  (fun err2 => ret (item_error r err2)).

(** The body of the [for] loop of the balances route.  The inner [try]
    reads the variable [b], which is declared nowhere in the module. *)
Definition balances_item (r : Row.t) : JS value :=
  try_catch (
    b <- throw (ReferenceError "b") ;;
    ret (VObj [("item_id", VStr (Row.item_id r));
               ("accounts", prop "accounts" (prop "data" b))]))
  (fun err => balances_fallback r).

(** GET /api/balances *)
Definition balances_route : JS Response :=
  guarded (
    rows <- query getAccessTokens ;;
    items <- for_of rows balances_item ;;
    ret (json 200 (VObj [("items", VArr items)])))
  "balances_failed".

(** GET /api/liabilities *)
Definition liabilities_route : JS Response :=
  guarded (
    rows <- query getAccessTokens ;;
    items <- for_of rows (fun r =>
               try_catch (
                 L <- upstream (liabilitiesGet (plaid rt) (Row.access_token r)) ;;
                 ret (VObj [("item_id", VStr (Row.item_id r));
                            ("liabilities",
                             match LiabilitiesGet.liabilities L with
                             | Some l => Liabilities.json l
                             | None => VUndefined
                             end);
                            ("accounts", LiabilitiesGet.accounts L)]))
               (fun err => ret (item_error r err))) ;;
    ret (json 200 (VObj [("items", VArr items)])))
  "liabilities_failed".

(** [catch (e) { res.status(code).json({ error: e.response?.data || e.message }) }] *)
Definition reporting (code : nat) (m : JS Response) : JS Response :=
  try_catch m (fun e => ret (json code (VObj [("error", err_detail e)]))).

(** POST /api/assets/create *)
Definition assets_create (days_requested : value) : JS Response :=
  reporting 500 (
    let days := Number_ rt (days_requested .|| VNum 90) in
    rows <- query getAccessTokens ;;
    let access_tokens := map (fun r => VStr (Row.access_token r)) rows in
    if length access_tokens =? 0 then ret (error_json 400 "no_items")
    else
      now <- clock (Date_now rt) ;;
      ar <- upstream (assetReportCreate (plaid rt)
              (VObj [("access_tokens", VArr access_tokens);
                     ("days_requested", days);
                     ("options", VObj [("client_report_id", template_report_id rt now);
                                       ("include_insights", VBool true)])])) ;;
      ret (json 200 (VObj [("asset_report_token", prop "asset_report_token" ar);
                           ("asset_report_id", prop "asset_report_id" ar)]))).

(** GET /api/assets/get *)
Definition assets_get (token : value) : JS Response :=
  reporting 202 (
    if negb (truthy token) then ret (error_json 400 "missing token")
    else
      r <- upstream (assetReportGet (plaid rt)
             (VObj [("asset_report_token", String_ rt token)])) ;;
      ret (json 200 r)).

(** GET /api/assets/pdf *)
Definition assets_pdf (token : value) : JS Response :=
  try_catch (
    if negb (truthy token)
    then ret {| status := 400; headers := []; body := Send (VStr "missing token") |}
    else
      pdf <- upstream (assetReportPdfGet (plaid rt)
               (VObj [("asset_report_token", String_ rt token)])) ;;
      ret {| status := 200; headers := [("Content-Type", "application/pdf")];
             body := Send (Buffer_from rt pdf) |})
  (fun e => ret {| status := 500; headers := []; body := Send (err_detail e) |}).

(** POST /api/assets/remove *)
Definition assets_remove (token : value) : JS Response :=
  reporting 500 (
    if negb (truthy token) then ret (error_json 400 "missing token")
    else
      r <- upstream (assetReportRemove (plaid rt)
             (VObj [("asset_report_token", token)])) ;;
      ret (json 200 r)).

(** [!Array.isArray(transactions) || transactions.length === 0] *)
Definition no_transactions (transactions : value) : bool :=
  match transactions with
  | VArr (_ :: _) => false
  | _ => true
  end.

(** POST /api/enrich *)
Definition enrich (transactions : value) : JS Response :=
  reporting 500 (
    if no_transactions transactions then ret (error_json 400 "provide transactions[]")
    else
      out <- upstream (transactionsEnrich (plaid rt)
               (VObj [("transactions", transactions)])) ;;
      ret (json 200 out)).

(** Express answers 404 when a static file is missing. *)
Definition not_found : Response :=
  {| status := 404; headers := []; body := Send VUndefined |}.

(** What Express answers when [send] refuses a path. *)
Definition forbidden : Response :=
  {| status := 403; headers := []; body := Send VUndefined |}.

(** GET /oauth-redirect: [res.sendFile] is given a path through [..] and no
    [root], which [send] refuses whether or not the file exists. *)
Definition oauth_redirect : JS Response := ret forbidden.

(** GET /dashboard_data.json; an error of [fs.readFile] has a message, so
    [String(e && e.message || e)] is that message. *)
Definition dashboard_data_json : JS Response :=
  try_catch (
    data <- readFile DASH_JSON ;;
    ret {| status := 200;
           headers := [("Cache-Control", "no-store");
                       ("Content-Type", "application/json; charset=utf-8")];
           body := Send (VStr data) |})
  (fun e => ret (json 404 (VObj [("error", VStr "not_found");
                                 ("detail", VStr (message e))]))).

(** [express.static] on [web/] *)
Definition static (path : string) : JS Response :=
  fun st =>
    match express_static rt (files st) path with
    | Some data => (Ret {| status := 200; headers := []; body := Send (VStr data) |}, st)
    | None => (Ret not_found, st)
    end.

(** [{ item_id: r.item_id, ...snap }] *)
Definition with_item_id (r : Row.t) (snap : value) : value :=
  VObj (obj_spread [("item_id", VStr (Row.item_id r))]
          match snap with VObj fields => fields | _ => [] end).

(** [!process.env.DASHBOARD_REFRESH_TOKEN || hdr !== process.env.DASHBOARD_REFRESH_TOKEN]
    with [hdr = req.get('X-Refresh-Token') || '']. *)
Definition unauthorized (x_refresh_token : option string) : bool :=
  let hdr := str_or_empty x_refresh_token in
  match DASHBOARD_REFRESH_TOKEN rt with
  | None => true
  | Some secret => String.eqb secret "" || negb (String.eqb hdr secret)
  end.

(** POST /refresh_dashboard *)
Definition refresh_dashboard (fuel : nat) (x_refresh_token : option string) : JS Response :=
  try_catch (
    if unauthorized x_refresh_token then ret (error_json 401 "unauthorized")
    else
      items <- query getAccessTokens ;;
      for_of items (fun r =>
        try_catch (upstream (transactionsRefresh (plaid rt) (Row.access_token r)) ;; ret tt)
          (fun e => console_error [VStr "transactionsRefresh failed (continuing)";
                                   VStr (Row.item_id r); err_detail e])) ;;
      snapshots <- for_of items (fun r =>
        try_catch (
          snap <- fetchItemSnapshot fuel r 365 ;;
          ret (with_item_id r snap))
        (fun e =>
          console_error [VStr "snapshot failed (continuing)"; VStr (Row.item_id r);
                         err_detail e] ;;
          ret (VObj [("item_id", VStr (Row.item_id r)); ("accounts", VArr []);
                     ("transactions", VArr []); ("error", VStr "snapshot_failed")]))) ;;
      let accounts := flatMap (prop "accounts") snapshots in
      let transactions := flatMap (prop "transactions") snapshots in
      now <- clock (Date_now rt) ;;
      let errors := List.filter (fun s => truthy (prop "error" s)) snapshots in
      let out := VObj [("last_updated", VStr (toISOString rt now));
                       ("accounts", VArr accounts);
                       ("transactions", VArr transactions);
                       ("errors", VArr errors)] in
      writeFile DASH_JSON (JSON_stringify rt out) ;;
      ret (json 200 (VObj [("ok", VBool true);
                           ("accounts", num_of_nat (length accounts));
                           ("transactions", num_of_nat (length transactions));
                           ("errors", num_of_nat (length errors))])))
  (fun e =>
    console_error [VStr "refresh_dashboard failed (top-level)"; err_detail e] ;;
    ret (error_json 500 "refresh_dashboard_failed")).

(** ** The server: one request, one response *)

Inductive Request :=
| POST_create_link_token
| POST_link_token_update (item_id : option string) (products : value)
| POST_exchange_public_token (public_token : value) (institution_name : option string)
| GET_items
| POST_transactions_sync (item_id : option string)
| POST_transactions_sync_all
| POST_transactions_refresh_all
| GET_transactions_recurring
| GET_accounts
| GET_balances
| GET_liabilities
| POST_assets_create (days_requested : value)
| GET_assets_get (token : value)
| GET_assets_pdf (token : value)
| POST_assets_remove (token : value)
| POST_enrich (transactions : value)
| GET_oauth_redirect
| GET_dashboard_data_json
| GET_static (path : string)
| POST_refresh_dashboard (x_refresh_token : option string).

Definition handle (fuel : nat) (req : Request) : JS Response :=
  match req with
  | POST_create_link_token => create_link_token
  | POST_link_token_update item_id products => link_token_update item_id products
  | POST_exchange_public_token public_token institution_name =>
      exchange_public_token public_token institution_name
  | GET_items => list_items
  | POST_transactions_sync item_id => transactions_sync fuel item_id
  | POST_transactions_sync_all => transactions_sync_all fuel
  | POST_transactions_refresh_all => transactions_refresh_all
  | GET_transactions_recurring => transactions_recurring
  | GET_accounts => accounts_route
  | GET_balances => balances_route
  | GET_liabilities => liabilities_route
  | POST_assets_create days_requested => assets_create days_requested
  | GET_assets_get token => assets_get token
  | GET_assets_pdf token => assets_pdf token
  | POST_assets_remove token => assets_remove token
  | POST_enrich transactions => enrich transactions
  | GET_oauth_redirect => oauth_redirect
  | GET_dashboard_data_json => dashboard_data_json
  | GET_static path => static path
  | POST_refresh_dashboard x_refresh_token => refresh_dashboard fuel x_refresh_token
  end.

End Server.

(** ** A scripted upstream for the pagination loop

    The [k]-th call of [transactionsGet] is answered by [responses k]; the
    world is the log of the requests made so far. *)

Section Tape.
Variable responses : nat -> reply TransactionsGet.t.

Definition tape (req : TransactionsGet.request) (log : list TransactionsGet.request)
  : reply TransactionsGet.t * list TransactionsGet.request :=
  (responses (length log), (log ++ [req])%list).

Definition page_of (r : reply TransactionsGet.t) : list Transaction.t :=
  match r with
  | Answer resp => TransactionsGet.transactions resp
  | Rejected _ => []
  end.

(** The transactions returned by the first [k] responses, in order. *)
Fixpoint fetched (k : nat) : list Transaction.t :=
  match k with
  | O => []
  | S k' => (fetched k' ++ page_of (responses k'))%list
  end.

(** After response [k] the loop is left: the call threw, or the count
    accumulated with this page has reached the total it reports. *)
Definition stops_after (k : nat) : bool :=
  match responses k with
  | Answer resp => TransactionsGet.total_transactions resp <=? length (fetched (S k))
  | Rejected _ => true
  end.

(** The requests of calls [0 .. k-1] when none of them left the loop. *)
Definition requests (row : Row.t) (start end_ : string) (k : nat)
  : list TransactionsGet.request :=
  map (fun j => page_request row start end_ (length (fetched j))) (seq 0 k).

End Tape.

Definition tx0 : Transaction.t :=
  {| Transaction.account_id := "acc-1"; Transaction.date := VStr "2024-01-02";
     Transaction.name := VStr "Coffee"; Transaction.merchant_name := VUndefined;
     Transaction.payee := VUndefined; Transaction.amount := VNum 4;
     Transaction.category := VUndefined |}.

(** An upstream whose reported total stays ahead of what it has returned. *)
Definition growing (k : nat) : reply TransactionsGet.t :=
  Answer {| TransactionsGet.total_transactions := k + 2;
            TransactionsGet.transactions := [tx0] |}.

(** Three transactions in pages of two and one, total reported as 3. *)
Definition two_pages (k : nat) : reply TransactionsGet.t :=
  Answer {| TransactionsGet.total_transactions := 3;
            TransactionsGet.transactions := match k with O => [tx0; tx0] | _ => [tx0] end |}.

Definition row0 : Row.t :=
  {| Row.id := 1; Row.item_id := "item-1"; Row.access_token := "access-1";
     Row.institution_name := Some "First Bank"; Row.created_at := "2024-01-01 00:00:00" |}.

Definition start_state {World} (d : DB) (w : World) : State World :=
  {| db := d; files := ∅; console := []; world := w |}.

(** ** Scripted runtimes for concrete runs

    The world counts the upstream calls and clock reads made so far; each
    Plaid method answers from its request alone. *)

Definition unavailable_error : Err :=
  {| response_data := VUndefined; message := "unavailable" |}.

Definition unavailable {A} : reply A := Rejected unavailable_error.

Record Script := {
  on_balance : string -> reply AccountsGet.t;
  on_accounts : string -> reply AccountsGet.t;
  on_liabilities : string -> reply LiabilitiesGet.t;
  on_transactions : TransactionsGet.request -> reply TransactionsGet.t;
  on_sync : TransactionsSync.request -> reply TransactionsSync.t;
  on_exchange : value -> reply Exchange.t;
  on_write : option Err }.

Definition scripted_plaid (s : Script) : PlaidApi nat :=
  {| linkTokenCreate := fun _ w => (unavailable, S w);
     itemPublicTokenExchange := fun token w => (on_exchange s token, S w);
     accountsBalanceGet := fun token _ w => (on_balance s token, S w);
     accountsGet := fun token w => (on_accounts s token, S w);
     liabilitiesGet := fun token w => (on_liabilities s token, S w);
     transactionsGet := fun req w => (on_transactions s req, S w);
     transactionsSync := fun req w => (on_sync s req, S w);
     transactionsRefresh := fun _ w => (unavailable, S w);
     transactionsRecurringGet := fun _ w => (unavailable, S w);
     assetReportCreate := fun _ w => (unavailable, S w);
     assetReportGet := fun _ w => (unavailable, S w);
     assetReportPdfGet := fun _ w => (unavailable, S w);
     assetReportRemove := fun _ w => (unavailable, S w);
     transactionsEnrich := fun _ w => (unavailable, S w) |}.

Definition scripted (s : Script) (secret : option string) : Runtime nat :=
  {| plaid := scripted_plaid s;
     Date_now := fun w => (1700000000000%Z, S w);
     toISOString := fun _ => "2023-11-14T22:13:20.000Z";
     JSON_stringify := fun _ => "{}";
     Number_ := fun v => v;
     String_ := fun v => v;
     template_report_id := fun _ => VStr "byteforce-1700000000000";
     Buffer_from := fun v => v;
     express_static := fun files path => files !! path;
     fs_writeFile := fun _ _ w => (on_write s, w);
     sqlite_rowid := fun w => S w;
     CURRENT_TIMESTAMP := fun _ => "2023-11-14 22:13:20";
     PLAID_REDIRECT_URI := None;
     DASHBOARD_REFRESH_TOKEN := secret |}.

(** A checking account whose display name and official name differ, and a
    card known only by its mask. *)
Definition checking : Account.t :=
  {| Account.account_id := "acc-1"; Account.name := VStr "Checking";
     Account.official_name := VStr "Premier Checking"; Account.mask := VStr "0000";
     Account.type := VStr "depository"; Account.subtype := VStr "checking";
     Account.balances := VUndefined |}.

Definition card : Account.t :=
  {| Account.account_id := "acc-2"; Account.name := VNull;
     Account.official_name := VNull; Account.mask := VStr "4242";
     Account.type := VStr "credit"; Account.subtype := VNull;
     Account.balances := VObj [("current", VNum 120)] |}.

Definition one_page (req : TransactionsGet.request) : reply TransactionsGet.t :=
  Answer {| TransactionsGet.total_transactions := 1;
            TransactionsGet.transactions := [tx0] |}.

(** Everything upstream is down. *)
Definition all_down : Script :=
  {| on_balance := fun _ => unavailable; on_accounts := fun _ => unavailable;
     on_liabilities := fun _ => unavailable; on_transactions := fun _ => unavailable;
     on_sync := fun _ => unavailable; on_exchange := fun _ => unavailable;
     on_write := None |}.

(** Balances and liabilities are down, accounts-without-balances answers. *)
Definition fallback_only : Script :=
  {| on_balance := fun _ => unavailable;
     on_accounts := fun _ => Answer {| AccountsGet.accounts := Some [checking; card] |};
     on_liabilities := fun _ => unavailable;
     on_transactions := one_page;
     on_sync := fun _ => unavailable; on_exchange := fun _ => unavailable;
     on_write := None |}.

Definition row1 : Row.t :=
  {| Row.id := 2; Row.item_id := "item-2"; Row.access_token := "access-2";
     Row.institution_name := None; Row.created_at := "2024-01-01 00:00:00" |}.

Definition two_items : DB := {| items := [row0; row1]; cursors := ∅ |}.

(** Sync answers for [access-2] in two batches, then has no more; for the
    first item the second batch is refused. *)
Definition sync_script (req : TransactionsSync.request) : reply TransactionsSync.t :=
  match TransactionsSync.cursor req with
  | None =>
      Answer {| TransactionsSync.added := [VStr "t1"]; TransactionsSync.modified := [];
                TransactionsSync.removed := []; TransactionsSync.next_cursor := "c1";
                TransactionsSync.has_more := true |}
  | Some _ =>
      if String.eqb (TransactionsSync.access_token req) "access-1" then unavailable
      else Answer {| TransactionsSync.added := [VStr "t2"]; TransactionsSync.modified := [];
                     TransactionsSync.removed := []; TransactionsSync.next_cursor := "c2";
                     TransactionsSync.has_more := false |}
  end.

Definition syncing : Script :=
  {| on_balance := fun _ => unavailable; on_accounts := fun _ => unavailable;
     on_liabilities := fun _ => unavailable; on_transactions := fun _ => unavailable;
     on_sync := sync_script;
     on_exchange := fun _ =>
       Answer {| Exchange.access_token := "access-1b"; Exchange.item_id := "item-1" |};
     on_write := None |}.

(** ** Vocabulary of the statements *)

(** [m] leaves the observation [obs] of the database as it found it,
    whatever its outcome. *)
Definition keeps {W A X : Type} (obs : DB -> X) (m : M W A) : Prop :=
  forall st, obs (db (snd (m st))) = obs (db st).

(** The same client with another accounts-with-balances method. *)
Definition with_accountsBalanceGet {World : Type}
    (f : string -> string -> World -> reply AccountsGet.t * World)
    (rt : Runtime World) : Runtime World :=
  {| plaid :=
       {| linkTokenCreate := linkTokenCreate (plaid rt);
          itemPublicTokenExchange := itemPublicTokenExchange (plaid rt);
          accountsBalanceGet := f;
          accountsGet := accountsGet (plaid rt);
          liabilitiesGet := liabilitiesGet (plaid rt);
          transactionsGet := transactionsGet (plaid rt);
          transactionsSync := transactionsSync (plaid rt);
          transactionsRefresh := transactionsRefresh (plaid rt);
          transactionsRecurringGet := transactionsRecurringGet (plaid rt);
          assetReportCreate := assetReportCreate (plaid rt);
          assetReportGet := assetReportGet (plaid rt);
          assetReportPdfGet := assetReportPdfGet (plaid rt);
          assetReportRemove := assetReportRemove (plaid rt);
          transactionsEnrich := transactionsEnrich (plaid rt) |};
     Date_now := Date_now rt;
     toISOString := toISOString rt;
     JSON_stringify := JSON_stringify rt;
     Number_ := Number_ rt;
     String_ := String_ rt;
     template_report_id := template_report_id rt;
     Buffer_from := Buffer_from rt;
     express_static := express_static rt;
     fs_writeFile := fs_writeFile rt;
     sqlite_rowid := sqlite_rowid rt;
     CURRENT_TIMESTAMP := CURRENT_TIMESTAMP rt;
     PLAID_REDIRECT_URI := PLAID_REDIRECT_URI rt;
     DASHBOARD_REFRESH_TOKEN := DASHBOARD_REFRESH_TOKEN rt |}.

(** [m] always returns, with a value satisfying [P]: it neither throws nor
    runs out of fuel. *)
Definition returns {W A : Type} (m : M W A) (P : A -> Prop) : Prop :=
  forall st, exists a, fst (m st) = Ret a /\ P a.

(** [m] never throws: it returns a value satisfying [P], unless one of its
    loops is still running when the fuel is spent. *)
Definition settles {W A : Type} (m : M W A) (P : A -> Prop) : Prop :=
  forall st, fst (m st) = OutOfFuel \/ exists a, fst (m st) = Ret a /\ P a.

(** [m] returns a value satisfying [P] or throws an error satisfying [E],
    unless one of its loops is still running when the fuel is spent. *)
Definition ends {W A : Type} (m : M W A) (P : A -> Prop) (E : Err -> Prop) : Prop :=
  forall st, fst (m st) = OutOfFuel \/
             (exists a, fst (m st) = Ret a /\ P a) \/
             (exists e, fst (m st) = Throw e /\ E e).

(** [m] has no loop that can exhaust the fuel. *)
Definition finishes {W A : Type} (m : M W A) : Prop :=
  forall st, fst (m st) <> OutOfFuel.

(** What one entry of the dashboard refresh's [snapshots] array looks like
    for the item [r]: the item's identifier, and either no [error], or an
    empty snapshot marked 'accounts_failed' (by the builder) or
    'snapshot_failed' (by the refresh, when the builder threw). *)
Definition snapshot_entry (r : Row.t) (s : value) : Prop :=
  own "item_id" s = Some (VStr (Row.item_id r)) /\
  (own "error" s = None \/
   ((own "error" s = Some (VStr "accounts_failed") \/
     own "error" s = Some (VStr "snapshot_failed")) /\
    own "accounts" s = Some (VArr []) /\ own "transactions" s = Some (VArr []))).

(** [m] leaves the observation [obs] of the files as it found it, whatever
    its outcome. *)
Definition keeps_files {W A X : Type} (obs : gmap string string -> X) (m : M W A) : Prop :=
  forall st, obs (files (snd (m st))) = obs (files st).

(** The routes that loop over the stored items with a [try] of their own
    around each item, and the property of their answer that holds the
    per-item entries. *)
Definition per_item_key (req : Request) : option string :=
  match req with
  | POST_transactions_refresh_all => Some "refreshed"
  | GET_transactions_recurring | GET_accounts | GET_balances | GET_liabilities =>
      Some "items"
  | _ => None
  end.

(** The two routes that run the cursor sync. *)
Definition is_sync (req : Request) : bool :=
  match req with
  | POST_transactions_sync _ | POST_transactions_sync_all => true
  | _ => false
  end.

Definition is_refresh_dashboard (req : Request) : bool :=
  match req with
  | POST_refresh_dashboard _ => true
  | _ => false
  end.

(** The document [refresh_dashboard] serialises, in terms of the per-item
    snapshots and the time of writing. *)
Definition dashboard_document (last_updated : string) (snapshots : list value) : value :=
  VObj [("last_updated", VStr last_updated);
        ("accounts", VArr (flatMap (prop "accounts") snapshots));
        ("transactions", VArr (flatMap (prop "transactions") snapshots));
        ("errors", VArr (List.filter (fun s => truthy (prop "error" s)) snapshots))].

(** What [refresh_dashboard] answers after writing that document. *)
Definition dashboard_summary (snapshots : list value) : Response :=
  json 200 (VObj [("ok", VBool true);
                  ("accounts", num_of_nat (length (flatMap (prop "accounts") snapshots)));
                  ("transactions",
                   num_of_nat (length (flatMap (prop "transactions") snapshots)));
                  ("errors",
                   num_of_nat (length (List.filter (fun s => truthy (prop "error" s))
                                         snapshots)))]).

(** The requests a route refuses before it calls upstream or writes
    anything, with the answer it gives. *)
Definition refused (d : DB) (req : Request) : option Response :=
  match req with
  | POST_link_token_update (Some item_id) _ =>
      match getOneItem item_id d with
      | None => Some (error_json 404 "unknown_item")
      | Some _ => None
      end
  | POST_link_token_update None _ => Some (error_json 404 "unknown_item")
  | POST_exchange_public_token public_token _ =>
      if truthy public_token then None else Some (error_json 400 "missing_public_token")
  | POST_transactions_sync item_id =>
      if str_truthy item_id then
        match getOneItem (str_or_empty item_id) d with
        | None => Some (error_json 404 "unknown_item")
        | Some _ => None
        end
      else Some (error_json 400 "missing_item_id")
  | POST_assets_create _ =>
      match items d with
      | [] => Some (error_json 400 "no_items")
      | _ :: _ => None
      end
  | GET_assets_get token | POST_assets_remove token =>
      if truthy token then None else Some (error_json 400 "missing token")
  | GET_assets_pdf token =>
      if truthy token then None
      else Some {| status := 400; headers := []; body := Send (VStr "missing token") |}
  | POST_enrich transactions =>
      match transactions with
      | VArr (_ :: _) => None
      | _ => Some (error_json 400 "provide transactions[]")
      end
  | _ => None
  end.

Definition one_item : DB := {| items := [row1]; cursors := ∅ |}.

Definition two_items_reversed : DB := {| items := [row1; row0]; cursors := ∅ |}.

(** A mortgage, a student loan and a card on one account identifier. *)
Definition mortgage1 : Mortgage.t :=
  {| Mortgage.account_id := Some "acc-1";
     Mortgage.interest_rate := VObj [("percentage", VNum 3)];
     Mortgage.next_monthly_payment := VNum 1500;
     Mortgage.next_payment_due_date := VStr "2024-02-01" |}.

Definition student1 : Student.t :=
  {| Student.account_id := Some "acc-1";
     Student.interest_rate_percentage := VNum 5;
     Student.minimum_payment_amount := VNum 200;
     Student.next_payment_due_date := VUndefined |}.

Definition credit1 : Credit.t :=
  {| Credit.account_id := Some "acc-2";
     Credit.apr := VUndefined;
     Credit.minimum_payment_amount := VNum 25;
     Credit.next_payment_due_date := VNull |}.

Definition liabilities1 : LiabilitiesGet.t :=
  {| LiabilitiesGet.liabilities :=
       Some {| Liabilities.credit := Some [credit1];
               Liabilities.student := Some [student1];
               Liabilities.mortgage := Some [mortgage1] |};
     LiabilitiesGet.accounts := VArr [] |}.

(** An account identifier that names nothing a plain object inherits. *)
Definition plain_key (k : string) : bool :=
  negb (String.eqb k "__proto__" || existsb (String.eqb k) Object_prototype_names).

(** An account whose identifier is a property name of [Object.prototype]. *)
Definition oddly_named : Account.t :=
  {| Account.account_id := "constructor"; Account.name := VStr "Savings";
     Account.official_name := VNull; Account.mask := VStr "1111";
     Account.type := VStr "depository"; Account.subtype := VStr "savings";
     Account.balances := VObj [("current", VNum 10)] |}.

(** Balances answer with that account, liabilities are down. *)
Definition odd_accounts : Script :=
  {| on_balance := fun _ => Answer {| AccountsGet.accounts := Some [oddly_named] |};
     on_accounts := fun _ => unavailable;
     on_liabilities := fun _ => unavailable;
     on_transactions := one_page;
     on_sync := fun _ => unavailable; on_exchange := fun _ => unavailable;
     on_write := None |}.




(** The entry the balances route is to push for the item [r], in terms of
    the reply to the accounts-without-balances call made for it: the
    accounts with [balances] defaulted to the empty object, or the error
    entry. *)
Definition balances_entry (r : Row.t) (reply : reply AccountsGet.t) : value :=
  match reply with
  | Answer a =>
      VObj [("item_id", VStr (Row.item_id r));
            ("accounts",
             VArr (map (fun x =>
                          VObj [("account_id", VStr (Account.account_id x));
                                ("name", Account.name x);
                                ("official_name", Account.official_name x);
                                ("mask", Account.mask x);
                                ("type", Account.type x);
                                ("subtype", Account.subtype x);
                                ("balances",
                                 if truthy (Account.balances x) then Account.balances x
                                 else VObj [])])
                       (match AccountsGet.accounts a with Some l => l | None => [] end)))]
  | Rejected err =>
      VObj [("item_id", VStr (Row.item_id r));
            ("error", if truthy (response_data err) then response_data err
                      else VStr (message err))]
  end.

(** The entries for the rows of the table, each from one accounts-without-
    balances call made in table order, and the world after those calls. *)
Fixpoint balances_entries {World : Type}
    (accountsGet : string -> World -> reply AccountsGet.t * World)
    (rows : list Row.t) (w : World) : list value * World :=
  match rows with
  | [] => ([], w)
  | r :: rest =>
      let '(reply, w1) := accountsGet (Row.access_token r) w in
      let '(entries, w2) := balances_entries accountsGet rest w1 in
      (balances_entry r reply :: entries, w2)
  end.

(** ** A scripted upstream for the sync loop

    The [k]-th call of [transactionsSync] is answered by [responses k]; the
    world is the log of the requests made so far; nothing else answers. *)

Section SyncTape.
Variable responses : nat -> reply TransactionsSync.t.

Definition sync_tape (req : TransactionsSync.request) (log : list TransactionsSync.request)
  : reply TransactionsSync.t * list TransactionsSync.request :=
  (responses (length log), (log ++ [req])%list).

Definition sync_taped : Runtime (list TransactionsSync.request) :=
  {| plaid :=
       {| linkTokenCreate := fun _ w => (unavailable, w);
          itemPublicTokenExchange := fun _ w => (unavailable, w);
          accountsBalanceGet := fun _ _ w => (unavailable, w);
          accountsGet := fun _ w => (unavailable, w);
          liabilitiesGet := fun _ w => (unavailable, w);
          transactionsGet := fun _ w => (unavailable, w);
          transactionsSync := sync_tape;
          transactionsRefresh := fun _ w => (unavailable, w);
          transactionsRecurringGet := fun _ w => (unavailable, w);
          assetReportCreate := fun _ w => (unavailable, w);
          assetReportGet := fun _ w => (unavailable, w);
          assetReportPdfGet := fun _ w => (unavailable, w);
          assetReportRemove := fun _ w => (unavailable, w);
          transactionsEnrich := fun _ w => (unavailable, w) |};
     Date_now := fun w => (1700000000000%Z, w);
     toISOString := fun _ => "2023-11-14T22:13:20.000Z";
     JSON_stringify := fun _ => "{}";
     Number_ := fun v => v;
     String_ := fun v => v;
     template_report_id := fun _ => VStr "byteforce-1700000000000";
     Buffer_from := fun v => v;
     express_static := fun files path => files !! path;
     fs_writeFile := fun _ _ w => (None, w);
     sqlite_rowid := fun w => S (length w);
     CURRENT_TIMESTAMP := fun _ => "2023-11-14 22:13:20";
     PLAID_REDIRECT_URI := None;
     DASHBOARD_REFRESH_TOKEN := None |}.

(** The batch [f] ([added], [modified] or [removed]) of a response. *)
Definition batch_of (f : TransactionsSync.t -> list value)
    (r : reply TransactionsSync.t) : list value :=
  match r with
  | Answer d => f d
  | Rejected _ => []
  end.

(** The batches [f] of the first [k] responses, in order. *)
Fixpoint received (f : TransactionsSync.t -> list value) (k : nat) : list value :=
  match k with
  | O => []
  | S k' => (received f k' ++ batch_of f (responses k'))%list
  end.

(** The cursor held before call [k]: the stored one, then the
    [next_cursor] of the response before. *)
Definition cursor_before (stored : option string) (k : nat) : option string :=
  match k with
  | O => stored
  | S k' =>
      match responses k' with
      | Answer d => Some (TransactionsSync.next_cursor d)
      | Rejected _ => None
      end
  end.

(** What the loop holds after [k] responses. *)
Definition synced (stored : option string) (k : nat) : SyncAcc :=
  {| sync_cursor := cursor_before stored k;
     sync_added := received TransactionsSync.added k;
     sync_modified := received TransactionsSync.modified k;
     sync_removed := received TransactionsSync.removed k |}.

(** The requests of calls [0 .. k-1]. *)
Definition sync_requests (access_token : string) (stored : option string) (k : nat)
  : list TransactionsSync.request :=
  map (fun j => {| TransactionsSync.access_token := access_token;
                   TransactionsSync.cursor := str_or_null (cursor_before stored j);
                   TransactionsSync.count := 500 |}) (seq 0 k).

End SyncTape.

(** Two batches, the second one final. *)
Definition two_batches (k : nat) : reply TransactionsSync.t :=
  match k with
  | O => Answer {| TransactionsSync.added := [VStr "t1"; VStr "t2"];
                   TransactionsSync.modified := [VStr "m1"];
                   TransactionsSync.removed := [];
                   TransactionsSync.next_cursor := "c1";
                   TransactionsSync.has_more := true |}
  | _ => Answer {| TransactionsSync.added := [VStr "t3"];
                   TransactionsSync.modified := [];
                   TransactionsSync.removed := [VStr "r1"];
                   TransactionsSync.next_cursor := "c2";
                   TransactionsSync.has_more := false |}
  end.

(** The item [item-2] is stored with the cursor [c0]. *)
Definition with_cursor : DB :=
  {| items := [row0; row1]; cursors := {[ "item-2" := Some "c0" ]} |}.

(** * Properties *)

(** ** Pagination (C1) *)

Section TapeFacts.
Variable responses : nat -> reply TransactionsGet.t.
Variables (row : Row.t) (start end_ : string).

Lemma requests_S k :
  requests responses row start end_ (S k) =
  (requests responses row start end_ k ++
   [page_request row start end_ (length (fetched responses k))])%list.
Proof.
  unfold requests. rewrite seq_S, map_app. reflexivity.
Qed.

Lemma length_requests k : length (requests responses row start end_ k) = k.
Proof. unfold requests. rewrite length_map, length_seq. reflexivity. Qed.

(** One iteration from the state reached after [k] calls. *)
Lemma transactionsLoop_step fuel k st :
  world st = requests responses row start end_ k ->
  transactionsLoop (tape responses) (S fuel) row start end_
    (length (fetched responses k)) (fetched responses k) st =
  let st' := Build_State (db st) (files st) (console st)
               (requests responses row start end_ (S k)) in
  match responses k with
  | Answer resp =>
      if stops_after responses k then (Ret (fetched responses (S k)), st')
      else transactionsLoop (tape responses) fuel row start end_
             (length (fetched responses (S k))) (fetched responses (S k)) st'
  | Rejected e =>
      (Ret (fetched responses (S k)),
       Build_State (db st) (files st)
         (console st ++ [[VStr "transactionsGet failed (continuing)";
                          VStr (Row.item_id row); err_detail e]])%list
         (requests responses row start end_ (S k)))
  end.
Proof.
  intros Hw. cbn [transactionsLoop].
  unfold bind at 1, attempt, upstream, tape. cbn [world db files console].
  rewrite Hw, length_requests, requests_S.
  unfold stops_after. cbn [fetched].
  destruct (responses k) as [resp | e] eqn:Hr; cbn [page_of].
  - rewrite length_app.
    destruct (Nat.ltb_spec (length (fetched responses k) +
                            length (TransactionsGet.transactions resp))
                           (TransactionsGet.total_transactions resp)) as [Hlt | Hge].
    + apply Nat.leb_gt in Hlt. rewrite Hlt. reflexivity.
    + apply Nat.leb_le in Hge. rewrite Hge. reflexivity.
  - rewrite app_nil_r. reflexivity.
Qed.

(** The loop leaves after the first response that [stops_after]. *)
Lemma transactionsLoop_run m : forall k fuel st,
  world st = requests responses row start end_ k ->
  (forall j, k <= j < k + m -> stops_after responses j = false) ->
  stops_after responses (k + m) = true ->
  m < fuel ->
  fst (transactionsLoop (tape responses) fuel row start end_
         (length (fetched responses k)) (fetched responses k) st)
    = Ret (fetched responses (S (k + m))) /\
  world (snd (transactionsLoop (tape responses) fuel row start end_
                (length (fetched responses k)) (fetched responses k) st))
    = requests responses row start end_ (S (k + m)).
Proof.
  induction m as [| m IH]; intros k fuel st Hw Hgo Hstop Hfuel.
  - destruct fuel as [| fuel]; [lia |].
    rewrite transactionsLoop_step by exact Hw.
    rewrite Nat.add_0_r in *. cbn zeta.
    destruct (responses k) eqn:Hr; [rewrite Hstop |]; split; reflexivity.
  - destruct fuel as [| fuel]; [lia |].
    rewrite transactionsLoop_step by exact Hw. cbn zeta.
    assert (Hk : stops_after responses k = false) by (apply Hgo; lia).
    destruct (responses k) eqn:Hr.
    + rewrite Hk. replace (k + S m) with (S k + m) in * by lia.
      apply IH; [reflexivity | intros j Hj; apply Hgo; lia | exact Hstop | lia].
    + unfold stops_after in Hk. rewrite Hr in Hk. discriminate.
Qed.

(** Before the loop has stopped it is still running: too little fuel does
    not produce a result. *)
Lemma transactionsLoop_running fuel : forall k st,
  world st = requests responses row start end_ k ->
  (forall j, k <= j < k + fuel -> stops_after responses j = false) ->
  fst (transactionsLoop (tape responses) fuel row start end_
         (length (fetched responses k)) (fetched responses k) st) = OutOfFuel.
Proof.
  induction fuel as [| fuel IH]; intros k st Hw Hgo; [reflexivity |].
  rewrite transactionsLoop_step by exact Hw. cbn zeta.
  assert (Hk : stops_after responses k = false) by (apply Hgo; lia).
  destruct (responses k) eqn:Hr.
  - rewrite Hk. apply IH; [reflexivity | intros j Hj; apply Hgo; lia].
  - unfold stops_after in Hk. rewrite Hr in Hk. discriminate.
Qed.

(** While the loop goes on, every page after the first adds a transaction. *)
Lemma fetched_grows :
  (forall k resp, stops_after responses k = false ->
                  responses (S k) = Answer resp ->
                  TransactionsGet.transactions resp <> []) ->
  forall m, (forall j, j < m -> stops_after responses j = false) ->
            m <= S (length (fetched responses m)).
Proof.
  intros Hprog. induction m as [| m IH]; intros Hgo; [lia |].
  cbn [fetched]. rewrite length_app.
  destruct m as [| m]; [lia |].
  assert (Hm : stops_after responses (S m) = false) by (apply Hgo; lia).
  assert (Hm' : stops_after responses m = false) by (apply Hgo; lia).
  specialize (IH ltac:(intros j Hj; apply Hgo; lia)).
  destruct (responses (S m)) as [resp | e] eqn:Hr.
  - specialize (Hprog m resp Hm' Hr). cbn [page_of].
    destruct (TransactionsGet.transactions resp); [congruence | cbn [length]; lia].
  - unfold stops_after in Hm. rewrite Hr in Hm. discriminate.
Qed.

Lemma first_stop m :
  (forall j, j < m -> stops_after responses j = false) \/
  (exists n, n < m /\ stops_after responses n = true /\
             forall j, j < n -> stops_after responses j = false).
Proof.
  induction m as [| m [IH | (n & Hn & Hs & Hb)]].
  - left. intros j Hj. lia.
  - destruct (stops_after responses m) eqn:Hm.
    + right. exists m. split; [lia | split; [exact Hm | exact IH]].
    + left. intros j Hj. destruct (decide (j = m)) as [-> | Hne]; [exact Hm |].
      apply IH. lia.
  - right. exists n. split; [lia | split; assumption].
Qed.

End TapeFacts.

Lemma length_fetched_growing k : length (fetched growing k) = k.
Proof.
  induction k as [| k IH]; [reflexivity |].
  cbn [fetched]. rewrite length_app, IH. cbn. lia.
Qed.

Lemma growing_never_stops k : stops_after growing k = false.
Proof.
  unfold stops_after. cbn [growing TransactionsGet.total_transactions].
  rewrite length_fetched_growing. apply Nat.leb_gt. lia.
Qed.

(** C1, as amended.  Against any sequence of responses whose reported
    totals are bounded by [T] and in which every page requested while the
    accumulated count is below the total just reported is non-empty, the
    pagination loop stops after the first response [n] that throws or
    brings the accumulated count up to the total it reports, with [n <= T]:
    with more than [n] units of fuel it returns the transactions of all
    responses [0..n], the last page included, having requested pages of 500
    at the offsets given by the counts accumulated before; with less fuel
    it is still running. *)
Theorem transactions_pagination_terminates
    (responses : nat -> reply TransactionsGet.t) (T : nat)
    (row : Row.t) (start end_ : string) (st : State (list TransactionsGet.request)) :
  world st = [] ->
  (forall k resp, responses k = Answer resp ->
                  TransactionsGet.total_transactions resp <= T) ->
  (forall k resp, stops_after responses k = false ->
                  responses (S k) = Answer resp ->
                  TransactionsGet.transactions resp <> []) ->
  exists n,
    n <= T /\
    stops_after responses n = true /\
    (forall j, j < n -> stops_after responses j = false) /\
    (forall fuel, n < fuel ->
       fst (transactionsLoop (tape responses) fuel row start end_ 0 [] st)
         = Ret (fetched responses (S n)) /\
       world (snd (transactionsLoop (tape responses) fuel row start end_ 0 [] st))
         = requests responses row start end_ (S n)) /\
    (forall fuel, fuel <= n ->
       fst (transactionsLoop (tape responses) fuel row start end_ 0 [] st) = OutOfFuel).
Proof.
  intros Hw Hbound Hprog.
  assert (Hlow : forall m, (forall j, j < m -> stops_after responses j = false) -> m <= T).
  { intros m Hgo. pose proof (fetched_grows responses Hprog m Hgo) as Hlen.
    destruct m as [| m]; [lia |].
    assert (Hm : stops_after responses m = false) by (apply Hgo; lia).
    unfold stops_after in Hm.
    destruct (responses m) as [resp | e] eqn:Hr; [| discriminate].
    apply Nat.leb_gt in Hm. specialize (Hbound m resp Hr). lia. }
  destruct (first_stop responses (S T)) as [Hgo | (n & Hn & Hstop & Hgo)].
  { specialize (Hlow (S T) Hgo). lia. }
  exists n. split; [apply Hlow, Hgo |]. split; [exact Hstop |]. split; [exact Hgo |].
  split.
  - intros fuel Hfuel.
    apply (transactionsLoop_run responses row start end_ n 0 fuel st);
      [exact Hw | intros j Hj; apply Hgo; lia | exact Hstop | exact Hfuel].
  - intros fuel Hfuel.
    apply (transactionsLoop_running responses row start end_ fuel 0 st);
      [exact Hw | intros j Hj; apply Hgo; lia].
Qed.

Lemma transactions_pagination_terminates_witness :
  exists n,
    n <= 3 /\
    stops_after two_pages n = true /\
    (forall j, j < n -> stops_after two_pages j = false) /\
    (forall fuel, n < fuel ->
       fst (transactionsLoop (tape two_pages) fuel row0 "2023-01-01" "2024-01-01" 0 []
              (start_state empty_db []))
         = Ret (fetched two_pages (S n)) /\
       world (snd (transactionsLoop (tape two_pages) fuel row0 "2023-01-01" "2024-01-01" 0 []
                     (start_state empty_db [])))
         = requests two_pages row0 "2023-01-01" "2024-01-01" (S n)) /\
    (forall fuel, fuel <= n ->
       fst (transactionsLoop (tape two_pages) fuel row0 "2023-01-01" "2024-01-01" 0 []
              (start_state empty_db [])) = OutOfFuel).
Proof.
  apply (transactions_pagination_terminates two_pages 3 row0 "2023-01-01" "2024-01-01"
           (start_state empty_db [])).
  - reflexivity.
  - intros k resp H. injection H as <-. simpl. lia.
  - intros k resp _ H. injection H as <-. simpl. discriminate.
Defined.

(** C1 as stated fails: every page of [growing] is non-empty, yet the total
    it reports stays ahead of the accumulated count and the loop never
    returns, whatever the fuel. *)
Lemma pagination_runs_forever_on_growing_total :
  (forall k resp, stops_after growing k = false ->
                  growing (S k) = Answer resp ->
                  TransactionsGet.transactions resp <> []) /\
  (forall fuel,
     fst (transactionsLoop (tape growing) fuel row0 "2023-01-01" "2024-01-01" 0 []
            (start_state empty_db [])) = OutOfFuel).
Proof.
  split.
  - intros k resp _ H. injection H as <-. discriminate.
  - intros fuel.
    apply (transactionsLoop_running growing row0 "2023-01-01" "2024-01-01" fuel 0
             (start_state empty_db [])); [reflexivity |].
    intros j _. apply growing_never_stops.
Qed.

(** ** Reasoning about the monad *)

Section MonadFacts.
Context {World : Type}.
Implicit Types st : State World.


Lemma bind_fst_ret_inv {A B} (m : M World A) (k : A -> M World B) st b :
  fst (bind m k st) = Ret b ->
  exists a st1, m st = (Ret a, st1) /\ fst (k a st1) = Ret b.
Proof.
  unfold bind. destruct (m st) as [[a | e |] st1]; [eauto | discriminate ..].
Qed.

Lemma bind_eq {A B} (m : M World A) (k : A -> M World B) st a st1 :
  m st = (Ret a, st1) -> bind m k st = k a st1.
Proof. unfold bind. intros ->. reflexivity. Qed.

Lemma bind_throw {A B} (m : M World A) (k : A -> M World B) st e st1 :
  m st = (Throw e, st1) -> bind m k st = (Throw e, st1).
Proof. unfold bind. intros ->. reflexivity. Qed.

Lemma clock_eq (now : World -> Z * World) st t w :
  now (world st) = (t, w) ->
  clock now st = (Ret t, Build_State (db st) (files st) (console st) w).
Proof. unfold clock. intros ->. reflexivity. Qed.



End MonadFacts.

(** ** The snapshot builder, step by step *)

Section SnapshotFacts.
Context {World : Type} (rt : Runtime World).
Implicit Types st : State World.

(** Step 1 in terms of the two upstream replies. *)
Lemma fetch_accounts_fst row st t w3 r1 w4 r2 w5 :
  Date_now rt (world st) = (t, w3) ->
  accountsBalanceGet (plaid rt) (Row.access_token row)
    (toISOString rt (t - 30 * day_ms)) w3 = (r1, w4) ->
  accountsGet (plaid rt) (Row.access_token row) w4 = (r2, w5) ->
  fst (fetch_accounts rt row st) =
  Ret match r1, r2 with
      | Answer accRes, _ => Some (AccountsGet.accounts accRes)
      | Rejected _, Answer accRes2 =>
          Some (Some (map (fun a => Account.with_balances a (Account.balances a .|| VObj []))
                          (default [] (AccountsGet.accounts accRes2))))
      | Rejected _, Rejected _ => None
      end.
Proof.
  intros Hnow H1 H2. unfold fetch_accounts.
  unfold bind at 1, attempt at 1.
  rewrite (bind_eq _ _ _ _ _ (clock_eq _ _ _ _ Hnow)).
  unfold upstream at 1. cbn [world db files console]. rewrite H1.
  destruct r1 as [accRes | e1]; [reflexivity |].
  unfold bind at 1, console_error at 1. cbn [world db files console].
  unfold bind at 1, attempt at 1, upstream at 1. cbn [world db files console].
  rewrite H2. destruct r2 as [accRes2 | e2]; reflexivity.
Qed.


(** Step 2 always continues. *)
Lemma fetch_liabilities_eq row st r w :
  liabilitiesGet (plaid rt) (Row.access_token row) (world st) = (r, w) ->
  fetch_liabilities rt row st =
  match r with
  | Answer L =>
      (Ret (fill_liabilities rt L), Build_State (db st) (files st) (console st) w)
  | Rejected e =>
      (Ret ∅,
       Build_State (db st) (files st)
         (console st ++ [[VStr "liabilitiesGet failed (continuing)";
                          VStr (Row.item_id row); err_detail e]])%list w)
  end.
Proof.
  intros H. unfold fetch_liabilities, bind, attempt, upstream. rewrite H.
  destruct r; reflexivity.
Qed.

(** The function after its two clock reads. *)
Lemma fetchItemSnapshot_unfold fuel row days st t1 w1 t2 w2 :
  Date_now rt (world st) = (t1, w1) ->
  Date_now rt w1 = (t2, w2) ->
  fetchItemSnapshot rt fuel row days st =
  bind (fetch_accounts rt row)
    (fun accounts =>
       match accounts with
       | None => ret accounts_failed
       | Some accounts =>
           bind (fetch_liabilities rt row) (fun liabByAccount =>
           match accounts with
           | None =>
               throw (TypeError "Cannot read properties of undefined (reading 'map')")
           | Some accounts =>
               bind (transactionsLoop (transactionsGet (plaid rt)) fuel row
                       (ymd (toISOString rt (t2 - days * day_ms)))
                       (ymd (toISOString rt t1)) 0 [])
                    (fun tx => ret (reshape row accounts liabByAccount tx))
           end)
       end)
    (Build_State (db st) (files st) (console st) w2).
Proof.
  intros H1 H2. unfold fetchItemSnapshot.
  rewrite (bind_eq _ _ _ _ _ (clock_eq _ _ _ _ H1)). cbn beta.
  erewrite bind_eq by (apply clock_eq; exact H2).
  reflexivity.
Qed.

(** A snapshot built after step 1 succeeded is a reshaping of the accounts. *)
Lemma snapshot_tail_ret fuel row start end_ (accounts : option (list Account.t)) st snap :
  fst (bind (fetch_liabilities rt row) (fun liabByAccount =>
       match accounts with
       | None =>
           throw (TypeError "Cannot read properties of undefined (reading 'map')")
       | Some accounts =>
           bind (transactionsLoop (transactionsGet (plaid rt)) fuel row start end_ 0 [])
                (fun tx => ret (reshape row accounts liabByAccount tx))
       end) st) = Ret snap ->
  exists accounts' liabByAccount st' tx,
    accounts = Some accounts' /\
    fetch_liabilities rt row st = (Ret liabByAccount, st') /\
    snap = reshape row accounts' liabByAccount tx.
Proof.
  intros H.
  apply bind_fst_ret_inv in H as (liab & st1 & Hl & H).
  destruct accounts as [accounts' |]; [| discriminate H].
  apply bind_fst_ret_inv in H as (tx & st2 & _ & H).
  cbn in H. injection H as <-. eauto 10.
Qed.

Lemma own_accounts_reshape row accounts liabByAccount tx :
  own "accounts" (reshape row accounts liabByAccount tx) =
  Some (VArr (map (shape_account (str_or_empty (Row.institution_name row)) liabByAccount)
                  accounts)).
Proof. reflexivity. Qed.

End SnapshotFacts.

(** ** Error marker of a snapshot (C4) *)

(** C4.  Let [r1] be the reply to the accounts-with-balances call of a run
    of the snapshot builder and [r2] the reply the accounts-without-balances
    fallback gets (or would get) after it.  When both are rejections the
    builder returns, for any fuel, exactly
    [{accounts: [], transactions: [], error: 'accounts_failed'}]; and
    whenever the builder returns a result, that result has an [error]
    property if and only if both were rejections (it is then that object,
    with the marker 'accounts_failed'), whatever the liabilities and
    transactions calls did. *)
Theorem snapshot_error_iff_accounts_failed {World : Type} (rt : Runtime World)
    (row : Row.t) (days : Z) (st : State World)
    t1 w1 t2 w2 t3 w3 r1 w4 r2 w5 :
  Date_now rt (world st) = (t1, w1) ->
  Date_now rt w1 = (t2, w2) ->
  Date_now rt w2 = (t3, w3) ->
  accountsBalanceGet (plaid rt) (Row.access_token row)
    (toISOString rt (t3 - 30 * day_ms)) w3 = (r1, w4) ->
  accountsGet (plaid rt) (Row.access_token row) w4 = (r2, w5) ->
  (is_rejected r1 && is_rejected r2 = true ->
   forall fuel,
     fst (fetchItemSnapshot rt fuel row days st)
       = Ret (VObj [("accounts", VArr []); ("transactions", VArr []);
                    ("error", VStr "accounts_failed")])) /\
  (forall fuel snap,
     fst (fetchItemSnapshot rt fuel row days st) = Ret snap ->
     (own "error" snap <> None <-> is_rejected r1 && is_rejected r2 = true) /\
     (is_rejected r1 && is_rejected r2 = true ->
      own "error" snap = Some (VStr "accounts_failed") /\
      own "accounts" snap = Some (VArr []) /\
      own "transactions" snap = Some (VArr [])) /\
     (is_rejected r1 && is_rejected r2 = false -> own "error" snap = None)).
Proof.
  intros H1 H2 H3 Hb Ha.
  assert (Hacc := fetch_accounts_fst rt row
                    (Build_State (db st) (files st) (console st) w2) t3 w3 r1 w4 r2 w5
                    H3 Hb Ha).
  assert (Hboth : is_rejected r1 && is_rejected r2 = true ->
                  forall fuel,
                    fst (fetchItemSnapshot rt fuel row days st)
                      = Ret (VObj [("accounts", VArr []); ("transactions", VArr []);
                                   ("error", VStr "accounts_failed")])).
  { intros Hrej fuel. rewrite (fetchItemSnapshot_unfold rt fuel row days st t1 w1 t2 w2 H1 H2).
    unfold bind at 1.
    destruct (fetch_accounts rt row _) as [[oacc | e |] st3]; cbn [fst] in Hacc;
      try discriminate.
    injection Hacc as ->.
    destruct r1; [discriminate |]. destruct r2; [discriminate |]. reflexivity. }
  split; [exact Hboth |].
  intros fuel snap Hsnap.
  destruct (is_rejected r1 && is_rejected r2) eqn:Hrej.
  - rewrite (Hboth eq_refl fuel) in Hsnap. injection Hsnap as <-.
    split; [split; [reflexivity | discriminate] |].
    split; [intros _; repeat split; reflexivity | discriminate].
  - rewrite (fetchItemSnapshot_unfold rt fuel row days st t1 w1 t2 w2 H1 H2) in Hsnap.
    apply bind_fst_ret_inv in Hsnap as (oacc & st3 & Hf & Hsnap).
    rewrite Hf in Hacc. cbn [fst] in Hacc. injection Hacc as ->.
    assert (Hnone : own "error" snap = None).
    { destruct r1 as [accRes | e1].
      - apply snapshot_tail_ret in Hsnap as (accs & liab & st4 & tx & _ & _ & ->).
        reflexivity.
      - destruct r2 as [accRes2 | e2]; [| discriminate].
        apply (snapshot_tail_ret _ _ _ _ _ (Some _)) in Hsnap
          as (accs & liab & st4 & tx & _ & _ & ->).
        reflexivity. }
    rewrite Hnone. split; [split; [congruence | discriminate] |].
    split; [discriminate | reflexivity].
Qed.

Lemma snapshot_error_iff_accounts_failed_witness :
  (forall fuel,
     fst (fetchItemSnapshot (scripted all_down None) fuel row0 365 (start_state two_items 0))
       = Ret (VObj [("accounts", VArr []); ("transactions", VArr []);
                    ("error", VStr "accounts_failed")])) /\
  (let snap := reshape row0
                 (map (fun a => Account.with_balances a (Account.balances a .|| VObj []))
                      [checking; card]) ∅ [tx0] in
   (own "error" snap <> None <-> false = true) /\
   (false = true ->
    own "error" snap = Some (VStr "accounts_failed") /\
    own "accounts" snap = Some (VArr []) /\
    own "transactions" snap = Some (VArr [])) /\
   (false = false -> own "error" snap = None)).
Proof.
  split.
  - apply (snapshot_error_iff_accounts_failed (scripted all_down None) row0 365
             (start_state two_items 0) _ _ _ _ _ _ _ _ _ _
             eq_refl eq_refl eq_refl eq_refl eq_refl).
    reflexivity.
  - apply (proj2 (snapshot_error_iff_accounts_failed (scripted fallback_only None) row0 365
                    (start_state two_items 0) _ _ _ _ _ _ _ _ _ _
                    eq_refl eq_refl eq_refl eq_refl eq_refl) 2).
    reflexivity.
Defined.

(** ** Liabilities are best effort (C5) *)

Lemma plain_key_inherits_nothing k : plain_key k = true -> object_get k ∅ = VUndefined.
Proof.
  unfold plain_key, object_get, inherited. intros H.
  apply negb_true_iff, orb_false_iff in H as [Hp Hn].
  cbn [properties prototype PlainObject_empty empty]. rewrite lookup_empty, Hp, Hn.
  reflexivity.
Qed.

Lemma shape_account_no_liability instName a :
  plain_key (Account.account_id a) = true ->
  own "liability" (shape_account instName ∅ a) = Some VNull.
Proof.
  intros H. unfold shape_account. rewrite (plain_key_inherits_nothing _ H). reflexivity.
Qed.

(** When the liabilities call is rejected.  In a run of the snapshot
    builder whose accounts step produced [accounts] and whose liabilities
    call was then rejected, any result the builder returns has no [error]
    property, and its [accounts] array has one record per account, in
    order; the record of every account whose identifier is not a property
    name plain objects inherit ([__proto__], [constructor], [toString],
    ...) has an own property [liability] equal to [null]. *)
Theorem liabilities_failure_gives_null_liability {World : Type} (rt : Runtime World)
    (fuel : nat) (row : Row.t) (days : Z) (st : State World)
    t1 w1 t2 w2 accounts st3 e w4 snap :
  Date_now rt (world st) = (t1, w1) ->
  Date_now rt w1 = (t2, w2) ->
  fetch_accounts rt row (Build_State (db st) (files st) (console st) w2)
    = (Ret (Some (Some accounts)), st3) ->
  liabilitiesGet (plaid rt) (Row.access_token row) (world st3) = (Rejected e, w4) ->
  fst (fetchItemSnapshot rt fuel row days st) = Ret snap ->
  own "error" snap = None /\
  exists accountsOut,
    own "accounts" snap = Some (VArr accountsOut) /\
    Forall2 (fun a r => plain_key (Account.account_id a) = true ->
                        own "liability" r = Some VNull)
            accounts accountsOut.
Proof.
  intros H1 H2 Hacc Hliab Hsnap.
  rewrite (fetchItemSnapshot_unfold rt fuel row days st t1 w1 t2 w2 H1 H2) in Hsnap.
  rewrite (bind_eq _ _ _ _ _ Hacc) in Hsnap.
  apply (snapshot_tail_ret _ _ _ _ _ (Some accounts)) in Hsnap
    as (accs & liab & st4 & tx & Heq & Hl & ->).
  injection Heq as <-.
  rewrite (fetch_liabilities_eq rt row st3 _ _ Hliab) in Hl.
  injection Hl as <- _.
  split; [reflexivity |].
  eexists. split; [apply own_accounts_reshape |].
  clear Hacc.
  induction accounts as [| a l IH]; cbn [map]; constructor; [| exact IH].
  apply shape_account_no_liability.
Qed.

Lemma liabilities_failure_gives_null_liability_witness :
  own "error" (reshape row0
                 (map (fun a => Account.with_balances a (Account.balances a .|| VObj []))
                      [checking; card]) ∅ [tx0]) = None /\
  exists accountsOut,
    own "accounts" (reshape row0
                      (map (fun a => Account.with_balances a (Account.balances a .|| VObj []))
                           [checking; card]) ∅ [tx0]) = Some (VArr accountsOut) /\
    Forall2 (fun a r => plain_key (Account.account_id a) = true ->
                        own "liability" r = Some VNull)
            (map (fun a => Account.with_balances a (Account.balances a .|| VObj []))
                 [checking; card]) accountsOut.
Proof.
  apply (liabilities_failure_gives_null_liability (scripted fallback_only None) 2 row0 365
           (start_state two_items 0) _ _ _ _ _ _ _ _ _
           eq_refl eq_refl eq_refl eq_refl eq_refl).
Defined.

(** C5.  The claim fails on an account whose identifier is the name of a
    property every plain object inherits.  The accounts-with-balances call
    answers with the one account [oddly_named], whose identifier is
    "constructor", and the liabilities call is rejected: the builder
    returns a result without [error] whose only account record carries as
    [liability] what [liabByAccount["constructor"]] reads from
    [Object.prototype], not [null]. *)
Theorem liability_of_inherited_name_is_not_null :
  on_balance odd_accounts "access-1"
    = Answer {| AccountsGet.accounts := Some [oddly_named] |} /\
  on_liabilities odd_accounts "access-1" = unavailable /\
  exists record txOut,
    fst (fetchItemSnapshot (scripted odd_accounts None) 3 row0 365 (start_state two_items 0))
      = Ret (VObj [("accounts", VArr [record]); ("transactions", VArr txOut)]) /\
    own "error" (VObj [("accounts", VArr [record]); ("transactions", VArr txOut)]) = None /\
    own "name" record = Some (VStr "Savings") /\
    own "liability" record = Some (VBuiltin "Object.prototype.constructor") /\
    own "liability" record <> Some VNull.
Proof.
  split; [reflexivity |]. split; [reflexivity |].
  eexists _, _. split; [vm_compute; reflexivity |].
  split; [reflexivity |]. split; [reflexivity |]. split; [reflexivity | discriminate].
Qed.

(** ** Balances after the fallback (C6) *)

Lemma shape_account_balances instName liabByAccount a :
  own "balances" (shape_account instName liabByAccount
                    (Account.with_balances a (Account.balances a .|| VObj [])))
  = Some (Account.balances a .|| VObj []).
Proof.
  unfold shape_account, own. cbn.
  unfold js_or at 1.
  assert (H : truthy (Account.balances a .|| VObj []) = true).
  { unfold js_or. destruct (truthy (Account.balances a)) eqn:E; [exact E | reflexivity]. }
  rewrite H. reflexivity.
Qed.

Lemma fallback_accounts_shaped instName liabByAccount (l : list Account.t) :
  Forall2 (fun a r =>
             own "balances" r =
               Some (if truthy (Account.balances a) then Account.balances a else VObj []) /\
             exists b, own "balances" r = Some b /\ truthy b = true /\ b <> VUndefined)
          l
          (map (shape_account instName liabByAccount)
               (map (fun a => Account.with_balances a (Account.balances a .|| VObj [])) l)).
Proof.
  induction l as [| a l IH]; cbn [map]; constructor; [| exact IH].
  rewrite shape_account_balances. fold (Account.balances a .|| VObj []).
  split; [reflexivity |].
  exists (Account.balances a .|| VObj []). split; [reflexivity |].
  unfold js_or. destruct (truthy (Account.balances a)) eqn:E.
  - split; [exact E |]. intros Heq. rewrite Heq in E. discriminate.
  - split; [reflexivity | discriminate].
Qed.

(** C6.  In a run of the snapshot builder whose accounts-with-balances call
    was rejected and whose accounts-without-balances call answered [accRes2],
    any result the builder returns has no [error] property and lists, for
    the accounts of [accRes2] in order, records that each have an own
    property [balances]: the account's balances when it has any (a truthy
    value), the empty object otherwise; in both cases a truthy value, never
    [undefined]. *)
Theorem fallback_accounts_have_balances {World : Type} (rt : Runtime World)
    (fuel : nat) (row : Row.t) (days : Z) (st : State World)
    t1 w1 t2 w2 t3 w3 e1 w4 accRes2 w5 snap :
  Date_now rt (world st) = (t1, w1) ->
  Date_now rt w1 = (t2, w2) ->
  Date_now rt w2 = (t3, w3) ->
  accountsBalanceGet (plaid rt) (Row.access_token row)
    (toISOString rt (t3 - 30 * day_ms)) w3 = (Rejected e1, w4) ->
  accountsGet (plaid rt) (Row.access_token row) w4 = (Answer accRes2, w5) ->
  fst (fetchItemSnapshot rt fuel row days st) = Ret snap ->
  own "error" snap = None /\
  exists accountsOut,
    own "accounts" snap = Some (VArr accountsOut) /\
    Forall2 (fun a r =>
               own "balances" r =
                 Some (if truthy (Account.balances a) then Account.balances a else VObj []) /\
               exists b, own "balances" r = Some b /\ truthy b = true /\ b <> VUndefined)
            (default [] (AccountsGet.accounts accRes2)) accountsOut.
Proof.
  intros H1 H2 H3 Hb Ha Hsnap.
  assert (Hacc := fetch_accounts_fst rt row
                    (Build_State (db st) (files st) (console st) w2) t3 w3 _ w4 _ w5
                    H3 Hb Ha).
  rewrite (fetchItemSnapshot_unfold rt fuel row days st t1 w1 t2 w2 H1 H2) in Hsnap.
  apply bind_fst_ret_inv in Hsnap as (oacc & st3 & Hf & Hsnap).
  rewrite Hf in Hacc. cbn [fst] in Hacc. injection Hacc as ->.
  apply (snapshot_tail_ret _ _ _ _ _ (Some _)) in Hsnap
    as (accs & liab & st4 & tx & Heq & _ & ->).
  injection Heq as <-.
  split; [reflexivity |].
  eexists. split; [apply own_accounts_reshape |].
  apply fallback_accounts_shaped.
Qed.

Lemma fallback_accounts_have_balances_witness :
  let snap := reshape row0
                (map (fun a => Account.with_balances a (Account.balances a .|| VObj []))
                     [checking; card]) ∅ [tx0] in
  own "error" snap = None /\
  exists accountsOut,
    own "accounts" snap = Some (VArr accountsOut) /\
    Forall2 (fun a r =>
               own "balances" r =
                 Some (if truthy (Account.balances a) then Account.balances a else VObj []) /\
               exists b, own "balances" r = Some b /\ truthy b = true /\ b <> VUndefined)
            [checking; card] accountsOut.
Proof.
  apply (fallback_accounts_have_balances (scripted fallback_only None) 2 row0 365
           (start_state two_items 0) _ _ _ _ _ _ _ _ _ _ _
           eq_refl eq_refl eq_refl eq_refl eq_refl eq_refl).
Defined.

(** ** Reshaped transactions (C8) *)

Lemma acctMap_fold_other (l : list Account.t) : forall (m : gmap string Account.t) id,
  Forall (fun a => Account.account_id a <> id) l ->
  fold_left (fun m a => <[Account.account_id a := a]> m) l m !! id = m !! id.
Proof.
  induction l as [| a l IH]; intros m id Hl; [reflexivity |].
  apply Forall_cons in Hl as [Ha Hl]. cbn [fold_left].
  rewrite (IH _ _ Hl). apply lookup_insert_ne. exact Ha.
Qed.

(** [acctMap.get(id)] is the last account of the list with that identifier. *)
Lemma acctMap_of_last l1 a l2 :
  Forall (fun a' => Account.account_id a' <> Account.account_id a) l2 ->
  acctMap_of (l1 ++ a :: l2) !! Account.account_id a = Some a.
Proof.
  intros Hl2. unfold acctMap_of. rewrite fold_left_app. cbn [fold_left].
  rewrite (acctMap_fold_other _ _ _ Hl2). apply lookup_insert_eq.
Qed.

(** C8, as amended.  For a transaction whose account identifier is that of
    an account [a] of the fetched list ([a] being the last one with that
    identifier), the reshaped transaction's nickname is [a]'s name, or when
    that is empty [a]'s official name, or ''.  It is the nickname of [a]'s
    reshaped record, which is the official name or '', whenever [a] has no
    name.  The reshaped name falls back through name, merchant name, payee
    and ''. *)
Theorem transaction_nickname_and_name (instName : string)
    (liabByAccount : PlainObject) (l1 l2 : list Account.t) (a : Account.t)
    (t : Transaction.t) :
  Transaction.account_id t = Account.account_id a ->
  Forall (fun a' => Account.account_id a' <> Account.account_id a) l2 ->
  let out := shape_transaction instName (acctMap_of (l1 ++ a :: l2)) t in
  own "nickname" out = Some (Account.name a .|| Account.official_name a .|| VStr "") /\
  (truthy (Account.name a) = false ->
   own "nickname" out = own "nickname" (shape_account instName liabByAccount a)) /\
  own "name" out = Some (Transaction.name t .|| Transaction.merchant_name t
                         .|| Transaction.payee t .|| VStr "").
Proof.
  intros Hid Hl2 out. subst out. unfold shape_transaction.
  rewrite Hid, (acctMap_of_last l1 a l2 Hl2). cbn [opt_field].
  split; [reflexivity |]. split; [| reflexivity].
  intros Hname. cbn. unfold js_or at 2. rewrite Hname. reflexivity.
Qed.

Lemma transaction_nickname_and_name_witness :
  let out := shape_transaction "First Bank" (acctMap_of ([checking] ++ card :: []))
               {| Transaction.account_id := "acc-2"; Transaction.date := VStr "2024-01-03";
                  Transaction.name := VNull; Transaction.merchant_name := VStr "Grocer";
                  Transaction.payee := VUndefined; Transaction.amount := VNum 12;
                  Transaction.category := VUndefined |} in
  own "nickname" out = Some (VStr "") /\
  (true = true -> own "nickname" out = own "nickname" (shape_account "First Bank" ∅ card)) /\
  own "name" out = Some (VStr "Grocer").
Proof.
  destruct (transaction_nickname_and_name "First Bank" ∅ [checking] [] card
              {| Transaction.account_id := "acc-2"; Transaction.date := VStr "2024-01-03";
                 Transaction.name := VNull; Transaction.merchant_name := VStr "Grocer";
                 Transaction.payee := VUndefined; Transaction.amount := VNum 12;
                 Transaction.category := VUndefined |} eq_refl (List.Forall_nil _))
    as (H1 & H2 & H3).
  split; [exact H1 |]. split; [| exact H3].
  intros _. apply H2. reflexivity.
Defined.

(** C8 as stated fails: the transaction [tx0] belongs to the account
    [checking], whose reshaped record has the nickname "Premier Checking"
    (its official name), while the reshaped transaction has the nickname
    "Checking" (its name). *)
Lemma transaction_nickname_is_not_account_nickname :
  Transaction.account_id tx0 = Account.account_id checking /\
  reshape row0 [checking] ∅ [tx0] =
    VObj [("accounts",
           VArr [VObj [("institution", VStr "First Bank"); ("name", VStr "Checking");
                       ("nickname", VStr "Premier Checking"); ("mask", VStr "0000");
                       ("type", VStr "depository"); ("subtype", VStr "checking");
                       ("balances", VObj []); ("liability", VNull)]]);
          ("transactions",
           VArr [VObj [("date", VStr "2024-01-02"); ("name", VStr "Coffee");
                       ("amount", VNum 4); ("category", VArr []);
                       ("institution", VStr "First Bank");
                       ("nickname", VStr "Checking")]])] /\
  own "nickname" (shape_transaction "First Bank" (acctMap_of [checking]) tx0)
    <> own "nickname" (shape_account "First Bank" ∅ checking).
Proof.
  split; [reflexivity |]. split; [reflexivity |].
  vm_compute. discriminate.
Qed.

(** ** Dashboard refresh without the secret (C7) *)

Lemma unauthorized_mismatch {World : Type} (rt : Runtime World) (hdr : option string) :
  hdr <> DASHBOARD_REFRESH_TOKEN rt -> unauthorized rt hdr = true.
Proof.
  intros Hne. unfold unauthorized.
  destruct (DASHBOARD_REFRESH_TOKEN rt) as [secret |]; [| reflexivity].
  destruct (String.eqb_spec secret "") as [-> | Hs]; [reflexivity |].
  cbn [orb]. apply negb_true_iff, String.eqb_neq.
  destruct hdr as [h |]; cbn [str_or_empty]; congruence.
Qed.

(** C7.  A dashboard-refresh request whose X-Refresh-Token header is not the
    configured secret is answered 401 'unauthorized' and leaves the whole
    state as it was: the files (the dashboard JSON among them), both tables,
    the console and the outside world, so nothing was written and no
    upstream call was made. *)
Theorem refresh_dashboard_unauthorized {World : Type} (rt : Runtime World)
    (fuel : nat) (hdr : option string) (st : State World) :
  hdr <> DASHBOARD_REFRESH_TOKEN rt ->
  refresh_dashboard rt fuel hdr st = (Ret (error_json 401 "unauthorized"), st) /\
  status (error_json 401 "unauthorized") = 401 /\
  files (snd (refresh_dashboard rt fuel hdr st)) !! DASH_JSON = files st !! DASH_JSON /\
  world (snd (refresh_dashboard rt fuel hdr st)) = world st.
Proof.
  intros Hne.
  assert (H : refresh_dashboard rt fuel hdr st = (Ret (error_json 401 "unauthorized"), st)).
  { unfold refresh_dashboard, try_catch, bind, attempt.
    rewrite (unauthorized_mismatch rt hdr Hne). reflexivity. }
  rewrite H. repeat split; reflexivity.
Qed.

Lemma refresh_dashboard_unauthorized_witness :
  refresh_dashboard (scripted fallback_only (Some "s3cret")) 5 (Some "guess")
    {| db := two_items; files := {[ DASH_JSON := "old snapshot" ]};
       console := []; world := 0 |}
  = (Ret (error_json 401 "unauthorized"),
     {| db := two_items; files := {[ DASH_JSON := "old snapshot" ]};
        console := []; world := 0 |}).
Proof.
  apply (refresh_dashboard_unauthorized (scripted fallback_only (Some "s3cret")) 5
           (Some "guess")).
  discriminate.
Defined.

(** ** What a computation leaves untouched in the database *)

Section Keeps.
Context {World X : Type} (obs : DB -> X).
Implicit Types st : State World.

Lemma keeps_ret {A} (a : A) : keeps (W := World) obs (ret a).
Proof. intros st. reflexivity. Qed.

Lemma keeps_throw {A} e : keeps (W := World) (A := A) obs (throw e).
Proof. intros st. reflexivity. Qed.

Lemma keeps_out_of_fuel {A} : keeps (W := World) (A := A) obs out_of_fuel.
Proof. intros st. reflexivity. Qed.

Lemma keeps_bind {A B} (m : M World A) (k : A -> M World B) :
  keeps obs m -> (forall a, keeps obs (k a)) -> keeps obs (bind m k).
Proof.
  intros Hm Hk st. unfold bind. specialize (Hm st).
  destruct (m st) as [[a | e |] st1]; cbn [snd] in *; [| exact Hm ..].
  rewrite (Hk a st1). exact Hm.
Qed.

Lemma keeps_attempt {A} (m : M World A) : keeps obs m -> keeps obs (attempt m).
Proof.
  intros Hm st. unfold attempt. specialize (Hm st).
  destruct (m st) as [[a | e |] st1]; exact Hm.
Qed.

Lemma keeps_try_catch {A} (m : M World A) (h : Err -> M World A) :
  keeps obs m -> (forall e, keeps obs (h e)) -> keeps obs (try_catch m h).
Proof.
  intros Hm Hh. unfold try_catch. apply keeps_bind; [apply keeps_attempt, Hm |].
  intros [a | e]; [apply keeps_ret | apply Hh].
Qed.

Lemma keeps_upstream {A} (call : World -> reply A * World) : keeps obs (upstream call).
Proof.
  intros st. unfold upstream. destruct (call (world st)) as [[data | e] w]; reflexivity.
Qed.

Lemma keeps_clock (now : World -> Z * World) : keeps obs (clock now).
Proof. intros st. unfold clock. destruct (now (world st)). reflexivity. Qed.

Lemma keeps_ask {A} (read : World -> A) : keeps obs (ask read).
Proof. intros st. reflexivity. Qed.

Lemma keeps_console_error args : keeps (W := World) obs (console_error args).
Proof. intros st. reflexivity. Qed.

Lemma keeps_query {A} (q : DB -> A) : keeps (W := World) obs (query q).
Proof. intros st. reflexivity. Qed.

Lemma keeps_readFile path : keeps (W := World) obs (readFile path).
Proof. intros st. unfold readFile. destruct (files st !! path); reflexivity. Qed.

Lemma keeps_writeFile (rt : Runtime World) path data : keeps obs (writeFile rt path data).
Proof.
  intros st. unfold writeFile.
  destruct (fs_writeFile rt path data (world st)) as [[e |] w]; reflexivity.
Qed.

Lemma keeps_run (stmt : DB -> DB) :
  (forall d, obs (stmt d) = obs d) -> keeps (W := World) obs (run stmt).
Proof. intros H st. apply H. Qed.

Lemma keeps_for_of {A B} (rows : list A) (body : A -> M World B) :
  (forall r, keeps obs (body r)) -> keeps obs (for_of rows body).
Proof.
  intros Hb. induction rows as [| r rows IH]; cbn [for_of]; [apply keeps_ret |].
  apply keeps_bind; [apply Hb |]. intros x.
  apply keeps_bind; [exact IH |]. intros xs. apply keeps_ret.
Qed.

Lemma keeps_transactionsLoop get fuel row start end_ : forall offset tx,
  keeps obs (transactionsLoop (World := World) get fuel row start end_ offset tx).
Proof.
  induction fuel as [| fuel IH]; intros offset tx; cbn [transactionsLoop];
    [apply keeps_out_of_fuel |].
  apply keeps_bind; [apply keeps_attempt, keeps_upstream |].
  intros [resp | e].
  - cbn zeta. destruct (_ <? _); [apply IH | apply keeps_ret].
  - apply keeps_bind; [apply keeps_console_error | intros _; apply keeps_ret].
Qed.

Lemma keeps_syncLoop (rt : Runtime World) fuel access_token : forall hasMore acc,
  keeps obs (syncLoop rt fuel access_token hasMore acc).
Proof.
  induction fuel as [| fuel IH]; intros hasMore acc; cbn [syncLoop];
    destruct hasMore; try apply keeps_ret; [apply keeps_out_of_fuel |].
  apply keeps_bind; [apply keeps_upstream |]. intros d. apply IH.
Qed.

End Keeps.

Create HintDb keeps.

#[local] Hint Resolve keeps_ret keeps_throw keeps_out_of_fuel keeps_upstream keeps_clock
  keeps_ask keeps_console_error keeps_query keeps_readFile keeps_writeFile
  keeps_transactionsLoop keeps_syncLoop : keeps.

Ltac keeps_step :=
  first
    [ apply keeps_bind; [| intros ?]
    | apply keeps_try_catch; [| intros ?]
    | apply keeps_attempt
    | apply keeps_for_of; intros ?
    | solve [auto with keeps]
    | match goal with
      | |- keeps _ (match ?x with _ => _ end) => destruct x
      end ].

Ltac keeps_auto := repeat keeps_step.

(** ** A failed sync persists no cursor (C3) *)

(** C3.  For a stored item, when a call of [transactionsSync] inside the
    loop of the single-item sync route throws, the route answers 500
    'sync_failed' and both tables are as before the request; in particular
    the cursor stored for the item is the one stored before. *)
Theorem failed_sync_keeps_cursor {World : Type} (rt : Runtime World) (fuel : nat)
    (item_id : string) (row : Row.t) (st : State World) (e : Err) (st1 : State World) :
  item_id <> "" ->
  getOneItem item_id (db st) = Some row ->
  syncLoop rt fuel (Row.access_token row) true
    (sync_start (stored_cursor item_id (db st))) st = (Throw e, st1) ->
  fst (transactions_sync rt fuel (Some item_id) st) = Ret (error_json 500 "sync_failed") /\
  db (snd (transactions_sync rt fuel (Some item_id) st)) = db st /\
  getCursor item_id (db (snd (transactions_sync rt fuel (Some item_id) st)))
    = getCursor item_id (db st).
Proof.
  intros Hid Hrow Hloop.
  assert (Hdb : db st1 = db st).
  { pose proof (keeps_syncLoop (fun d => d) rt fuel (Row.access_token row) true
                  (sync_start (stored_cursor item_id (db st))) st) as H.
    rewrite Hloop in H. exact H. }
  assert (Hrun : transactions_sync rt fuel (Some item_id) st =
                 (Ret (error_json 500 "sync_failed"),
                  Build_State (db st1) (files st1)
                    (console st1 ++ [[err_detail e]])%list (world st1))).
  { unfold transactions_sync, guarded, try_catch. cbn [str_truthy str_or_empty].
    apply String.eqb_neq in Hid. rewrite Hid. cbn [negb].
    unfold bind at 1, attempt at 1.
    unfold bind at 1, query at 1. rewrite Hrow.
    unfold bind at 1, query at 1.
    rewrite (bind_throw _ _ _ _ _ Hloop). reflexivity. }
  rewrite Hrun. cbn [fst snd db]. rewrite Hdb. repeat split; reflexivity.
Qed.

Lemma failed_sync_keeps_cursor_witness :
  fst (transactions_sync (scripted syncing None) 5 (Some "item-1") (start_state two_items 0))
    = Ret (error_json 500 "sync_failed") /\
  db (snd (transactions_sync (scripted syncing None) 5 (Some "item-1")
             (start_state two_items 0))) = two_items /\
  getCursor "item-1"
    (db (snd (transactions_sync (scripted syncing None) 5 (Some "item-1")
                (start_state two_items 0))))
    = getCursor "item-1" two_items.
Proof.
  apply (failed_sync_keeps_cursor (scripted syncing None) 5 "item-1" row0
           (start_state two_items 0) unavailable_error
           {| db := two_items; files := ∅; console := []; world := 2 |}).
  - discriminate.
  - reflexivity.
  - reflexivity.
Defined.

(** ** Sync-all stops at the first failing item (C2) *)

(** When the first stored item fails, the route stops where the throw
    happened: the state it leaves is the one of the throw plus the logged
    error, so no call is made and no cursor is stored for the items after. *)
Lemma sync_all_first_item_throws {World : Type} (rt : Runtime World) (fuel : nat)
    (r : Row.t) (rest : list Row.t) (st : State World) (e : Err) (st1 : State World) :
  getAccessTokens (db st) = r :: rest ->
  syncLoop rt fuel (Row.access_token r) true
    (sync_start (stored_cursor (Row.item_id r) (db st))) st = (Throw e, st1) ->
  transactions_sync_all rt fuel st =
    (Ret (error_json 500 "sync_all_failed"),
     Build_State (db st) (files st1) (console st1 ++ [[err_detail e]])%list (world st1)).
Proof.
  intros Hrows Hloop.
  assert (Hdb : db st1 = db st).
  { pose proof (keeps_syncLoop (fun d => d) rt fuel (Row.access_token r) true
                  (sync_start (stored_cursor (Row.item_id r) (db st))) st) as H.
    rewrite Hloop in H. exact H. }
  unfold transactions_sync_all, guarded, try_catch.
  unfold bind at 1, attempt at 1.
  unfold bind at 1, query at 1. rewrite Hrows. cbn [for_of].
  unfold bind at 1. unfold bind at 1. unfold sync_all_item at 1.
  unfold bind at 1, query at 1.
  rewrite (bind_throw _ _ _ _ _ Hloop). rewrite <- Hdb. reflexivity.
Qed.

(** C2 does not hold of the code.  With the items [item-1] and [item-2]
    stored, [item-1] failing in its second batch: the route answers 500
    'sync_all_failed' and no cursor is stored for [item-2], although the
    single-item route, on the same state, syncs [item-2] and stores its
    cursor. *)
Theorem sync_all_stops_at_first_failure :
  getAccessTokens two_items = [row0; row1] /\
  fst (transactions_sync_all (scripted syncing None) 5 (start_state two_items 0))
    = Ret (error_json 500 "sync_all_failed") /\
  getCursor "item-2"
    (db (snd (transactions_sync_all (scripted syncing None) 5 (start_state two_items 0))))
    = None /\
  world (snd (transactions_sync_all (scripted syncing None) 5 (start_state two_items 0)))
    = 2 /\
  status (match fst (transactions_sync (scripted syncing None) 5 (Some "item-2")
                       (start_state two_items 0)) with
          | Ret r => r
          | _ => not_found
          end) = 200 /\
  getCursor "item-2"
    (db (snd (transactions_sync (scripted syncing None) 5 (Some "item-2")
                (start_state two_items 0))))
    = Some (Some "c2").
Proof.
  repeat split; vm_compute; reflexivity.
Qed.

(** ** One row per item identifier (C9) *)

Lemma has_item_false item_id rows :
  has_item item_id rows = false -> item_id ∉ map Row.item_id rows.
Proof.
  unfold has_item. induction rows as [| r rows IH]; cbn [existsb map]; intros H.
  - apply not_elem_of_nil.
  - apply orb_false_iff in H as [Hr Hrows].
    apply String.eqb_neq in Hr. apply not_elem_of_cons. split; [congruence | auto].
Qed.

Lemma insertItem_present rowid now item_id access_token institution_name d :
  has_item item_id (items d) = true ->
  insertItem rowid now item_id access_token institution_name d = d.
Proof. unfold insertItem. intros ->. reflexivity. Qed.

Lemma insertItem_NoDup rowid now item_id access_token institution_name d :
  NoDup (map Row.item_id (items d)) ->
  NoDup (map Row.item_id
           (items (insertItem rowid now item_id access_token institution_name d))).
Proof.
  intros Hd. unfold insertItem.
  destruct (has_item item_id (items d)) eqn:Hhas; [exact Hd |].
  cbn [items]. rewrite map_app. cbn [map Row.item_id].
  apply NoDup_app. split; [exact Hd |]. split.
  - intros x Hx Hin. apply list_elem_of_singleton in Hin as ->.
    exact (has_item_false _ _ Hhas Hx).
  - apply NoDup_singleton.
Qed.

(** What the exchange route does to the database. *)
Lemma exchange_public_token_db {World : Type} (rt : Runtime World)
    public_token institution_name (st : State World) :
  db (snd (exchange_public_token rt public_token institution_name st)) = db st \/
  exists exch w,
    itemPublicTokenExchange (plaid rt) public_token (world st) = (Answer exch, w) /\
    db (snd (exchange_public_token rt public_token institution_name st)) =
      insertItem (sqlite_rowid rt w) (CURRENT_TIMESTAMP rt w) (Exchange.item_id exch)
        (Exchange.access_token exch) (str_or_null institution_name) (db st).
Proof.
  unfold exchange_public_token, guarded, try_catch.
  destruct (truthy public_token); cbn [negb]; [| left; reflexivity].
  unfold bind, attempt, upstream, ask, run, ret, console_error.
  destruct (itemPublicTokenExchange (plaid rt) public_token (world st))
    as [[exch | e] w] eqn:Hcall; [| left; reflexivity].
  right. exists exch, w. split; reflexivity.
Qed.

Lemma exchange_public_token_ok {World : Type} (rt : Runtime World)
    public_token institution_name (st : State World) exch w :
  truthy public_token = true ->
  itemPublicTokenExchange (plaid rt) public_token (world st) = (Answer exch, w) ->
  fst (exchange_public_token rt public_token institution_name st)
    = Ret (json 200 (VObj [("item_id", VStr (Exchange.item_id exch))])).
Proof.
  intros Ht Hcall. unfold exchange_public_token, guarded, try_catch.
  rewrite Ht. cbn [negb].
  unfold bind, attempt, upstream, ask, run, ret, console_error.
  rewrite Hcall. reflexivity.
Qed.

Lemma keeps_fetchItemSnapshot {World X : Type} (obs : DB -> X) (rt : Runtime World)
    fuel row days :
  keeps obs (fetchItemSnapshot rt fuel row days).
Proof. unfold fetchItemSnapshot, fetch_accounts, fetch_liabilities. keeps_auto. Qed.

Lemma keeps_static {World X : Type} (obs : DB -> X) (rt : Runtime World) path :
  keeps obs (static rt path).
Proof.
  intros st. unfold static. destruct (express_static rt (files st) path); reflexivity.
Qed.

(** Every route but the exchange leaves the items table alone. *)
Lemma handle_keeps_items {World : Type} (rt : Runtime World) fuel req :
  (forall public_token institution_name,
     req <> POST_exchange_public_token public_token institution_name) ->
  keeps items (handle rt fuel req).
Proof.
  intros Hreq.
  destruct req; cbn [handle];
    try (exfalso; eapply Hreq; reflexivity);
    try apply keeps_static;
    unfold create_link_token, link_token_update, getOneItem_get, list_items,
      transactions_sync, transactions_sync_all, sync_all_item,
      transactions_refresh_all, transactions_recurring, accounts_route,
      balances_route, balances_item, balances_fallback, liabilities_route,
      assets_create, assets_get, assets_pdf, assets_remove, enrich, oauth_redirect,
      dashboard_data_json, refresh_dashboard, guarded, reporting;
    keeps_auto;
    try (apply keeps_run; intros d; reflexivity);
    try apply keeps_fetchItemSnapshot.
Qed.

(** C9.  If the items table holds at most one row per item identifier, it
    still does after any request.  An exchange whose upstream answer names
    an item identifier already stored leaves the table as it was (the row
    keeps its access token) and still answers 200 with that identifier; and
    every request other than an exchange leaves the table as it was. *)
Theorem items_one_row_per_item_id {World : Type} (rt : Runtime World) (fuel : nat)
    (req : Request) (st : State World) :
  NoDup (map Row.item_id (items (db st))) ->
  NoDup (map Row.item_id (items (db (snd (handle rt fuel req st))))) /\
  (forall public_token institution_name exch w,
     req = POST_exchange_public_token public_token institution_name ->
     truthy public_token = true ->
     itemPublicTokenExchange (plaid rt) public_token (world st) = (Answer exch, w) ->
     has_item (Exchange.item_id exch) (items (db st)) = true ->
     items (db (snd (handle rt fuel req st))) = items (db st) /\
     fst (handle rt fuel req st)
       = Ret (json 200 (VObj [("item_id", VStr (Exchange.item_id exch))]))) /\
  ((forall public_token institution_name,
      req <> POST_exchange_public_token public_token institution_name) ->
   items (db (snd (handle rt fuel req st))) = items (db st)).
Proof.
  intros Hd. split; [| split].
  - assert (Hcase : (exists p i, req = POST_exchange_public_token p i) \/
                    (forall p i, req <> POST_exchange_public_token p i)).
    { destruct req; try (right; intros; discriminate). left. eauto. }
    destruct Hcase as [(p & i & ->) | Hreq].
    + cbn [handle].
      destruct (exchange_public_token_db rt p i st) as [-> | (exch & w & _ & ->)];
        [exact Hd |].
      apply insertItem_NoDup, Hd.
    + rewrite (handle_keeps_items rt fuel req Hreq st). exact Hd.
  - intros public_token institution_name exch w -> Ht Hcall Hhas. cbn [handle].
    split; [| exact (exchange_public_token_ok rt _ _ st exch w Ht Hcall)].
    destruct (exchange_public_token_db rt public_token institution_name st)
      as [-> | (exch' & w' & Hcall' & ->)]; [reflexivity |].
    rewrite Hcall in Hcall'. injection Hcall' as <- <-.
    rewrite (insertItem_present _ _ _ _ _ _ Hhas). reflexivity.
  - intros Hreq. apply (handle_keeps_items rt fuel req Hreq st).
Qed.

Lemma items_one_row_per_item_id_witness :
  NoDup (map Row.item_id
           (items (db (snd (handle (scripted syncing None) 5
                              (POST_exchange_public_token (VStr "public-1") (Some "Other Bank"))
                              (start_state two_items 0)))))) /\
  items (db (snd (handle (scripted syncing None) 5
                    (POST_exchange_public_token (VStr "public-1") (Some "Other Bank"))
                    (start_state two_items 0)))) = [row0; row1] /\
  fst (handle (scripted syncing None) 5
         (POST_exchange_public_token (VStr "public-1") (Some "Other Bank"))
         (start_state two_items 0))
    = Ret (json 200 (VObj [("item_id", VStr "item-1")])) /\
  items (db (snd (handle (scripted syncing None) 5 POST_transactions_sync_all
                    (start_state two_items 0)))) = [row0; row1].
Proof.
  assert (Hd : NoDup (map Row.item_id (items (db (start_state (World := nat) two_items 0))))).
  { cbn. apply NoDup_cons. split; [| apply NoDup_singleton].
    apply not_elem_of_cons. split; [discriminate | apply not_elem_of_nil]. }
  pose proof (items_one_row_per_item_id (scripted syncing None) 5
                (POST_exchange_public_token (VStr "public-1") (Some "Other Bank"))
                (start_state two_items 0) Hd) as (H1 & H2 & _).
  pose proof (items_one_row_per_item_id (scripted syncing None) 5
                POST_transactions_sync_all (start_state two_items 0) Hd) as (_ & _ & H3).
  split; [exact H1 |].
  destruct (H2 (VStr "public-1") (Some "Other Bank")
              {| Exchange.access_token := "access-1b"; Exchange.item_id := "item-1" |} 1
              eq_refl eq_refl eq_refl eq_refl) as [Hitems Hresp].
  split; [exact Hitems |]. split; [exact Hresp |].
  apply H3. discriminate.
Defined.

(** ** The balances route (C10) *)

(** One turn of the loop of the balances route: the inner [try] throws at
    once, the [catch] makes the accounts-without-balances call. *)
Lemma balances_item_eq {World : Type} (rt : Runtime World) (r : Row.t) d f c (w : World) :
  balances_item rt r (Build_State d f c w) =
  (Ret (balances_entry r (fst (accountsGet (plaid rt) (Row.access_token r) w))),
   Build_State d f c (snd (accountsGet (plaid rt) (Row.access_token r) w))).
Proof.
  unfold balances_item, balances_fallback, try_catch, bind, attempt, upstream, throw, ret.
  cbn [world db files console].
  destruct (accountsGet (plaid rt) (Row.access_token r) w) as [[a | e] w1]; reflexivity.
Qed.

Lemma balances_loop_eq {World : Type} (rt : Runtime World) rows : forall d f c (w : World),
  for_of rows (balances_item rt) (Build_State d f c w) =
  (Ret (fst (balances_entries (accountsGet (plaid rt)) rows w)),
   Build_State d f c (snd (balances_entries (accountsGet (plaid rt)) rows w))).
Proof.
  induction rows as [| r rows IH]; intros d f c w; cbn [for_of balances_entries];
    [reflexivity |].
  unfold bind at 1. rewrite balances_item_eq.
  destruct (accountsGet (plaid rt) (Row.access_token r) w) as [reply w1]. cbn [fst snd].
  unfold bind at 1. rewrite IH.
  destruct (balances_entries (accountsGet (plaid rt)) rows w1) as [entries w2].
  reflexivity.
Qed.

Lemma balances_entries_per_item {World : Type}
    (get : string -> World -> reply AccountsGet.t * World) rows : forall w,
  Forall2 (fun r entry => exists w1, entry = balances_entry r (fst (get (Row.access_token r) w1)))
          rows (fst (balances_entries get rows w)).
Proof.
  induction rows as [| r rows IH]; intros w; cbn [balances_entries]; [constructor |].
  destruct (get (Row.access_token r) w) as [reply w1] eqn:Hget.
  specialize (IH w1). destruct (balances_entries get rows w1) as [entries w2].
  cbn [fst] in *. constructor; [| exact IH].
  exists w. rewrite Hget. reflexivity.
Qed.

(** C10.  The balances route answers 200 with one entry per stored item, in
    table order, and each entry is the fallback's: the inner [try] throws
    before anything is called, so the only upstream calls of the route are
    the accounts-without-balances calls, one per item, each made in the
    world the previous one left.  The entry of an item is
    [{item_id, accounts}] with the accounts that call answered (none when
    the answer has no [accounts]), each with its [balances] when that is
    truthy and [{}] otherwise, or [{item_id, error}] with the detail of the
    rejection.  Nothing but the world changes, and the route is the same
    whatever the client's accounts-with-balances method is. *)
Theorem balances_route_is_fallback {World : Type} (rt : Runtime World) (st : State World) :
  balances_route rt st =
    (Ret (json 200
            (VObj [("items",
                    VArr (fst (balances_entries (accountsGet (plaid rt))
                                 (items (db st)) (world st))))])),
     Build_State (db st) (files st) (console st)
       (snd (balances_entries (accountsGet (plaid rt)) (items (db st)) (world st)))) /\
  Forall2 (fun r entry =>
             exists w, entry = balances_entry r (fst (accountsGet (plaid rt)
                                                       (Row.access_token r) w)))
          (items (db st))
          (fst (balances_entries (accountsGet (plaid rt)) (items (db st)) (world st))) /\
  (forall r d f c w,
     balances_item rt r (Build_State d f c w) =
     (Ret (balances_entry r (fst (accountsGet (plaid rt) (Row.access_token r) w))),
      Build_State d f c (snd (accountsGet (plaid rt) (Row.access_token r) w)))) /\
  (forall f, balances_route (with_accountsBalanceGet f rt) st = balances_route rt st).
Proof.
  split; [| split; [apply balances_entries_per_item |
                    split; [intros; apply balances_item_eq | reflexivity]]].
  destruct st as [d f c w].
  unfold balances_route, guarded, try_catch. unfold bind at 1, attempt at 1.
  unfold bind at 1, query at 1. cbn [db files console world getAccessTokens].
  unfold getAccessTokens. unfold bind at 1. rewrite balances_loop_eq.
  reflexivity.
Qed.

(** * Further properties of the routes *)

(** ** What a computation leaves untouched in the files *)

Section KeepsFiles.
Context {World X : Type} (obs : gmap string string -> X).
Implicit Types st : State World.

Lemma keeps_files_ret {A} (a : A) : keeps_files (W := World) obs (ret a).
Proof. intros st. reflexivity. Qed.

Lemma keeps_files_throw {A} e : keeps_files (W := World) (A := A) obs (throw e).
Proof. intros st. reflexivity. Qed.

Lemma keeps_files_out_of_fuel {A} : keeps_files (W := World) (A := A) obs out_of_fuel.
Proof. intros st. reflexivity. Qed.

Lemma keeps_files_bind {A B} (m : M World A) (k : A -> M World B) :
  keeps_files obs m -> (forall a, keeps_files obs (k a)) -> keeps_files obs (bind m k).
Proof.
  intros Hm Hk st. unfold bind. specialize (Hm st).
  destruct (m st) as [[a | e |] st1]; cbn [snd] in *; [| exact Hm ..].
  rewrite (Hk a st1). exact Hm.
Qed.

Lemma keeps_files_attempt {A} (m : M World A) :
  keeps_files obs m -> keeps_files obs (attempt m).
Proof.
  intros Hm st. unfold attempt. specialize (Hm st).
  destruct (m st) as [[a | e |] st1]; exact Hm.
Qed.

Lemma keeps_files_try_catch {A} (m : M World A) (h : Err -> M World A) :
  keeps_files obs m -> (forall e, keeps_files obs (h e)) -> keeps_files obs (try_catch m h).
Proof.
  intros Hm Hh. unfold try_catch.
  apply keeps_files_bind; [apply keeps_files_attempt, Hm |].
  intros [a | e]; [apply keeps_files_ret | apply Hh].
Qed.

Lemma keeps_files_upstream {A} (call : World -> reply A * World) :
  keeps_files obs (upstream call).
Proof.
  intros st. unfold upstream. destruct (call (world st)) as [[data | e] w]; reflexivity.
Qed.

Lemma keeps_files_clock (now : World -> Z * World) : keeps_files obs (clock now).
Proof. intros st. unfold clock. destruct (now (world st)). reflexivity. Qed.

Lemma keeps_files_ask {A} (read : World -> A) : keeps_files obs (ask read).
Proof. intros st. reflexivity. Qed.

Lemma keeps_files_console_error args : keeps_files (W := World) obs (console_error args).
Proof. intros st. reflexivity. Qed.

Lemma keeps_files_query {A} (q : DB -> A) : keeps_files (W := World) obs (query q).
Proof. intros st. reflexivity. Qed.

Lemma keeps_files_run (stmt : DB -> DB) : keeps_files (W := World) obs (run stmt).
Proof. intros st. reflexivity. Qed.

Lemma keeps_files_readFile path : keeps_files (W := World) obs (readFile path).
Proof. intros st. unfold readFile. destruct (files st !! path); reflexivity. Qed.

Lemma keeps_files_writeFile (rt : Runtime World) path data :
  (forall f, obs (<[path := data]> f) = obs f) ->
  keeps_files obs (writeFile rt path data).
Proof.
  intros H st. unfold writeFile.
  destruct (fs_writeFile rt path data (world st)) as [[e |] w]; [reflexivity | apply H].
Qed.

Lemma keeps_files_for_of {A B} (rows : list A) (body : A -> M World B) :
  (forall r, keeps_files obs (body r)) -> keeps_files obs (for_of rows body).
Proof.
  intros Hb. induction rows as [| r rows IH]; cbn [for_of]; [apply keeps_files_ret |].
  apply keeps_files_bind; [apply Hb |]. intros x.
  apply keeps_files_bind; [exact IH |]. intros xs. apply keeps_files_ret.
Qed.

Lemma keeps_files_transactionsLoop get fuel row start end_ : forall offset tx,
  keeps_files obs (transactionsLoop (World := World) get fuel row start end_ offset tx).
Proof.
  induction fuel as [| fuel IH]; intros offset tx; cbn [transactionsLoop];
    [apply keeps_files_out_of_fuel |].
  apply keeps_files_bind; [apply keeps_files_attempt, keeps_files_upstream |].
  intros [resp | e].
  - cbn zeta. destruct (_ <? _); [apply IH | apply keeps_files_ret].
  - apply keeps_files_bind;
      [apply keeps_files_console_error | intros _; apply keeps_files_ret].
Qed.

Lemma keeps_files_syncLoop (rt : Runtime World) fuel access_token : forall hasMore acc,
  keeps_files obs (syncLoop rt fuel access_token hasMore acc).
Proof.
  induction fuel as [| fuel IH]; intros hasMore acc; cbn [syncLoop];
    destruct hasMore; try apply keeps_files_ret; [apply keeps_files_out_of_fuel |].
  apply keeps_files_bind; [apply keeps_files_upstream |]. intros d. apply IH.
Qed.

End KeepsFiles.

Create HintDb keeps_files.

#[local] Hint Resolve keeps_files_ret keeps_files_throw keeps_files_out_of_fuel
  keeps_files_upstream keeps_files_clock keeps_files_ask keeps_files_console_error
  keeps_files_query keeps_files_run keeps_files_readFile keeps_files_transactionsLoop
  keeps_files_syncLoop : keeps_files.

Ltac keeps_files_step :=
  first
    [ apply keeps_files_bind; [| intros ?]
    | apply keeps_files_try_catch; [| intros ?]
    | apply keeps_files_attempt
    | apply keeps_files_for_of; intros ?
    | solve [auto with keeps_files]
    | match goal with
      | |- keeps_files _ (match ?x with _ => _ end) => destruct x
      end ].

Ltac keeps_files_auto := repeat keeps_files_step.

Lemma keeps_files_fetchItemSnapshot {World X : Type} (obs : gmap string string -> X)
    (rt : Runtime World) fuel row days :
  keeps_files obs (fetchItemSnapshot rt fuel row days).
Proof. unfold fetchItemSnapshot, fetch_accounts, fetch_liabilities. keeps_files_auto. Qed.

Lemma keeps_files_static {World X : Type} (obs : gmap string string -> X)
    (rt : Runtime World) path :
  keeps_files obs (static rt path).
Proof.
  intros st. unfold static. destruct (express_static rt (files st) path); reflexivity.
Qed.

Ltac unfold_routes :=
  unfold create_link_token, link_token_update, getOneItem_get, exchange_public_token,
    list_items, transactions_sync, transactions_sync_all, sync_all_item,
    transactions_refresh_all, transactions_recurring, accounts_route,
    balances_route, balances_item, balances_fallback, liabilities_route,
    assets_create, assets_get, assets_pdf, assets_remove, enrich, oauth_redirect,
    dashboard_data_json, refresh_dashboard, guarded, reporting.

(** Every route but the dashboard refresh leaves the files alone. *)
Lemma handle_keeps_files {World X : Type} (obs : gmap string string -> X)
    (rt : Runtime World) fuel req :
  is_refresh_dashboard req = false -> keeps_files obs (handle rt fuel req).
Proof.
  intros Hreq.
  destruct req; cbn [handle]; try discriminate Hreq;
    try apply keeps_files_static; unfold_routes; keeps_files_auto.
Qed.

(** The dashboard refresh writes no file but the dashboard JSON. *)
Lemma refresh_dashboard_keeps_other_files {World : Type} (rt : Runtime World) fuel hdr path :
  path <> DASH_JSON ->
  keeps_files (fun f => f !! path) (refresh_dashboard rt fuel hdr).
Proof.
  intros Hpath. unfold refresh_dashboard. keeps_files_auto;
    try apply keeps_files_fetchItemSnapshot.
  apply keeps_files_writeFile. intros f. apply lookup_insert_ne. congruence.
Qed.

Lemma refresh_dashboard_keeps_db {World X : Type} (obs : DB -> X) (rt : Runtime World)
    fuel hdr :
  keeps obs (refresh_dashboard rt fuel hdr).
Proof.
  unfold refresh_dashboard. keeps_auto; apply keeps_fetchItemSnapshot.
Qed.

(** ** Which routes write what *)

(** Only the dashboard refresh writes files, the only file it writes is the
    dashboard JSON, and it writes nothing to the database. *)
Theorem only_refresh_dashboard_writes_files {World : Type} (rt : Runtime World)
    (fuel : nat) (req : Request) (st : State World) (path : string) :
  is_refresh_dashboard req = false \/ path <> DASH_JSON ->
  files (snd (handle rt fuel req st)) !! path = files st !! path /\
  (is_refresh_dashboard req = false -> files (snd (handle rt fuel req st)) = files st) /\
  (is_refresh_dashboard req = true -> db (snd (handle rt fuel req st)) = db st).
Proof.
  intros Hcase. split; [| split].
  - destruct (is_refresh_dashboard req) eqn:Hreq.
    + destruct Hcase as [Hf | Hpath]; [discriminate |].
      destruct req; try discriminate Hreq. cbn [handle].
      apply (refresh_dashboard_keeps_other_files rt fuel _ path Hpath st).
    + apply (handle_keeps_files (fun f => f !! path) rt fuel req Hreq st).
  - intros Hreq. apply (handle_keeps_files (fun f => f) rt fuel req Hreq st).
  - intros Hreq. destruct req; try discriminate Hreq. cbn [handle].
    apply (refresh_dashboard_keeps_db (fun d => d) rt fuel _ st).
Qed.

Lemma only_refresh_dashboard_writes_files_witness :
  files (snd (handle (scripted fallback_only (Some "s3cret")) 3
                (POST_refresh_dashboard (Some "s3cret"))
                {| db := two_items;
                   files := {[ "../web/index.html" := "<html></html>" ]};
                   console := []; world := 0 |})) !! "../web/index.html"
    = Some "<html></html>" /\
  files (snd (handle (scripted syncing None) 5 POST_transactions_sync_all
                {| db := two_items;
                   files := {[ "../web/index.html" := "<html></html>" ]};
                   console := []; world := 0 |}))
    = {[ "../web/index.html" := "<html></html>" ]}.
Proof.
  split.
  - refine (proj1 (only_refresh_dashboard_writes_files
                     (scripted fallback_only (Some "s3cret")) 3
                     (POST_refresh_dashboard (Some "s3cret"))
                     {| db := two_items;
                        files := {[ "../web/index.html" := "<html></html>" ]};
                        console := []; world := 0 |} "../web/index.html" _)).
    right. discriminate.
  - refine (proj1 (proj2 (only_refresh_dashboard_writes_files (scripted syncing None) 5
                            POST_transactions_sync_all
                            {| db := two_items;
                               files := {[ "../web/index.html" := "<html></html>" ]};
                               console := []; world := 0 |} "../web/index.html" _)) _).
    + left. reflexivity.
    + reflexivity.
Defined.

Lemma insertItem_cursors rowid now item_id access_token institution_name d :
  cursors (insertItem rowid now item_id access_token institution_name d) = cursors d.
Proof. unfold insertItem. destruct (has_item item_id (items d)); reflexivity. Qed.

(** Every route but the two sync routes leaves the cursors table alone. *)
Lemma handle_keeps_cursors {World : Type} (rt : Runtime World) fuel req :
  is_sync req = false -> keeps cursors (handle rt fuel req).
Proof.
  intros Hreq.
  destruct req; cbn [handle]; try discriminate Hreq;
    try apply keeps_static;
    try apply refresh_dashboard_keeps_db;
    unfold_routes; keeps_auto.
  apply keeps_run. intros d. apply insertItem_cursors.
Qed.

(** The single-item sync touches no cursor but the one of its item. *)
Lemma transactions_sync_keeps_other_cursors {World : Type} (rt : Runtime World)
    fuel item_id other :
  other <> str_or_empty item_id ->
  keeps (fun d => getCursor other d) (transactions_sync rt fuel item_id).
Proof.
  intros Hother. unfold transactions_sync, guarded. keeps_auto.
  apply keeps_run. intros d. unfold getCursor, upsertCursor. cbn [cursors].
  apply lookup_insert_ne. congruence.
Qed.

(** The cursors table is written by the two sync routes only, and the
    single-item sync leaves the cursor of every other item as it was. *)
Theorem only_sync_writes_cursors {World : Type} (rt : Runtime World)
    (fuel : nat) (req : Request) (st : State World) (other : string) :
  is_sync req = false \/
  (exists item_id, req = POST_transactions_sync item_id /\ other <> str_or_empty item_id) ->
  getCursor other (db (snd (handle rt fuel req st))) = getCursor other (db st) /\
  (is_sync req = false -> cursors (db (snd (handle rt fuel req st))) = cursors (db st)).
Proof.
  intros Hcase. split.
  - destruct Hcase as [Hreq | (item_id & -> & Hother)].
    + unfold getCursor. rewrite (handle_keeps_cursors rt fuel req Hreq st). reflexivity.
    + cbn [handle].
      apply (transactions_sync_keeps_other_cursors rt fuel item_id other Hother st).
  - intros Hreq. apply (handle_keeps_cursors rt fuel req Hreq st).
Qed.

Lemma only_sync_writes_cursors_witness :
  getCursor "item-1"
    (db (snd (handle (scripted syncing None) 5 (POST_transactions_sync (Some "item-2"))
                (start_state two_items 0)))) = None /\
  cursors (db (snd (handle (scripted syncing None) 5
                      (POST_exchange_public_token (VStr "public-1") None)
                      (start_state one_item 0)))) = ∅.
Proof.
  split.
  - refine (proj1 (only_sync_writes_cursors (scripted syncing None) 5
                     (POST_transactions_sync (Some "item-2")) (start_state two_items 0)
                     "item-1" _)).
    right. exists (Some "item-2"). split; [reflexivity | discriminate].
  - refine (proj2 (only_sync_writes_cursors (scripted syncing None) 5
                     (POST_exchange_public_token (VStr "public-1") None)
                     (start_state one_item 0) "item-1" _) _).
    + left. reflexivity.
    + reflexivity.
Defined.

(** ** Requests refused before anything happens *)

(** A request a route refuses for a missing or unknown argument (400 when a
    required field is absent or empty, there are no items to report on or
    the transactions to enrich are not a non-empty array; 404 when the item
    is not stored) is answered without any upstream call and leaves the
    whole state as it was. *)
Theorem refused_requests_change_nothing {World : Type} (rt : Runtime World)
    (fuel : nat) (req : Request) (st : State World) (resp : Response) :
  refused (db st) req = Some resp ->
  handle rt fuel req st = (Ret resp, st).
Proof.
  destruct st as [d f c w].
  destruct req; cbn [refused handle db]; try discriminate.
  - destruct item_id as [item_id |]; [| intros [= <-]; reflexivity].
    destruct (getOneItem item_id d) eqn:Hrow; [discriminate |].
    intros [= <-]. unfold link_token_update, guarded, try_catch, getOneItem_get,
      bind, attempt, query, ret. cbn [db]. rewrite Hrow. reflexivity.
  - destruct (truthy public_token) eqn:Ht; [discriminate |].
    intros [= <-]. unfold exchange_public_token, guarded, try_catch, bind, attempt, ret.
    rewrite Ht. reflexivity.
  - destruct (str_truthy item_id) eqn:Ht.
    + destruct (getOneItem (str_or_empty item_id) d) eqn:Hrow; [discriminate |].
      intros [= <-].
      unfold transactions_sync, guarded, try_catch, bind, attempt, query, ret.
      rewrite Ht. cbn [negb db]. cbv zeta. cbn [db]. rewrite Hrow. reflexivity.
    + intros [= <-].
      unfold transactions_sync, guarded, try_catch, bind, attempt, query, ret.
      rewrite Ht. reflexivity.
  - destruct (items d) as [| r rows] eqn:Hitems; [| discriminate].
    intros [= <-]. unfold assets_create, reporting, try_catch, bind, attempt, query, ret,
      getAccessTokens. cbn [db]. rewrite Hitems. reflexivity.
  - destruct (truthy token) eqn:Ht; [discriminate |].
    intros [= <-]. unfold assets_get, reporting, try_catch, bind, attempt, ret.
    rewrite Ht. reflexivity.
  - destruct (truthy token) eqn:Ht; [discriminate |].
    intros [= <-]. unfold assets_pdf, try_catch, bind, attempt, ret.
    rewrite Ht. reflexivity.
  - destruct (truthy token) eqn:Ht; [discriminate |].
    intros [= <-]. unfold assets_remove, reporting, try_catch, bind, attempt, ret.
    rewrite Ht. reflexivity.
  - intros Hr.
    assert (Hn : no_transactions transactions = true /\
                 resp = error_json 400 "provide transactions[]").
    { destruct transactions as [| | | | | [| x xs] | |]; try discriminate Hr;
        injection Hr as <-; split; reflexivity. }
    destruct Hn as [Hn ->].
    unfold enrich, reporting, try_catch, bind, attempt, ret. rewrite Hn. reflexivity.
Qed.

Lemma refused_requests_change_nothing_witness :
  handle (scripted syncing None) 5 (POST_transactions_sync (Some "item-9"))
    (start_state two_items 0)
  = (Ret (error_json 404 "unknown_item"), start_state two_items 0) /\
  handle (scripted syncing None) 5 (POST_enrich (VArr []))
    (start_state two_items 0)
  = (Ret (error_json 400 "provide transactions[]"), start_state two_items 0).
Proof.
  split.
  - apply (refused_requests_change_nothing (scripted syncing None) 5
             (POST_transactions_sync (Some "item-9")) (start_state two_items 0)).
    reflexivity.
  - apply (refused_requests_change_nothing (scripted syncing None) 5
             (POST_enrich (VArr [])) (start_state two_items 0)).
    reflexivity.
Defined.

(** ** Who may refresh the dashboard *)

(** The refresh is let through exactly when a non-empty secret is configured
    and the X-Refresh-Token header carries it; otherwise (also when no
    secret or an empty one is configured and the header agrees with that)
    the route answers 401 and leaves the whole state as it was. *)
Theorem refresh_dashboard_authorisation {World : Type} (rt : Runtime World)
    (fuel : nat) (hdr : option string) (st : State World) :
  (unauthorized rt hdr = false <->
   exists secret, secret <> "" /\ DASHBOARD_REFRESH_TOKEN rt = Some secret /\
                  hdr = Some secret) /\
  (unauthorized rt hdr = true ->
   refresh_dashboard rt fuel hdr st = (Ret (error_json 401 "unauthorized"), st)).
Proof.
  split.
  - unfold unauthorized. split.
    + destruct (DASHBOARD_REFRESH_TOKEN rt) as [secret |]; [| discriminate].
      intros H. apply orb_false_iff in H as [Hs Hh].
      apply String.eqb_neq in Hs. apply negb_false_iff, String.eqb_eq in Hh.
      exists secret. split; [exact Hs |]. split; [reflexivity |].
      destruct hdr as [h |]; cbn [str_or_empty] in Hh; congruence.
    + intros (secret & Hs & -> & ->). cbn [str_or_empty].
      apply String.eqb_neq in Hs. rewrite Hs, String.eqb_refl. reflexivity.
  - intros Hu. unfold refresh_dashboard, try_catch, bind, attempt. rewrite Hu. reflexivity.
Qed.

Lemma refresh_dashboard_authorisation_witness :
  refresh_dashboard (scripted fallback_only (Some "")) 3 (Some "") (start_state two_items 0)
  = (Ret (error_json 401 "unauthorized"), start_state two_items 0).
Proof.
  refine (proj2 (refresh_dashboard_authorisation (scripted fallback_only (Some "")) 3
                   (Some "") (start_state two_items 0)) _).
  reflexivity.
Defined.

(** ** Routes with a [try] around each item *)

Section Returns.
Context {World : Type}.
Implicit Types st : State World.

Lemma for_of_returns {A B} (rows : list A) (body : A -> M World B) (Q : A -> B -> Prop) :
  (forall r, returns (body r) (Q r)) ->
  returns (for_of rows body) (Forall2 Q rows).
Proof.
  intros Hb. induction rows as [| r rows IH]; intros st; cbn [for_of].
  - exists []. split; [reflexivity | constructor].
  - unfold bind at 1. destruct (Hb r st) as (x & Hx & HQ).
    destruct (body r st) as [o st1]. cbn [fst] in Hx. subst o.
    unfold bind at 1. destruct (IH st1) as (xs & Hxs & HF).
    destruct (for_of rows body st1) as [o st2]. cbn [fst] in Hxs. subst o.
    exists (x :: xs). split; [reflexivity | constructor; assumption].
Qed.

(** [try { d = await call; push(f d) } catch (err) { push(g err) }] *)
Lemma try_upstream_returns {A B} (call : World -> reply A * World)
    (f : A -> B) (g : Err -> B) (P : B -> Prop) :
  (forall d, P (f d)) -> (forall e, P (g e)) ->
  returns (try_catch (bind (upstream call) (fun d => ret (f d))) (fun err => ret (g err))) P.
Proof.
  intros Hf Hg st. unfold try_catch, bind, attempt, upstream, ret.
  destruct (call (world st)) as [[d | e] w]; eexists; split; try reflexivity; auto.
Qed.

(** The shape shared by the five routes. *)
Lemma per_item_route_returns (body : Row.t -> M World value) (key marker : string)
    (Q : Row.t -> value -> Prop) st :
  (forall r, returns (body r) (Q r)) ->
  exists entries,
    fst (guarded (bind (query getAccessTokens) (fun rows =>
                  bind (for_of rows body) (fun items =>
                  ret (json 200 (VObj [(key, VArr items)]))))) marker st)
      = Ret (json 200 (VObj [(key, VArr entries)])) /\
    Forall2 Q (items (db st)) entries.
Proof.
  intros Hb. unfold guarded, try_catch.
  unfold bind at 1, attempt at 1, bind at 1, query at 1. unfold bind at 1.
  destruct (for_of_returns (getAccessTokens (db st)) body Q Hb st) as (xs & Hxs & HF).
  destruct (for_of (getAccessTokens (db st)) body st) as [o st1].
  cbn [fst] in Hxs. subst o. exists xs. split; [reflexivity | exact HF].
Qed.

End Returns.

Lemma per_item_routes_keep_db {World : Type} (rt : Runtime World) fuel req key :
  per_item_key req = Some key -> keeps (fun d => d) (handle rt fuel req).
Proof.
  intros Hreq. destruct req; try discriminate Hreq; cbn [handle];
    unfold_routes; keeps_auto.
Qed.

(** The five routes that wrap each item in its own [try] (refresh-all,
    recurring, accounts, balances, liabilities) always answer 200, with one
    entry per stored item, in the order of the table and carrying the
    item's identifier, whatever upstream does; they write nothing to the
    database. *)
Theorem per_item_routes_answer_for_every_item {World : Type} (rt : Runtime World)
    (fuel : nat) (req : Request) (key : string) (st : State World) :
  per_item_key req = Some key ->
  exists entries,
    fst (handle rt fuel req st) = Ret (json 200 (VObj [(key, VArr entries)])) /\
    Forall2 (fun r entry => own "item_id" entry = Some (VStr (Row.item_id r)))
            (items (db st)) entries /\
    db (snd (handle rt fuel req st)) = db st.
Proof.
  intros Hreq.
  assert (Hdb := per_item_routes_keep_db rt fuel req key Hreq st).
  destruct req; try discriminate Hreq; injection Hreq as <-; cbn [handle] in *.
  - destruct (per_item_route_returns
                (fun r => try_catch
                   (bind (upstream (transactionsRefresh (plaid rt) (Row.access_token r)))
                         (fun resp => ret (VObj [("item_id", VStr (Row.item_id r));
                                                 ("request_id", prop "request_id" resp)])))
                   (fun err => ret (item_error r err)))
                "refreshed" "refresh_all_failed"
                (fun r entry => own "item_id" entry = Some (VStr (Row.item_id r))) st)
      as (entries & H1 & H2).
    { intros r. apply try_upstream_returns; reflexivity. }
    exists entries. split; [exact H1 | split; [exact H2 | exact Hdb]].
  - destruct (per_item_route_returns
                (fun r => try_catch
                   (bind (upstream (transactionsRecurringGet (plaid rt) (Row.access_token r)))
                         (fun rec => ret (VObj [("item_id", VStr (Row.item_id r));
                                                ("inflow_streams", prop "inflow_streams" rec);
                                                ("outflow_streams", prop "outflow_streams" rec)])))
                   (fun err => ret (item_error r err)))
                "items" "recurring_failed"
                (fun r entry => own "item_id" entry = Some (VStr (Row.item_id r))) st)
      as (entries & H1 & H2).
    { intros r. apply try_upstream_returns; reflexivity. }
    exists entries. split; [exact H1 | split; [exact H2 | exact Hdb]].
  - destruct (per_item_route_returns
                (fun r => try_catch
                   (bind (upstream (accountsGet (plaid rt) (Row.access_token r)))
                         (fun a => ret (VObj [("item_id", VStr (Row.item_id r));
                                              ("accounts",
                                               accounts_json (AccountsGet.accounts a))])))
                   (fun err => ret (item_error r err)))
                "items" "accounts_failed"
                (fun r entry => own "item_id" entry = Some (VStr (Row.item_id r))) st)
      as (entries & H1 & H2).
    { intros r. apply try_upstream_returns; reflexivity. }
    exists entries. split; [exact H1 | split; [exact H2 | exact Hdb]].
  - destruct (per_item_route_returns (balances_fallback rt)
                "items" "balances_failed"
                (fun r entry => own "item_id" entry = Some (VStr (Row.item_id r))) st)
      as (entries & H1 & H2).
    { intros r. apply try_upstream_returns; reflexivity. }
    exists entries. split; [exact H1 | split; [exact H2 | exact Hdb]].
  - destruct (per_item_route_returns
                (fun r => try_catch
                   (bind (upstream (liabilitiesGet (plaid rt) (Row.access_token r)))
                         (fun L => ret (VObj [("item_id", VStr (Row.item_id r));
                                              ("liabilities",
                                               match LiabilitiesGet.liabilities L with
                                               | Some l => Liabilities.json l
                                               | None => VUndefined
                                               end);
                                              ("accounts", LiabilitiesGet.accounts L)])))
                   (fun err => ret (item_error r err)))
                "items" "liabilities_failed"
                (fun r entry => own "item_id" entry = Some (VStr (Row.item_id r))) st)
      as (entries & H1 & H2).
    { intros r. apply try_upstream_returns; reflexivity. }
    exists entries. split; [exact H1 | split; [exact H2 | exact Hdb]].
Qed.

Lemma per_item_routes_answer_for_every_item_witness :
  exists entries,
    fst (handle (scripted fallback_only None) 3 GET_liabilities (start_state two_items 0))
      = Ret (json 200 (VObj [("items", VArr entries)])) /\
    Forall2 (fun r entry => own "item_id" entry = Some (VStr (Row.item_id r)))
            [row0; row1] entries /\
    db (snd (handle (scripted fallback_only None) 3 GET_liabilities
               (start_state two_items 0))) = two_items.
Proof.
  apply (per_item_routes_answer_for_every_item (scripted fallback_only None) 3
           GET_liabilities "items" (start_state two_items 0)).
  reflexivity.
Defined.

(** ** A completed sync *)

(** The route once its loop has returned. *)
Lemma transactions_sync_after_loop {World : Type} (rt : Runtime World)
    (fuel : nat) (item_id : string) (row : Row.t) (st : State World)
    (acc : SyncAcc) (st1 : State World) :
  item_id <> "" ->
  getOneItem item_id (db st) = Some row ->
  syncLoop rt fuel (Row.access_token row) true
    (sync_start (stored_cursor item_id (db st))) st = (Ret acc, st1) ->
  transactions_sync rt fuel (Some item_id) st =
  (Ret (json 200 (VObj [("item_id", VStr item_id);
                        ("added_count", num_of_nat (length (sync_added acc)));
                        ("modified_count", num_of_nat (length (sync_modified acc)));
                        ("removed_count", num_of_nat (length (sync_removed acc)));
                        ("sample_added", VArr (take 5 (sync_added acc)))])),
   Build_State (upsertCursor item_id (sync_cursor acc) (db st))
     (files st1) (console st1) (world st1)).
Proof.
  intros Hid Hrow Hloop.
  assert (Hdb : db st1 = db st).
  { pose proof (keeps_syncLoop (fun d => d) rt fuel (Row.access_token row) true
                  (sync_start (stored_cursor item_id (db st))) st) as H.
    rewrite Hloop in H. exact H. }
  rewrite <- Hdb.
  unfold transactions_sync, guarded, try_catch. cbn [str_truthy str_or_empty].
  apply String.eqb_neq in Hid. rewrite Hid. cbn [negb].
  unfold bind at 1, attempt at 1.
  unfold bind at 1, query at 1. rewrite Hrow.
  unfold bind at 1, query at 1.
  rewrite (bind_eq _ _ _ _ _ Hloop). reflexivity.
Qed.

Section SyncTapeFacts.
Variable responses : nat -> reply TransactionsSync.t.
Variables (access_token : string) (stored : option string).

Lemma sync_requests_length k :
  length (sync_requests responses access_token stored k) = k.
Proof. unfold sync_requests. rewrite length_map. apply length_seq. Qed.

Lemma sync_requests_S k :
  sync_requests responses access_token stored (S k) =
  (sync_requests responses access_token stored k ++
   [{| TransactionsSync.access_token := access_token;
       TransactionsSync.cursor := str_or_null (cursor_before responses stored k);
       TransactionsSync.count := 500 |}])%list.
Proof. unfold sync_requests. rewrite seq_S, map_app. reflexivity. Qed.

Lemma synced_S k d :
  responses k = Answer d ->
  {| sync_cursor := Some (TransactionsSync.next_cursor d);
     sync_added := (sync_added (synced responses stored k)
                    ++ TransactionsSync.added d)%list;
     sync_modified := (sync_modified (synced responses stored k)
                       ++ TransactionsSync.modified d)%list;
     sync_removed := (sync_removed (synced responses stored k)
                      ++ TransactionsSync.removed d)%list |}
  = synced responses stored (S k).
Proof.
  intros H. unfold synced.
  cbn [cursor_before received sync_added sync_modified sync_removed].
  rewrite H. reflexivity.
Qed.

(** The loop over the scripted upstream: [n] batches that announce more,
    then a last one. *)
Lemma syncLoop_taped (n : nat) (last : TransactionsSync.t) :
  (forall k, k < n ->
     exists d, responses k = Answer d /\ TransactionsSync.has_more d = true) ->
  responses n = Answer last ->
  TransactionsSync.has_more last = false ->
  forall fuel j d f c,
    j <= n -> n - j < fuel ->
    syncLoop (sync_taped responses) fuel access_token true (synced responses stored j)
      (Build_State d f c (sync_requests responses access_token stored j))
    = (Ret (synced responses stored (S n)),
       Build_State d f c (sync_requests responses access_token stored (S n))).
Proof.
  intros Hmore Hlast Hstop.
  induction fuel as [| fuel IH]; intros j d f c Hj Hfuel; [lia |].
  cbn [syncLoop]. unfold bind at 1, upstream at 1.
  cbn [world db files console transactionsSync plaid sync_taped sync_cursor synced].
  unfold sync_tape. rewrite sync_requests_length, <- sync_requests_S.
  destruct (decide (j = n)) as [-> | Hne].
  - rewrite Hlast, Hstop, (synced_S _ _ Hlast).
    destruct fuel; reflexivity.
  - destruct (Hmore j ltac:(lia)) as (dj & Hdj & Hhas).
    rewrite Hdj, Hhas, (synced_S _ _ Hdj).
    apply IH; lia.
Qed.

End SyncTapeFacts.

(** A completed sync, over an upstream that answers the [k]-th call of
    [transactionsSync] with [responses k] and logs the requests.  When the
    first [n] responses are batches that announce more and response [n] is
    a batch [last] that does not, the single-item sync of a stored item
    makes exactly [n + 1] calls, the first with the stored cursor (none
    when nothing or an empty string is stored) and each later one with the
    [next_cursor] of the response before; it answers 200 with the numbers
    of added, modified and removed records of all [n + 1] batches and the
    first five added records, and stores [last]'s [next_cursor] for the
    item, which is what the next sync of the item starts from unless it is
    the empty string.  The items table, the cursors of the other items,
    the files and the console are as before. *)
Theorem completed_sync_stores_last_cursor (responses : nat -> reply TransactionsSync.t)
    (n fuel : nat) (last : TransactionsSync.t) (item_id : string) (row : Row.t)
    (st : State (list TransactionsSync.request)) :
  item_id <> "" ->
  getOneItem item_id (db st) = Some row ->
  world st = [] ->
  (forall k, k < n ->
     exists d, responses k = Answer d /\ TransactionsSync.has_more d = true) ->
  responses n = Answer last ->
  TransactionsSync.has_more last = false ->
  n < fuel ->
  transactions_sync (sync_taped responses) fuel (Some item_id) st =
  (Ret (json 200
          (VObj [("item_id", VStr item_id);
                 ("added_count",
                  num_of_nat (length (received responses TransactionsSync.added (S n))));
                 ("modified_count",
                  num_of_nat (length (received responses TransactionsSync.modified (S n))));
                 ("removed_count",
                  num_of_nat (length (received responses TransactionsSync.removed (S n))));
                 ("sample_added",
                  VArr (take 5 (received responses TransactionsSync.added (S n))))])),
   Build_State
     (upsertCursor item_id (Some (TransactionsSync.next_cursor last)) (db st))
     (files st) (console st)
     (sync_requests responses (Row.access_token row) (stored_cursor item_id (db st)) (S n))) /\
  getCursor item_id (db (snd (transactions_sync (sync_taped responses) fuel (Some item_id) st)))
    = Some (Some (TransactionsSync.next_cursor last)) /\
  stored_cursor item_id
    (db (snd (transactions_sync (sync_taped responses) fuel (Some item_id) st)))
    = str_or_null (Some (TransactionsSync.next_cursor last)) /\
  items (db (snd (transactions_sync (sync_taped responses) fuel (Some item_id) st)))
    = items (db st) /\
  (forall other, other <> item_id ->
     getCursor other
       (db (snd (transactions_sync (sync_taped responses) fuel (Some item_id) st)))
     = getCursor other (db st)).
Proof.
  intros Hid Hrow Hw Hmore Hlast Hstop Hfuel.
  pose proof (syncLoop_taped responses (Row.access_token row)
                (stored_cursor item_id (db st)) n last Hmore Hlast Hstop
                fuel 0 (db st) (files st) (console st) ltac:(lia) ltac:(lia)) as Hloop.
  assert (Hst : Build_State (db st) (files st) (console st)
                  (sync_requests responses (Row.access_token row)
                     (stored_cursor item_id (db st)) 0) = st).
  { destruct st as [d f c w]. cbn in Hw. subst w. reflexivity. }
  rewrite Hst in Hloop.
  rewrite (transactions_sync_after_loop (sync_taped responses) fuel item_id row st
             _ _ Hid Hrow Hloop).
  cbn [fst snd db files console world sync_cursor sync_added sync_modified sync_removed
       synced cursor_before].
  rewrite Hlast.
  split; [reflexivity |]. split; [| split; [| split]].
  - unfold getCursor, upsertCursor. cbn [cursors]. apply lookup_insert_eq.
  - unfold stored_cursor, getCursor, upsertCursor. cbn [cursors].
    rewrite lookup_insert_eq. reflexivity.
  - reflexivity.
  - intros other Hother. unfold getCursor, upsertCursor. cbn [cursors].
    apply lookup_insert_ne. congruence.
Qed.

Lemma completed_sync_stores_last_cursor_witness :
  transactions_sync (sync_taped two_batches) 5 (Some "item-2") (start_state with_cursor [])
  = (Ret (json 200 (VObj [("item_id", VStr "item-2");
                          ("added_count", num_of_nat 3);
                          ("modified_count", num_of_nat 1);
                          ("removed_count", num_of_nat 1);
                          ("sample_added", VArr [VStr "t1"; VStr "t2"; VStr "t3"])])),
     {| db := {| items := [row0; row1]; cursors := <["item-2" := Some "c2"]> {[ "item-2" := Some "c0" ]} |};
        files := ∅; console := [];
        world := [ {| TransactionsSync.access_token := "access-2";
                      TransactionsSync.cursor := Some "c0";
                      TransactionsSync.count := 500 |};
                   {| TransactionsSync.access_token := "access-2";
                      TransactionsSync.cursor := Some "c1";
                      TransactionsSync.count := 500 |} ] |}).
Proof.
  refine (proj1 (completed_sync_stores_last_cursor two_batches 1 5
                   {| TransactionsSync.added := [VStr "t3"];
                      TransactionsSync.modified := [];
                      TransactionsSync.removed := [VStr "r1"];
                      TransactionsSync.next_cursor := "c2";
                      TransactionsSync.has_more := false |}
                   "item-2" row1 (start_state with_cursor [])
                   ltac:(discriminate) eq_refl eq_refl _ eq_refl eq_refl ltac:(lia))).
  intros k Hk. assert (k = 0) as -> by lia.
  eexists. split; reflexivity.
Defined.

(** ** A first exchange *)

Lemma find_snoc {A} (p : A -> bool) (l : list A) (x : A) :
  find p (l ++ [x]) = match find p l with
                      | Some y => Some y
                      | None => if p x then Some x else None
                      end.
Proof.
  induction l as [| y l IH]; cbn [app find]; [reflexivity |].
  destruct (p y); [reflexivity | exact IH].
Qed.

Lemma has_item_find item_id rows :
  has_item item_id rows = false ->
  find (fun r => String.eqb (Row.item_id r) item_id) rows = None.
Proof.
  unfold has_item. induction rows as [| r rows IH]; cbn [existsb find]; [reflexivity |].
  intros H. apply orb_false_iff in H as [Hr Hrows]. rewrite Hr. auto.
Qed.

(** An exchange whose upstream answer names an item identifier not yet
    stored appends one row with that identifier, the access token received
    and the institution name of the request (null when absent or empty),
    after the rows already there; the row is what a lookup of the
    identifier then finds, lookups of other identifiers are unaffected, and
    the answer is 200 with the identifier. *)
Theorem first_exchange_stores_the_item {World : Type} (rt : Runtime World)
    (public_token : value) (institution_name : option string) (st : State World)
    (exch : Exchange.t) (w : World) :
  truthy public_token = true ->
  itemPublicTokenExchange (plaid rt) public_token (world st) = (Answer exch, w) ->
  has_item (Exchange.item_id exch) (items (db st)) = false ->
  let row := {| Row.id := sqlite_rowid rt w;
                Row.item_id := Exchange.item_id exch;
                Row.access_token := Exchange.access_token exch;
                Row.institution_name := str_or_null institution_name;
                Row.created_at := CURRENT_TIMESTAMP rt w |} in
  let st' := snd (exchange_public_token rt public_token institution_name st) in
  fst (exchange_public_token rt public_token institution_name st)
    = Ret (json 200 (VObj [("item_id", VStr (Exchange.item_id exch))])) /\
  items (db st') = (items (db st) ++ [row])%list /\
  getOneItem (Exchange.item_id exch) (db st') = Some row /\
  (forall other, other <> Exchange.item_id exch ->
     getOneItem other (db st') = getOneItem other (db st)).
Proof.
  intros Ht Hcall Hfresh row st'.
  assert (Hitems : items (db st') = (items (db st) ++ [row])%list).
  { subst st'.
    destruct (exchange_public_token_db rt public_token institution_name st)
      as [Hsame | (exch' & w' & Hcall' & ->)].
    - exfalso. revert Hsame.
      unfold exchange_public_token, guarded, try_catch. rewrite Ht. cbn [negb].
      unfold bind, attempt, upstream, ask, run, ret, console_error. rewrite Hcall.
      cbn [snd db]. unfold insertItem. rewrite Hfresh. intros Hsame.
      apply (f_equal (fun d => length (items d))) in Hsame. cbn [items] in Hsame.
      rewrite length_app in Hsame. cbn [length] in Hsame. lia.
    - rewrite Hcall in Hcall'. injection Hcall' as <- <-.
      unfold insertItem. rewrite Hfresh. reflexivity. }
  split; [exact (exchange_public_token_ok rt _ _ st exch w Ht Hcall) |].
  split; [exact Hitems |]. split.
  - unfold getOneItem. rewrite Hitems, find_snoc, (has_item_find _ _ Hfresh).
    subst row. cbn [Row.item_id]. rewrite String.eqb_refl. reflexivity.
  - intros other Hother. unfold getOneItem. rewrite Hitems, find_snoc.
    destruct (find _ (items (db st))); [reflexivity |].
    subst row. cbn [Row.item_id].
    apply not_eq_sym, String.eqb_neq in Hother. rewrite Hother. reflexivity.
Qed.

Lemma first_exchange_stores_the_item_witness :
  let row := {| Row.id := 2; Row.item_id := "item-1"; Row.access_token := "access-1b";
                Row.institution_name := None; Row.created_at := "2023-11-14 22:13:20" |} in
  let st' := snd (exchange_public_token (scripted syncing None) (VStr "public-1") (Some "")
                    (start_state one_item 0)) in
  fst (exchange_public_token (scripted syncing None) (VStr "public-1") (Some "")
         (start_state one_item 0))
    = Ret (json 200 (VObj [("item_id", VStr "item-1")])) /\
  items (db st') = [row1; row] /\
  getOneItem "item-1" (db st') = Some row /\
  (forall other, other <> "item-1" -> getOneItem other (db st') = getOneItem other one_item).
Proof.
  apply (first_exchange_stores_the_item (scripted syncing None) (VStr "public-1") (Some "")
           (start_state one_item 0)
           {| Exchange.access_token := "access-1b"; Exchange.item_id := "item-1" |} 1
           eq_refl eq_refl eq_refl).
Defined.

(** ** How computations end *)

Section Settles.
Context {World : Type}.
Implicit Types st : State World.

Lemma returns_settles {A} (m : M World A) (P : A -> Prop) : returns m P -> settles m P.
Proof. intros H st. right. apply H. Qed.

Lemma returns_ret {A} (a : A) (P : A -> Prop) : P a -> returns (W := World) (ret a) P.
Proof. intros H st. exists a. split; [reflexivity | exact H]. Qed.

Lemma returns_bind {A B} (m : M World A) (k : A -> M World B) P Q :
  returns m P -> (forall a, P a -> returns (k a) Q) -> returns (bind m k) Q.
Proof.
  intros Hm Hk st. unfold bind. destruct (Hm st) as (a & Ha & HP).
  destruct (m st) as [o st1]. cbn [fst] in Ha. subst o. apply (Hk a HP st1).
Qed.

Lemma returns_weaken {A} (m : M World A) (P Q : A -> Prop) :
  returns m P -> (forall a, P a -> Q a) -> returns m Q.
Proof. intros Hm HPQ st. destruct (Hm st) as (a & Ha & HP). eauto. Qed.

Lemma returns_clock (now : World -> Z * World) : returns (clock now) (fun _ => True).
Proof.
  intros st. unfold clock. destruct (now (world st)) as [t w]. exists t. split; auto.
Qed.

Lemma returns_console_error args : returns (W := World) (console_error args) (fun _ => True).
Proof. intros st. exists tt. split; auto. Qed.

Lemma returns_query {A} (q : DB -> A) : returns (W := World) (query q) (fun _ => True).
Proof. intros st. eexists. split; [reflexivity | exact I]. Qed.

Lemma finishes_upstream {A} (call : World -> reply A * World) : finishes (upstream call).
Proof.
  intros st. unfold upstream. destruct (call (world st)) as [[d | e] w]; discriminate.
Qed.

Lemma finishes_bind {A B} (m : M World A) (k : A -> M World B) :
  finishes m -> (forall a, finishes (k a)) -> finishes (bind m k).
Proof.
  intros Hm Hk st. unfold bind. specialize (Hm st).
  destruct (m st) as [[a | e |] st1]; cbn [fst] in *;
    [apply Hk | discriminate | congruence].
Qed.

Lemma finishes_clock (now : World -> Z * World) : finishes (clock now).
Proof. intros st. unfold clock. destruct (now (world st)). discriminate. Qed.

Lemma finishes_ret {A} (a : A) : finishes (W := World) (ret a).
Proof. intros st. discriminate. Qed.

(** A [try] around a body without loops always hands something back. *)
Lemma returns_attempt {A} (m : M World A) :
  finishes m -> returns (attempt m) (fun _ => True).
Proof.
  intros Hm st. unfold attempt. specialize (Hm st).
  destruct (m st) as [[a | e |] st1]; cbn [fst] in *;
    [eexists; split; [reflexivity | exact I] .. | congruence].
Qed.

Lemma settles_bind {A B} (m : M World A) (k : A -> M World B) P Q :
  settles m P -> (forall a, P a -> settles (k a) Q) -> settles (bind m k) Q.
Proof.
  intros Hm Hk st. unfold bind. destruct (Hm st) as [Ho | (a & Ha & HP)];
    destruct (m st) as [o st1]; cbn [fst] in *; subst o;
    [left; reflexivity | apply (Hk a HP st1)].
Qed.

Lemma settles_weaken {A} (m : M World A) (P Q : A -> Prop) :
  settles m P -> (forall a, P a -> Q a) -> settles m Q.
Proof.
  intros Hm HPQ st. destruct (Hm st) as [Ho | (a & Ha & HP)]; [left | right]; eauto.
Qed.

Lemma settles_for_of {A B} (rows : list A) (body : A -> M World B) (Q : A -> B -> Prop) :
  (forall r, settles (body r) (Q r)) ->
  settles (for_of rows body) (Forall2 Q rows).
Proof.
  intros Hb. induction rows as [| r rows IH]; cbn [for_of].
  - apply returns_settles, returns_ret. constructor.
  - eapply settles_bind; [apply Hb |]. intros x Hx.
    eapply settles_bind; [exact IH |]. intros xs Hxs.
    apply returns_settles, returns_ret. constructor; assumption.
Qed.

(** The pagination loop never throws and never drops what it was given. *)
Lemma settles_transactionsLoop get fuel row start end_ : forall offset tx,
  settles (transactionsLoop (World := World) get fuel row start end_ offset tx)
          (fun out => tx `prefix_of` out).
Proof.
  induction fuel as [| fuel IH]; intros offset tx; cbn [transactionsLoop].
  - intros st. left. reflexivity.
  - eapply settles_bind;
      [apply returns_settles, returns_attempt, finishes_upstream |].
    intros [resp | e] _.
    + cbn zeta. destruct (_ <? _).
      * eapply settles_weaken; [apply IH |].
        intros out Hout. etransitivity; [| exact Hout]. apply prefix_app_r. reflexivity.
      * apply returns_settles, returns_ret. apply prefix_app_r. reflexivity.
    + eapply settles_bind; [apply returns_settles, returns_console_error |].
      intros _ _. apply returns_settles, returns_ret. reflexivity.
Qed.

Lemma settles_ends {A} (m : M World A) (P : A -> Prop) (E : Err -> Prop) :
  settles m P -> ends m P E.
Proof. intros Hm st. destruct (Hm st) as [Ho | Hr]; [left | right; left]; assumption. Qed.

Lemma ends_throw {A} (e : Err) (P : A -> Prop) (E : Err -> Prop) :
  E e -> ends (W := World) (throw e) P E.
Proof. intros He st. right. right. exists e. split; [reflexivity | exact He]. Qed.

Lemma ends_bind {A B} (m : M World A) (k : A -> M World B) P Q E :
  ends m P E -> (forall a, P a -> ends (k a) Q E) -> ends (bind m k) Q E.
Proof.
  intros Hm Hk st. unfold bind.
  destruct (Hm st) as [Ho | [(a & Ha & HP) | (e & He & HE)]];
    destruct (m st) as [o st1]; cbn [fst] in *; subst o.
  - left. reflexivity.
  - apply (Hk a HP st1).
  - right. right. exists e. split; [reflexivity | exact HE].
Qed.

(** A [catch] that returns turns what the body throws into a result. *)
Lemma ends_try_catch {A} (m : M World A) (h : Err -> M World A) P E :
  ends m P E -> (forall e, E e -> returns (h e) P) -> settles (try_catch m h) P.
Proof.
  intros Hm Hh st. unfold try_catch, bind, attempt.
  destruct (Hm st) as [Ho | [(a & Ha & HP) | (e & He & HE)]];
    destruct (m st) as [o st1]; cbn [fst] in *; subst o.
  - left. reflexivity.
  - right. exists a. split; [reflexivity | exact HP].
  - right. apply (Hh e HE st1).
Qed.

End Settles.

Section SnapshotSettles.
Context {World : Type} (rt : Runtime World).

Lemma returns_fetch_accounts row : returns (fetch_accounts rt row) (fun _ => True).
Proof.
  unfold fetch_accounts.
  eapply returns_bind.
  { apply returns_attempt, finishes_bind; [apply finishes_clock |].
    intros now. apply finishes_upstream. }
  intros [accounts | e1] _; [apply returns_ret; exact I |].
  eapply returns_bind; [apply returns_console_error |]. intros _ _.
  eapply returns_bind; [apply returns_attempt, finishes_upstream |].
  intros [accRes2 | e2] _; [apply returns_ret; exact I |].
  eapply returns_bind; [apply returns_console_error |]. intros _ _.
  apply returns_ret. exact I.
Qed.

Lemma returns_fetch_liabilities row : returns (fetch_liabilities rt row) (fun _ => True).
Proof.
  unfold fetch_liabilities.
  eapply returns_bind; [apply returns_attempt, finishes_upstream |].
  intros [L | e] _; [apply returns_ret; exact I |].
  eapply returns_bind; [apply returns_console_error |]. intros _ _.
  apply returns_ret. exact I.
Qed.

(** The builder returns one of its two results, or throws at [accounts.map]. *)
Lemma ends_fetchItemSnapshot fuel row days :
  ends (fetchItemSnapshot rt fuel row days)
       (fun snap => snap = accounts_failed \/
                    exists accounts liabByAccount tx,
                      snap = reshape row accounts liabByAccount tx)
       (fun e => e = TypeError "Cannot read properties of undefined (reading 'map')").
Proof.
  unfold fetchItemSnapshot.
  eapply ends_bind; [apply settles_ends, returns_settles, returns_clock |]. intros end_date _.
  eapply ends_bind; [apply settles_ends, returns_settles, returns_clock |]. intros now _.
  cbn zeta.
  eapply ends_bind; [apply settles_ends, returns_settles, returns_fetch_accounts |].
  intros [accounts |] _.
  - eapply ends_bind; [apply settles_ends, returns_settles, returns_fetch_liabilities |].
    intros liab _. destruct accounts as [accounts |]; [| apply ends_throw; reflexivity].
    apply settles_ends.
    eapply settles_bind; [apply settles_transactionsLoop |]. intros tx _.
    apply returns_settles, returns_ret. right. eauto.
  - apply settles_ends, returns_settles, returns_ret. left. reflexivity.
Qed.


End SnapshotSettles.

(** ** When the snapshot builder throws *)




(** ** A dashboard refresh that is let through *)

Lemma snapshot_entry_of_snapshot r snap :
  (snap = accounts_failed \/
   exists accounts liabByAccount tx, snap = reshape r accounts liabByAccount tx) ->
  snapshot_entry r (with_item_id r snap).
Proof.
  intros [-> | (accounts & liab & tx & ->)]; split; try reflexivity.
  - right. split; [left; reflexivity | split; reflexivity].
  - left. reflexivity.
Qed.

Lemma refresh_dashboard_run {World : Type} (rt : Runtime World) fuel hdr (st : State World) :
  unauthorized rt hdr = false ->
  fst (refresh_dashboard rt fuel hdr st) = OutOfFuel \/
  exists snapshots now w r w',
    Forall2 snapshot_entry (items (db st)) snapshots /\
    fs_writeFile rt DASH_JSON
      (JSON_stringify rt (dashboard_document (toISOString rt now) snapshots)) w = (r, w') /\
    world (snd (refresh_dashboard rt fuel hdr st)) = w' /\
    match r with
    | None =>
        fst (refresh_dashboard rt fuel hdr st) = Ret (dashboard_summary snapshots) /\
        files (snd (refresh_dashboard rt fuel hdr st)) =
          <[DASH_JSON := JSON_stringify rt
                           (dashboard_document (toISOString rt now) snapshots)]> (files st)
    | Some e =>
        fst (refresh_dashboard rt fuel hdr st)
          = Ret (json 500 (VObj [("error", VStr "refresh_dashboard_failed")])) /\
        files (snd (refresh_dashboard rt fuel hdr st)) = files st
    end.
Proof.
  intros Hauth.
  destruct (refresh_dashboard rt fuel hdr st) as [o st'] eqn:Hrun. cbn [fst snd].
  unfold refresh_dashboard, try_catch in Hrun. rewrite Hauth in Hrun.
  unfold bind at 1, attempt at 1 in Hrun.
  unfold bind at 1, query at 1 in Hrun. unfold getAccessTokens in Hrun.
  unfold bind at 1 in Hrun.
  match type of Hrun with
  | context [for_of (items (db st)) ?b st] =>
      assert (H1 : returns (for_of (items (db st)) b) (Forall2 (fun _ _ => True) (items (db st))));
      [| assert (F1 := keeps_files_for_of (fun f => f) (items (db st)) b
                         ltac:(intros r; keeps_files_auto) st);
         destruct (H1 st) as (xs & Hxs & _);
         destruct (for_of (items (db st)) b st) as [o1 st1] ]
  end.
  { apply for_of_returns. intros r.
    eapply returns_bind.
    { apply returns_attempt, finishes_bind; [apply finishes_upstream |].
      intros _. apply finishes_ret. }
    intros [a | e] _; [apply returns_ret; exact I | apply returns_console_error]. }
  cbn [fst snd] in Hxs, F1. subst o1.
  unfold bind at 1 in Hrun.
  match type of Hrun with
  | context [for_of (items (db st)) ?b st1] =>
      assert (H2 : settles (for_of (items (db st)) b) (Forall2 snapshot_entry (items (db st))));
      [| assert (F2 := keeps_files_for_of (fun f => f) (items (db st)) b
                         ltac:(intros r; keeps_files_auto;
                               apply keeps_files_fetchItemSnapshot) st1);
         destruct (H2 st1) as [Ho | (snapshots & Hs & HF)];
         destruct (for_of (items (db st)) b st1) as [o2 st2] ]
  end.
  { apply settles_for_of. intros r.
    eapply ends_try_catch.
    - eapply ends_bind; [apply ends_fetchItemSnapshot |].
      intros snap Hsnap. apply settles_ends, returns_settles, returns_ret.
      apply snapshot_entry_of_snapshot, Hsnap.
    - intros e _. eapply returns_bind; [apply returns_console_error |]. intros _ _.
      apply returns_ret. split; [reflexivity |].
      right. split; [right; reflexivity | split; reflexivity]. }
  - cbn [fst] in Ho. subst o2. injection Hrun as <- _. left. reflexivity.
  - cbn [fst snd] in Hs, F2. subst o2.
    unfold bind at 1, clock at 1 in Hrun.
    destruct (Date_now rt (world st2)) as [now w].
    unfold bind at 1, writeFile at 1 in Hrun. cbn [db files console world] in Hrun.
    right. exists snapshots, now, w.
    destruct (fs_writeFile rt DASH_JSON
                (JSON_stringify rt (dashboard_document (toISOString rt now) snapshots)) w)
      as [r w'] eqn:Hw.
    exists r, w'. split; [exact HF |]. split; [reflexivity |].
    unfold dashboard_document in Hw. rewrite Hw in Hrun.
    destruct r as [e |]; cbn in Hrun; injection Hrun as <- <-; cbn [files world].
    + split; [reflexivity |]. split; [reflexivity |]. rewrite F2, F1. reflexivity.
    + split; [reflexivity |]. split; [reflexivity |]. rewrite F2, F1. reflexivity.
Qed.





(** ** Serving the dashboard JSON *)

(** After a refresh that answered 200, GET /dashboard_data.json answers 200
    with exactly the text the refresh wrote, the serialised document of the
    snapshots the refresh counted in its answer, with the headers
    [Cache-Control: no-store] and
    [Content-Type: application/json; charset=utf-8], and changes nothing;
    while the file does not exist the route answers 404 'not_found'. *)
Theorem refreshed_dashboard_is_served {World : Type} (rt : Runtime World)
    (fuel : nat) (hdr : option string) (st : State World)
    (resp : Response) (st' : State World) :
  refresh_dashboard rt fuel hdr st = (Ret resp, st') ->
  status resp = 200 ->
  (exists snapshots now,
     resp = dashboard_summary snapshots /\
     files st' !! DASH_JSON
       = Some (JSON_stringify rt (dashboard_document (toISOString rt now) snapshots)) /\
     dashboard_data_json st' =
       (Ret {| status := 200;
               headers := [("Cache-Control", "no-store");
                           ("Content-Type", "application/json; charset=utf-8")];
               body := Send (VStr (JSON_stringify rt
                                     (dashboard_document (toISOString rt now) snapshots))) |},
        st')) /\
  (files st !! DASH_JSON = None ->
   exists detail,
     dashboard_data_json st =
       (Ret (json 404 (VObj [("error", VStr "not_found"); ("detail", VStr detail)])), st)).
Proof.
  intros Hrun Hok. split.
  - destruct (unauthorized rt hdr) eqn:Hauth.
    { unfold refresh_dashboard, try_catch, bind, attempt in Hrun. rewrite Hauth in Hrun.
      injection Hrun as <- _. discriminate Hok. }
    destruct (refresh_dashboard_run rt fuel hdr st Hauth)
      as [Ho | (snapshots & now & w & r & w' & _ & _ & _ & Hr)];
      rewrite Hrun in *; cbn [fst snd] in *; [discriminate |].
    destruct r as [e |]; destruct Hr as [Hr Hf]; injection Hr as ->; [discriminate Hok |].
    exists snapshots, now. split; [reflexivity |].
    rewrite Hf, lookup_insert_eq. split; [reflexivity |].
    unfold dashboard_data_json, try_catch, bind, attempt, readFile, ret.
    rewrite Hf, lookup_insert_eq. reflexivity.
  - intros Hnone. eexists.
    unfold dashboard_data_json, try_catch, bind, attempt, readFile, ret.
    rewrite Hnone. cbn [message]. reflexivity.
Qed.

Lemma refreshed_dashboard_is_served_witness :
  (exists snapshots now,
     json 200 (VObj [("ok", VBool true); ("accounts", num_of_nat 0);
                     ("transactions", num_of_nat 0); ("errors", num_of_nat 0)])
       = dashboard_summary snapshots /\
     ({[ DASH_JSON := "{}" ]} : gmap string string) !! DASH_JSON
       = Some (JSON_stringify (scripted all_down (Some "s3cret"))
                 (dashboard_document
                    (toISOString (scripted all_down (Some "s3cret")) now) snapshots)) /\
     dashboard_data_json
       {| db := empty_db; files := {[ DASH_JSON := "{}" ]}; console := []; world := 1 |} =
       (Ret {| status := 200;
               headers := [("Cache-Control", "no-store");
                           ("Content-Type", "application/json; charset=utf-8")];
               body := Send (VStr (JSON_stringify (scripted all_down (Some "s3cret"))
                                     (dashboard_document
                                        (toISOString (scripted all_down (Some "s3cret")) now)
                                        snapshots))) |},
        {| db := empty_db; files := {[ DASH_JSON := "{}" ]}; console := []; world := 1 |})) /\
  (exists detail,
     dashboard_data_json (start_state (World := nat) empty_db 0) =
       (Ret (json 404 (VObj [("error", VStr "not_found"); ("detail", VStr detail)])),
        start_state empty_db 0)).
Proof.
  destruct (refreshed_dashboard_is_served (scripted all_down (Some "s3cret")) 0
              (Some "s3cret") (start_state empty_db 0) _ _ eq_refl eq_refl)
    as [H1 H2].
  split; [exact H1 | apply H2; reflexivity].
Defined.

(** ** No item stored *)

(** With an empty items table the routes that loop over the stored items
    (the item list, sync-all and the five per-item routes) answer 200 with
    empty arrays, make no upstream call and leave the whole state as it
    was. *)
Theorem routes_over_no_items {World : Type} (rt : Runtime World) (fuel : nat)
    (st : State World) :
  items (db st) = [] ->
  handle rt fuel GET_items st = (Ret (json 200 (VArr [])), st) /\
  handle rt fuel POST_transactions_sync_all st
    = (Ret (json 200 (VObj [("items", VArr []); ("total_added", num_of_nat 0)])), st) /\
  (forall req key,
     per_item_key req = Some key ->
     handle rt fuel req st = (Ret (json 200 (VObj [(key, VArr [])])), st)).
Proof.
  intros Hitems. split; [| split].
  - cbn [handle]. unfold list_items, bind, query, ret, getAccessTokens.
    rewrite Hitems. reflexivity.
  - cbn [handle]. unfold transactions_sync_all, guarded, try_catch, bind, attempt, query,
      ret, getAccessTokens. rewrite Hitems. reflexivity.
  - intros req key Hreq.
    destruct req; try discriminate Hreq; injection Hreq as <-; cbn [handle];
      unfold_routes; unfold try_catch, bind, attempt, query, ret, getAccessTokens;
      rewrite Hitems; reflexivity.
Qed.

Lemma routes_over_no_items_witness :
  handle (scripted all_down None) 0 GET_items (start_state empty_db 0)
    = (Ret (json 200 (VArr [])), start_state empty_db 0) /\
  handle (scripted all_down None) 0 POST_transactions_sync_all (start_state empty_db 0)
    = (Ret (json 200 (VObj [("items", VArr []); ("total_added", num_of_nat 0)])),
       start_state empty_db 0) /\
  handle (scripted all_down None) 0 GET_balances (start_state empty_db 0)
    = (Ret (json 200 (VObj [("items", VArr [])])), start_state empty_db 0).
Proof.
  destruct (routes_over_no_items (scripted all_down None) 0 (start_state empty_db 0) eq_refl)
    as (H1 & H2 & H3).
  split; [exact H1 |]. split; [exact H2 |]. apply H3. reflexivity.
Defined.

(** ** The liability of an account *)

Section PlainObjectFacts.
Context {A : Type} (key : A -> string) (fields : A -> list (string * value)).

(** [l.forEach(x => { o[key(x)] = fields(x) })] leaves the other keys. *)
Lemma fold_set_other l : forall (o : PlainObject) k,
  Forall (fun x => key x <> k) l ->
  properties (fold_left (fun o x => object_set (key x) (fields x) o) l o) !! k
  = properties o !! k.
Proof.
  induction l as [| x l IH]; intros o k Hl; [reflexivity |].
  apply Forall_cons in Hl as [Hx Hl]. cbn [fold_left].
  rewrite (IH _ _ Hl). unfold object_set.
  destruct (String.eqb (key x) "__proto__"); cbn [properties]; [reflexivity |].
  apply lookup_insert_ne. exact Hx.
Qed.

(** The last assignment to a key other than [__proto__] is the one read. *)
Lemma fold_set_last l1 x l2 (o : PlainObject) k :
  key x = k -> k <> "__proto__" ->
  Forall (fun y => key y <> k) l2 ->
  properties (fold_left (fun o x => object_set (key x) (fields x) o) (l1 ++ x :: l2) o) !! k
  = Some (VObj (fields x)).
Proof.
  intros Hk Hp Hl2. rewrite fold_left_app. cbn [fold_left].
  rewrite (fold_set_other _ _ _ Hl2). unfold object_set.
  rewrite Hk. apply String.eqb_neq in Hp. rewrite Hp. cbn [properties].
  apply lookup_insert_eq.
Qed.

(** Without an assignment to [__proto__] the prototype stays. *)
Lemma fold_set_prototype l : forall (o : PlainObject),
  Forall (fun x => key x <> "__proto__") l ->
  prototype (fold_left (fun o x => object_set (key x) (fields x) o) l o) = prototype o.
Proof.
  induction l as [| x l IH]; intros o Hl; [reflexivity |].
  apply Forall_cons in Hl as [Hx Hl]. cbn [fold_left].
  rewrite (IH _ Hl). unfold object_set.
  apply String.eqb_neq in Hx. rewrite Hx. reflexivity.
Qed.

(** A prototype that was assigned is one of the assigned objects. *)
Lemma fold_set_prototype_of (P : list (string * value) -> Prop) l :
  (forall x, P (fields x)) ->
  forall (o : PlainObject),
    match prototype o with Some f => P f | None => True end ->
    match prototype (fold_left (fun o x => object_set (key x) (fields x) o) l o) with
    | Some f => P f
    | None => True
    end.
Proof.
  intros HP. induction l as [| x l IH]; intros o Ho; [exact Ho |].
  cbn [fold_left]. apply IH. unfold object_set.
  destruct (String.eqb (key x) "__proto__"); cbn [prototype]; [apply HP | exact Ho].
Qed.

End PlainObjectFacts.

Section LiabilityFacts.
Context {World : Type} (rt : Runtime World).

Lemma liability_fields_lookup k a m n :
  k <> "apr_percentage" -> k <> "minimum_payment_amount" ->
  k <> "next_payment_due_date" ->
  obj_lookup k (liability_fields a m n) = None.
Proof.
  intros H1 H2 H3. unfold liability_fields. cbn [obj_lookup].
  apply String.eqb_neq in H1, H2, H3. rewrite H1, H2, H3. reflexivity.
Qed.

Lemma own_liability instName (o : PlainObject) a :
  own "liability" (shape_account instName o a)
  = Some (object_get (Account.account_id a) o .|| VNull).
Proof. reflexivity. Qed.

(** The own properties of the dictionary, kind by kind. *)
Lemma fill_liabilities_mortgage L l1 m l2 k :
  liabilities_of Liabilities.mortgage L = (l1 ++ m :: l2)%list ->
  property_key (Mortgage.account_id m) = k -> k <> "__proto__" ->
  Forall (fun x => property_key (Mortgage.account_id x) <> k) l2 ->
  properties (fill_liabilities rt L) !! k =
    Some (VObj (liability_fields
                  (Number_ rt (opt_prop (Mortgage.interest_rate m) "percentage" .?? VNum 0))
                  (Mortgage.next_monthly_payment m .?? VNull)
                  (Mortgage.next_payment_due_date m .?? VNull))).
Proof.
  intros Hl Hk Hp Hl2. unfold fill_liabilities. rewrite Hl.
  exact (fold_set_last (fun m => property_key (Mortgage.account_id m)) _ l1 m l2 _ k
           Hk Hp Hl2).
Qed.

Lemma fill_liabilities_student L l1 s l2 k :
  Forall (fun x => property_key (Mortgage.account_id x) <> k)
         (liabilities_of Liabilities.mortgage L) ->
  liabilities_of Liabilities.student L = (l1 ++ s :: l2)%list ->
  property_key (Student.account_id s) = k -> k <> "__proto__" ->
  Forall (fun x => property_key (Student.account_id x) <> k) l2 ->
  properties (fill_liabilities rt L) !! k =
    Some (VObj (liability_fields (Student.interest_rate_percentage s .?? VNull)
                                 (Student.minimum_payment_amount s .?? VNull)
                                 (Student.next_payment_due_date s .?? VNull))).
Proof.
  intros Hm Hl Hk Hp Hl2. unfold fill_liabilities. rewrite Hl.
  etransitivity.
  { exact (fold_set_other (fun m => property_key (Mortgage.account_id m)) _ _ _ k Hm). }
  exact (fold_set_last (fun s => property_key (Student.account_id s)) _ l1 s l2 _ k
           Hk Hp Hl2).
Qed.

Lemma fill_liabilities_credit L l1 c l2 k :
  Forall (fun x => property_key (Mortgage.account_id x) <> k)
         (liabilities_of Liabilities.mortgage L) ->
  Forall (fun x => property_key (Student.account_id x) <> k)
         (liabilities_of Liabilities.student L) ->
  liabilities_of Liabilities.credit L = (l1 ++ c :: l2)%list ->
  property_key (Credit.account_id c) = k -> k <> "__proto__" ->
  Forall (fun x => property_key (Credit.account_id x) <> k) l2 ->
  properties (fill_liabilities rt L) !! k =
    Some (VObj (liability_fields (opt_prop (Credit.apr c) "apr_percentage" .?? VNull)
                                 (Credit.minimum_payment_amount c .?? VNull)
                                 (Credit.next_payment_due_date c .?? VNull))).
Proof.
  intros Hm Hs Hl Hk Hp Hl2. unfold fill_liabilities. rewrite Hl.
  etransitivity.
  { exact (fold_set_other (fun m => property_key (Mortgage.account_id m)) _ _ _ k Hm). }
  etransitivity.
  { exact (fold_set_other (fun s => property_key (Student.account_id s)) _ _ _ k Hs). }
  exact (fold_set_last (fun c => property_key (Credit.account_id c)) _ l1 c l2 _ k
           Hk Hp Hl2).
Qed.

Lemma fill_liabilities_none L k :
  Forall (fun x => property_key (Mortgage.account_id x) <> k)
         (liabilities_of Liabilities.mortgage L) ->
  Forall (fun x => property_key (Student.account_id x) <> k)
         (liabilities_of Liabilities.student L) ->
  Forall (fun x => property_key (Credit.account_id x) <> k)
         (liabilities_of Liabilities.credit L) ->
  properties (fill_liabilities rt L) !! k = None.
Proof.
  intros Hm Hs Hc. unfold fill_liabilities.
  etransitivity.
  { exact (fold_set_other (fun m => property_key (Mortgage.account_id m)) _ _ _ k Hm). }
  etransitivity.
  { exact (fold_set_other (fun s => property_key (Student.account_id s)) _ _ _ k Hs). }
  etransitivity.
  { exact (fold_set_other (fun c => property_key (Credit.account_id c)) _ _ _ k Hc). }
  apply lookup_empty.
Qed.

(** The prototype of the dictionary is [Object.prototype] unless an entry
    is keyed [__proto__], and then it is a liability record. *)
Lemma fill_liabilities_prototype L :
  Forall (fun x => property_key (Mortgage.account_id x) <> "__proto__")
         (liabilities_of Liabilities.mortgage L) ->
  Forall (fun x => property_key (Student.account_id x) <> "__proto__")
         (liabilities_of Liabilities.student L) ->
  Forall (fun x => property_key (Credit.account_id x) <> "__proto__")
         (liabilities_of Liabilities.credit L) ->
  prototype (fill_liabilities rt L) = None.
Proof.
  intros Hm Hs Hc. unfold fill_liabilities.
  etransitivity.
  { exact (fold_set_prototype (fun m => property_key (Mortgage.account_id m)) _ _ _ Hm). }
  etransitivity.
  { exact (fold_set_prototype (fun s => property_key (Student.account_id s)) _ _ _ Hs). }
  etransitivity.
  { exact (fold_set_prototype (fun c => property_key (Credit.account_id c)) _ _ _ Hc). }
  reflexivity.
Qed.

Lemma fill_liabilities_prototype_of L :
  match prototype (fill_liabilities rt L) with
  | Some f => exists a m n, f = liability_fields a m n
  | None => True
  end.
Proof.
  unfold fill_liabilities.
  apply (fold_set_prototype_of (fun m => property_key (Mortgage.account_id m)) _
           (fun f => exists a m n, f = liability_fields a m n)); [eauto |].
  apply (fold_set_prototype_of (fun s => property_key (Student.account_id s)) _
           (fun f => exists a m n, f = liability_fields a m n)); [eauto |].
  apply (fold_set_prototype_of (fun c => property_key (Credit.account_id c)) _
           (fun f => exists a m n, f = liability_fields a m n)); [eauto |].
  exact I.
Qed.

End LiabilityFacts.

(** The liability the snapshot builder attaches to the record of an
    account [a] whose identifier [k] is not [__proto__], when the
    liabilities call answered [L]: the last mortgage entry for [k] if there
    is one, else the last student-loan entry for [k], else the last credit
    entry for [k], each as
    [{apr_percentage, minimum_payment_amount, next_payment_due_date}] with
    absent fields as [null] (a mortgage's rate as a number, 0 when absent).
    When no entry is for [k], the record has [liability: null], provided
    [k] names nothing a plain object inherits and either no entry is keyed
    [__proto__] or [k] is not the name of one of the three fields. *)
Theorem liability_precedence {World : Type} (rt : Runtime World)
    (L : LiabilitiesGet.t) (instName : string) (a : Account.t) :
  Account.account_id a <> "__proto__" ->
  (forall l1 m l2,
     liabilities_of Liabilities.mortgage L = (l1 ++ m :: l2)%list ->
     property_key (Mortgage.account_id m) = Account.account_id a ->
     Forall (fun x => property_key (Mortgage.account_id x) <> Account.account_id a) l2 ->
     own "liability" (shape_account instName (fill_liabilities rt L) a) =
       Some (VObj [("apr_percentage",
                    Number_ rt (opt_prop (Mortgage.interest_rate m) "percentage" .?? VNum 0));
                   ("minimum_payment_amount", Mortgage.next_monthly_payment m .?? VNull);
                   ("next_payment_due_date", Mortgage.next_payment_due_date m .?? VNull)])) /\
  (forall l1 s l2,
     Forall (fun x => property_key (Mortgage.account_id x) <> Account.account_id a)
            (liabilities_of Liabilities.mortgage L) ->
     liabilities_of Liabilities.student L = (l1 ++ s :: l2)%list ->
     property_key (Student.account_id s) = Account.account_id a ->
     Forall (fun x => property_key (Student.account_id x) <> Account.account_id a) l2 ->
     own "liability" (shape_account instName (fill_liabilities rt L) a) =
       Some (VObj [("apr_percentage", Student.interest_rate_percentage s .?? VNull);
                   ("minimum_payment_amount", Student.minimum_payment_amount s .?? VNull);
                   ("next_payment_due_date", Student.next_payment_due_date s .?? VNull)])) /\
  (forall l1 c l2,
     Forall (fun x => property_key (Mortgage.account_id x) <> Account.account_id a)
            (liabilities_of Liabilities.mortgage L) ->
     Forall (fun x => property_key (Student.account_id x) <> Account.account_id a)
            (liabilities_of Liabilities.student L) ->
     liabilities_of Liabilities.credit L = (l1 ++ c :: l2)%list ->
     property_key (Credit.account_id c) = Account.account_id a ->
     Forall (fun x => property_key (Credit.account_id x) <> Account.account_id a) l2 ->
     own "liability" (shape_account instName (fill_liabilities rt L) a) =
       Some (VObj [("apr_percentage", opt_prop (Credit.apr c) "apr_percentage" .?? VNull);
                   ("minimum_payment_amount", Credit.minimum_payment_amount c .?? VNull);
                   ("next_payment_due_date", Credit.next_payment_due_date c .?? VNull)])) /\
  (Forall (fun x => property_key (Mortgage.account_id x) <> Account.account_id a)
          (liabilities_of Liabilities.mortgage L) ->
   Forall (fun x => property_key (Student.account_id x) <> Account.account_id a)
          (liabilities_of Liabilities.student L) ->
   Forall (fun x => property_key (Credit.account_id x) <> Account.account_id a)
          (liabilities_of Liabilities.credit L) ->
   plain_key (Account.account_id a) = true ->
   (Forall (fun x => property_key (Mortgage.account_id x) <> "__proto__")
           (liabilities_of Liabilities.mortgage L) /\
    Forall (fun x => property_key (Student.account_id x) <> "__proto__")
           (liabilities_of Liabilities.student L) /\
    Forall (fun x => property_key (Credit.account_id x) <> "__proto__")
           (liabilities_of Liabilities.credit L)) \/
   (Account.account_id a <> "apr_percentage" /\
    Account.account_id a <> "minimum_payment_amount" /\
    Account.account_id a <> "next_payment_due_date") ->
   own "liability" (shape_account instName (fill_liabilities rt L) a) = Some VNull).
Proof.
  intros Hp. rewrite own_liability. unfold object_get.
  split; [| split; [| split]].
  - intros l1 m l2 Hl Hk Hl2.
    rewrite (fill_liabilities_mortgage rt L l1 m l2 _ Hl Hk Hp Hl2). reflexivity.
  - intros l1 s l2 Hm Hl Hk Hl2.
    rewrite (fill_liabilities_student rt L l1 s l2 _ Hm Hl Hk Hp Hl2). reflexivity.
  - intros l1 c l2 Hm Hs Hl Hk Hl2.
    rewrite (fill_liabilities_credit rt L l1 c l2 _ Hm Hs Hl Hk Hp Hl2). reflexivity.
  - intros Hm Hs Hc Hplain Hcase.
    rewrite (fill_liabilities_none rt L _ Hm Hs Hc).
    assert (Hinh : inherited (Account.account_id a) = VUndefined).
    { unfold plain_key in Hplain. apply negb_true_iff, orb_false_iff in Hplain as [_ Hn].
      unfold inherited. rewrite Hn. reflexivity. }
    apply String.eqb_neq in Hp. rewrite Hp, Hinh.
    destruct Hcase as [(Hm' & Hs' & Hc') | (F1 & F2 & F3)].
    + rewrite (fill_liabilities_prototype rt L Hm' Hs' Hc'). reflexivity.
    + pose proof (fill_liabilities_prototype_of rt L) as Hproto.
      destruct (prototype (fill_liabilities rt L)) as [f |]; [| reflexivity].
      destruct Hproto as (x & y & z & ->).
      rewrite (liability_fields_lookup _ x y z F1 F2 F3). reflexivity.
Qed.

Lemma liability_precedence_witness :
  own "liability" (shape_account "First Bank"
                     (fill_liabilities (scripted all_down None) liabilities1) checking)
    = Some (VObj [("apr_percentage", VNum 3); ("minimum_payment_amount", VNum 1500);
                  ("next_payment_due_date", VStr "2024-02-01")]) /\
  own "liability" (shape_account "First Bank"
                     (fill_liabilities (scripted all_down None) liabilities1) card)
    = Some (VObj [("apr_percentage", VNull); ("minimum_payment_amount", VNum 25);
                  ("next_payment_due_date", VNull)]) /\
  own "liability" (shape_account "First Bank"
                     (fill_liabilities (scripted all_down None) liabilities1)
                     {| Account.account_id := "acc-3"; Account.name := VStr "Savings";
                        Account.official_name := VNull; Account.mask := VNull;
                        Account.type := VNull; Account.subtype := VNull;
                        Account.balances := VNull |}) = Some VNull.
Proof.
  destruct (liability_precedence (scripted all_down None) liabilities1 "First Bank" checking
              ltac:(discriminate)) as (H1 & _ & _ & _).
  destruct (liability_precedence (scripted all_down None) liabilities1 "First Bank" card
              ltac:(discriminate)) as (_ & _ & H2 & _).
  destruct (liability_precedence (scripted all_down None) liabilities1 "First Bank"
              {| Account.account_id := "acc-3"; Account.name := VStr "Savings";
                 Account.official_name := VNull; Account.mask := VNull;
                 Account.type := VNull; Account.subtype := VNull;
                 Account.balances := VNull |}
              ltac:(discriminate)) as (_ & _ & _ & H3).
  split; [| split].
  - apply (H1 [] mortgage1 [] eq_refl eq_refl (List.Forall_nil _)).
  - apply (H2 [] credit1 []); try reflexivity; repeat constructor; discriminate.
  - apply H3;
      [repeat constructor; discriminate .. | reflexivity | right; repeat split; discriminate].
Defined.

(** ** Reshaped records *)

Lemma truthy_not_nullish v : truthy v = true -> nullish v = false.
Proof. destruct v; cbn; congruence. Qed.

Lemma js_or_not_nullish a b : nullish b = false -> nullish (a .|| b) = false.
Proof.
  intros Hb. unfold js_or. destruct (truthy a) eqn:Ha; [apply truthy_not_nullish, Ha | exact Hb].
Qed.

Lemma truthy_js_or a b : truthy (a .|| b) = truthy a || truthy b.
Proof. unfold js_or. destruct (truthy a) eqn:Ha; [rewrite Ha |]; reflexivity. Qed.

Lemma js_or_defined a b : b <> VUndefined -> a .|| b <> VUndefined.
Proof.
  intros Hb. unfold js_or. destruct (truthy a) eqn:Ha; [| exact Hb].
  intros ->. discriminate.
Qed.

(** A reshaped account is an object with the eight properties institution,
    name, nickname, mask, type, subtype, balances and liability, in that
    order; none of them is [undefined] (so none is lost in JSON), only
    [liability] can be [null], and [name] is non-empty as soon as the
    account identifier is. *)
Theorem reshaped_account_is_complete (instName : string)
    (liabByAccount : PlainObject) (a : Account.t) :
  exists fields,
    shape_account instName liabByAccount a = VObj fields /\
    map fst fields = ["institution"; "name"; "nickname"; "mask"; "type"; "subtype";
                      "balances"; "liability"] /\
    Forall (fun kv => snd kv <> VUndefined /\
                      (fst kv <> "liability" -> nullish (snd kv) = false)) fields /\
    (Account.account_id a <> "" ->
     exists v, own "name" (shape_account instName liabByAccount a) = Some v /\
               truthy v = true).
Proof.
  eexists. split; [reflexivity |]. split; [reflexivity |]. split.
  - repeat apply Forall_cons_2; try apply Forall_nil_2; cbn [fst snd]; split;
      try discriminate; try (intros _; reflexivity);
      try (intros _; repeat apply js_or_not_nullish; reflexivity);
      try (repeat apply js_or_defined; discriminate).
    intros H. congruence.
  - intros Hid. eexists. split; [reflexivity |].
    rewrite !truthy_js_or. cbn [truthy].
    apply String.eqb_neq in Hid. rewrite Hid. cbn [negb]. apply orb_true_r.
Qed.

Lemma reshaped_account_is_complete_witness :
  exists v, own "name" (shape_account "First Bank" ∅ card) = Some v /\ truthy v = true.
Proof.
  destruct (reshaped_account_is_complete "First Bank" ∅ card) as (fields & _ & _ & _ & H).
  apply H. discriminate.
Defined.

Lemma acctMap_of_none accounts id :
  Forall (fun a => Account.account_id a <> id) accounts ->
  acctMap_of accounts !! id = None.
Proof.
  intros H. unfold acctMap_of. rewrite (acctMap_fold_other _ _ _ H). apply lookup_empty.
Qed.

(** A transaction whose account identifier is that of no fetched account
    is still reshaped: its nickname is '', its date and amount are passed
    on as received, and its name and category are never [undefined] (''
    and the empty array at worst). *)
Theorem transaction_of_unknown_account (instName : string) (accounts : list Account.t)
    (t : Transaction.t) :
  Forall (fun a => Account.account_id a <> Transaction.account_id t) accounts ->
  let out := shape_transaction instName (acctMap_of accounts) t in
  own "nickname" out = Some (VStr "") /\
  own "institution" out = Some (VStr instName) /\
  own "date" out = Some (Transaction.date t) /\
  own "amount" out = Some (Transaction.amount t) /\
  (exists name, own "name" out = Some name /\ nullish name = false) /\
  (exists category, own "category" out = Some category /\ truthy category = true).
Proof.
  intros H out. subst out. unfold shape_transaction.
  rewrite (acctMap_of_none _ _ H). cbn [opt_field].
  repeat split; try reflexivity.
  - eexists. split; [reflexivity |]. repeat apply js_or_not_nullish. reflexivity.
  - eexists. split; [reflexivity |]. unfold js_or.
    destruct (truthy (Transaction.category t)) eqn:E; [exact E | reflexivity].
Qed.

Lemma transaction_of_unknown_account_witness :
  own "nickname" (shape_transaction "First Bank" (acctMap_of [card]) tx0) = Some (VStr "").
Proof.
  refine (proj1 (transaction_of_unknown_account "First Bank" [card] tx0 _)).
  repeat constructor. discriminate.
Defined.

(** ** A sync-all that fails keeps what it has stored *)

(** When the first stored item syncs and the second one throws, sync-all
    answers 500 'sync_all_failed' and the cursor stored for the first item
    stays stored: nothing is rolled back. *)
Theorem failed_sync_all_keeps_earlier_cursors {World : Type} (rt : Runtime World)
    (fuel : nat) (r1 r2 : Row.t) (rest : list Row.t) (st : State World)
    (acc1 : SyncAcc) (st1 : State World) (e : Err) (st2 : State World) :
  getAccessTokens (db st) = r1 :: r2 :: rest ->
  Row.item_id r2 <> Row.item_id r1 ->
  syncLoop rt fuel (Row.access_token r1) true
    (sync_start (stored_cursor (Row.item_id r1) (db st))) st = (Ret acc1, st1) ->
  syncLoop rt fuel (Row.access_token r2) true
    (sync_start (stored_cursor (Row.item_id r2) (db st)))
    (Build_State (upsertCursor (Row.item_id r1) (sync_cursor acc1) (db st))
       (files st1) (console st1) (world st1)) = (Throw e, st2) ->
  fst (transactions_sync_all rt fuel st) = Ret (error_json 500 "sync_all_failed") /\
  getCursor (Row.item_id r1) (db (snd (transactions_sync_all rt fuel st)))
    = Some (sync_cursor acc1) /\
  getCursor (Row.item_id r2) (db (snd (transactions_sync_all rt fuel st)))
    = getCursor (Row.item_id r2) (db st).
Proof.
  intros Hrows Hne Hloop1 Hloop2.
  assert (Hdb1 : db st1 = db st).
  { pose proof (keeps_syncLoop (fun d => d) rt fuel (Row.access_token r1) true
                  (sync_start (stored_cursor (Row.item_id r1) (db st))) st) as H.
    rewrite Hloop1 in H. exact H. }
  assert (Hdb2 : db st2 = upsertCursor (Row.item_id r1) (sync_cursor acc1) (db st)).
  { pose proof (keeps_syncLoop (fun d => d) rt fuel (Row.access_token r2) true
                  (sync_start (stored_cursor (Row.item_id r2) (db st)))
                  (Build_State (upsertCursor (Row.item_id r1) (sync_cursor acc1) (db st))
                     (files st1) (console st1) (world st1))) as H.
    rewrite Hloop2 in H. exact H. }
  assert (Hcur : stored_cursor (Row.item_id r2)
                   (upsertCursor (Row.item_id r1) (sync_cursor acc1) (db st1))
                 = stored_cursor (Row.item_id r2) (db st)).
  { rewrite Hdb1. unfold stored_cursor, getCursor, upsertCursor. cbn [cursors].
    rewrite lookup_insert_ne by congruence. reflexivity. }
  assert (Hrun : transactions_sync_all rt fuel st =
                 (Ret (error_json 500 "sync_all_failed"),
                  Build_State (db st2) (files st2)
                    (console st2 ++ [[err_detail e]])%list (world st2))).
  { unfold transactions_sync_all, guarded, try_catch.
    unfold bind at 1, attempt at 1.
    unfold bind at 1, query at 1. rewrite Hrows. cbn [for_of].
    unfold bind at 1. unfold bind at 1. unfold sync_all_item at 1.
    unfold bind at 1, query at 1.
    rewrite (bind_eq _ _ _ _ _ Hloop1).
    unfold bind at 1, run at 1. unfold ret at 1.
    unfold bind at 1. unfold bind at 1. unfold sync_all_item at 1.
    unfold bind at 1, query at 1. cbn [db]. rewrite Hcur, Hdb1.
    rewrite (bind_throw _ _ _ _ _ Hloop2). reflexivity. }
  rewrite Hrun. cbn [fst snd db]. rewrite Hdb2.
  split; [reflexivity |]. unfold getCursor, upsertCursor. cbn [cursors]. split.
  - apply lookup_insert_eq.
  - apply lookup_insert_ne. congruence.
Qed.

Lemma failed_sync_all_keeps_earlier_cursors_witness :
  fst (transactions_sync_all (scripted syncing None) 5 (start_state two_items_reversed 0))
    = Ret (error_json 500 "sync_all_failed") /\
  getCursor "item-2"
    (db (snd (transactions_sync_all (scripted syncing None) 5
                (start_state two_items_reversed 0)))) = Some (Some "c2") /\
  getCursor "item-1"
    (db (snd (transactions_sync_all (scripted syncing None) 5
                (start_state two_items_reversed 0)))) = None.
Proof.
  apply (failed_sync_all_keeps_earlier_cursors (scripted syncing None) 5 row1 row0 []
           (start_state two_items_reversed 0)
           {| sync_cursor := Some "c2"; sync_added := [VStr "t1"; VStr "t2"];
              sync_modified := []; sync_removed := [] |}
           {| db := two_items_reversed; files := ∅; console := []; world := 2 |}
           unavailable_error
           {| db := upsertCursor "item-2" (Some "c2") two_items_reversed; files := ∅;
              console := []; world := 4 |}
           eq_refl ltac:(discriminate) eq_refl eq_refl).
Defined.

(** ** Upstream failures of the single-call routes *)

(** When the one upstream call of a route is rejected with the error [e]:
    fetching an asset report answers 202, its PDF, its removal and the
    enrichment answer 500, each with [e.response?.data || e.message] as the
    body's error (the PDF route as the body itself) and without logging;
    the exchange logs that detail and answers 500 'exchange_failed'.  None
    of them writes to the database or the files. *)
Theorem upstream_rejection_answers {World : Type} (rt : Runtime World)
    (st : State World) (e : Err) (w : World) :
  (forall token,
     truthy token = true ->
     assetReportGet (plaid rt) (VObj [("asset_report_token", String_ rt token)]) (world st)
       = (Rejected e, w) ->
     assets_get rt token st =
       (Ret (json 202 (VObj [("error", err_detail e)])),
        Build_State (db st) (files st) (console st) w)) /\
  (forall token,
     truthy token = true ->
     assetReportPdfGet (plaid rt) (VObj [("asset_report_token", String_ rt token)]) (world st)
       = (Rejected e, w) ->
     assets_pdf rt token st =
       (Ret {| status := 500; headers := []; body := Send (err_detail e) |},
        Build_State (db st) (files st) (console st) w)) /\
  (forall token,
     truthy token = true ->
     assetReportRemove (plaid rt) (VObj [("asset_report_token", token)]) (world st)
       = (Rejected e, w) ->
     assets_remove rt token st =
       (Ret (json 500 (VObj [("error", err_detail e)])),
        Build_State (db st) (files st) (console st) w)) /\
  (forall transactions,
     no_transactions transactions = false ->
     transactionsEnrich (plaid rt) (VObj [("transactions", transactions)]) (world st)
       = (Rejected e, w) ->
     enrich rt transactions st =
       (Ret (json 500 (VObj [("error", err_detail e)])),
        Build_State (db st) (files st) (console st) w)) /\
  (forall public_token institution_name,
     truthy public_token = true ->
     itemPublicTokenExchange (plaid rt) public_token (world st) = (Rejected e, w) ->
     exchange_public_token rt public_token institution_name st =
       (Ret (error_json 500 "exchange_failed"),
        Build_State (db st) (files st) (console st ++ [[err_detail e]])%list w)).
Proof.
  repeat split.
  - intros token Ht Hcall.
    unfold assets_get, reporting, try_catch. rewrite Ht. cbn [negb].
    unfold bind, attempt, upstream, ret. rewrite Hcall. reflexivity.
  - intros token Ht Hcall.
    unfold assets_pdf, try_catch. rewrite Ht. cbn [negb].
    unfold bind, attempt, upstream, ret. rewrite Hcall. reflexivity.
  - intros token Ht Hcall.
    unfold assets_remove, reporting, try_catch. rewrite Ht. cbn [negb].
    unfold bind, attempt, upstream, ret. rewrite Hcall. reflexivity.
  - intros transactions Ht Hcall.
    unfold enrich, reporting, try_catch. rewrite Ht.
    unfold bind, attempt, upstream, ret. rewrite Hcall. reflexivity.
  - intros public_token institution_name Ht Hcall.
    unfold exchange_public_token, guarded, try_catch. rewrite Ht. cbn [negb].
    unfold bind, attempt, upstream, ret, console_error. rewrite Hcall. reflexivity.
Qed.

Lemma upstream_rejection_answers_witness :
  assets_get (scripted all_down None) (VStr "report-token") (start_state two_items 0) =
    (Ret (json 202 (VObj [("error", VStr "unavailable")])), start_state two_items 1) /\
  exchange_public_token (scripted all_down None) (VStr "public-1") None
    (start_state two_items 0) =
    (Ret (error_json 500 "exchange_failed"),
     {| db := two_items; files := ∅; console := [[VStr "unavailable"]]; world := 1 |}).
Proof.
  destruct (upstream_rejection_answers (scripted all_down None) (start_state two_items 0)
              unavailable_error 1) as (H1 & _ & _ & _ & H5).
  split.
  - apply (H1 (VStr "report-token")); reflexivity.
  - apply (H5 (VStr "public-1") None); reflexivity.
Defined.
